(** * EPUB chapter/title resolution: a shallow embedding of the extractor

    The repository holds several near-duplicate [EpubExtractor] classes.
    This development embeds three of them:

    - [src/EpubExtractor.js]      (module [V10]: locate, parse, fetch),
    - [src/EpubExtractor1.2.js]   (module [V12]: the full pipeline with
                                   navigation titles and heading fallback),
    - [src/unnamed/part_000]      (module [Compact]: the condensed rewrite).

    Further on come the remaining methods of the condensed class (module
    [Condensed]) and the path and chapter-list methods of the class
    [EpubParser] of [src/EpubExtractor1.2.js] (module [Parser]), with
    the plain objects they use as maps (module [PlainObject]).

    JavaScript strings are sequences of UTF-16 code units, so a string is a
    [list N]; [length] is then exactly the JavaScript [.length].  The zip
    library and the DOM are collaborators outside the repository: the
    archive is a finite map from entry names to entries, and the DOM
    queries the code performs are the fields of [DocumentParser]. *)

From Stdlib Require Import ZArith NArith Lia List DecimalString.
From stdpp Require Import base option list strings gmap.

Set Default Proof Using "Type".
Open Scope list_scope.

(** ** JavaScript strings *)

Abbreviation jsstring := (list N).

(** An ASCII literal as a JavaScript string. *)
Definition lit (s : string) : jsstring :=
  map Ascii.N_of_ascii (String.list_ascii_of_string s).
#[global] Arguments lit : simpl never.

(** [`${n}`] for a non-negative integer and for an integer. *)
Definition nat_to_jsstring (n : nat) : jsstring :=
  lit (NilZero.string_of_uint (Nat.to_uint n)).

Definition Z_to_jsstring (z : Z) : jsstring :=
  lit (NilZero.string_of_int (Z.to_int z)).

Definition SLASH : N := 47%N.

(** A string used as a condition: the empty string is falsy. *)
Definition truthy (s : jsstring) : bool :=
  match s with [] => false | _ :: _ => true end.

(** [null] is falsy as well. *)
Definition truthy_opt (o : option jsstring) : bool :=
  match o with None => false | Some s => truthy s end.

Definition str_eqb (a b : jsstring) : bool := bool_decide (a = b).

(** [s.startsWith('/')] *)
Definition startsWith_slash (s : jsstring) : bool :=
  match s with c :: _ => N.eqb c SLASH | [] => false end.

(** [s.substring(1)], [s.slice(1)] *)
Definition substring1 (s : jsstring) : jsstring := tail s.

(** [s.split('/')]: the pieces between separators, empty ones included;
    the empty string splits into one empty piece. *)
Fixpoint split_slash (s : jsstring) : list jsstring :=
  match s with
  | [] => [[]]
  | c :: r =>
      if N.eqb c SLASH then [] :: split_slash r
      else match split_slash r with
           | [] => [[c]]
           | seg :: segs => (c :: seg) :: segs
           end
  end.

(** [parts.join('/')] *)
Fixpoint join_slash (parts : list jsstring) : jsstring :=
  match parts with
  | [] => []
  | [p] => p
  | p :: rest => p ++ SLASH :: join_slash rest
  end.

(** [s.split('/').filter(part => part)] *)
Definition segments (s : jsstring) : list jsstring :=
  List.filter truthy (split_slash s).

Definition DOTDOT : jsstring := lit "..".

(** [arr.pop()] and [arr.push(x)] on an array held as a list. *)
Definition pop {A} (l : list A) : list A := removelast l.
Definition push {A} (l : list A) (x : A) : list A := l ++ [x].

(** ** Path resolver, [EpubExtractor.resolvePath]
    (src/EpubExtractor.js 162-183; the same text in EpubExtractor1.2.js
    240-252).  The [for] loop runs [i] from [0] while
    [i < relativeParts.length]; [n] counts the iterations left. *)

Definition resolve_step (baseParts : list jsstring) (part : jsstring)
  : list jsstring :=
  if str_eqb part DOTDOT then
    if (0 <? length baseParts)%nat then pop baseParts else baseParts
  else push baseParts part.

Fixpoint resolve_for (relativeParts : list jsstring) (n i : nat)
    (baseParts : list jsstring) : list jsstring :=
  match n with
  | O => baseParts
  | S n' =>
      match relativeParts !! i with
      | Some part =>
          resolve_for relativeParts n' (S i) (resolve_step baseParts part)
      | None => baseParts
      end
  end.

Definition resolvePath (basePath relativePath : jsstring) : jsstring :=
  if startsWith_slash relativePath then substring1 relativePath
  else
    let baseParts := segments basePath in
    let relativeParts := segments relativePath in
    join_slash
      (resolve_for relativeParts (length relativeParts) 0 baseParts).

(** The resolver as section 4.1 of the specification words it: fold the
    reference segments over the base segments, [..] popping the last one
    (nothing to pop on an empty base), anything else being appended. *)
Definition spec_fold_segment (acc : list jsstring) (seg : jsstring)
  : list jsstring :=
  if str_eqb seg DOTDOT then
    match acc with [] => [] | _ :: _ => removelast acc end
  else acc ++ [seg].

Definition spec_resolve (base ref : jsstring) : jsstring :=
  if startsWith_slash ref then tail ref
  else join_slash (fold_left spec_fold_segment (segments ref) (segments base)).

(** ** Text normalisation: [text.replace(/\s+/g, ' ').trim()]

    [\s] and [trim] use the same set: the ECMAScript white space and line
    terminator code units. *)
Definition is_ws (c : N) : bool :=
  ((9 <=? c) && (c <=? 13) || (c =? 32) || (c =? 160) || (c =? 5760)
   || (8192 <=? c) && (c <=? 8202) || (c =? 8232) || (c =? 8233)
   || (c =? 8239) || (c =? 8287) || (c =? 12288) || (c =? 65279))%N.

Definition SPACE : N := 32%N.

(** [in_run] tells that the previous code unit was white space, whose run
    has already been replaced by one space. *)
Fixpoint replace_ws_runs (in_run : bool) (s : jsstring) : jsstring :=
  match s with
  | [] => []
  | c :: r =>
      if is_ws c then
        if in_run then replace_ws_runs true r
        else SPACE :: replace_ws_runs true r
      else c :: replace_ws_runs false r
  end.

Fixpoint trimStart (s : jsstring) : jsstring :=
  match s with
  | [] => []
  | c :: r => if is_ws c then trimStart r else s
  end.

Definition trim (s : jsstring) : jsstring :=
  rev (trimStart (rev (trimStart s))).

Definition normalize_text (s : jsstring) : jsstring :=
  trim (replace_ws_runs false s).

(** [s.includes(needle)], the test behind the [[class*="..."]] selector. *)
Fixpoint is_prefix (p s : jsstring) : bool :=
  match p, s with
  | [], _ => true
  | _ :: _, [] => false
  | a :: p', b :: s' => N.eqb a b && is_prefix p' s'
  end.

Fixpoint includes (s needle : jsstring) : bool :=
  is_prefix needle s
  || match s with [] => false | _ :: r => includes r needle end.

(** [path.lastIndexOf('/')] as the position of the last separator, and
    the directory part
    [i > -1 ? path.substring(0, i + 1) : ''] taken with it. *)
Fixpoint lastIndexOf_slash (s : jsstring) : option nat :=
  match s with
  | [] => None
  | c :: r =>
      match lastIndexOf_slash r with
      | Some k => Some (S k)
      | None => if N.eqb c SLASH then Some O else None
      end
  end.

Definition directory_of (path : jsstring) : jsstring :=
  match lastIndexOf_slash path with
  | Some i => take (i + 1) path
  | None => []
  end.

(** ** Message texts and constants of the classes *)

(** ['请提供EPUB文件'] *)
Definition MSG_NO_FILE : jsstring :=
  [35831; 25552; 20379]%N ++ lit "EPUB" ++ [25991; 20214]%N.

(** ['未找到content.opf文件，可能不是有效的EPUB文件'] *)
Definition MSG_NO_OPF : jsstring :=
  [26410; 25214; 21040]%N ++ lit "content.opf"
  ++ [25991; 20214; 65292; 21487; 33021; 19981; 26159; 26377; 25928; 30340]%N
  ++ lit "EPUB" ++ [25991; 20214]%N.

(** ['找不到content.opf文件'] *)
Definition MSG_OPF_MISSING : jsstring :=
  [25214; 19981; 21040]%N ++ lit "content.opf" ++ [25991; 20214]%N.

(** ['请先调用init()方法初始化'] *)
Definition MSG_NOT_INIT : jsstring :=
  [35831; 20808; 35843; 29992]%N ++ lit "init()"
  ++ [26041; 27861; 21021; 22987; 21270]%N.

(** [`章节序号无效，有效范围是0到${last}`] *)
Definition MSG_BAD_INDEX (last : Z) : jsstring :=
  [31456; 33410; 24207; 21495; 26080; 25928; 65292; 26377; 25928; 33539;
   22260; 26159]%N ++ lit "0" ++ [21040]%N ++ Z_to_jsstring last.

(** [`找不到章节文件: ${path}`] *)
Definition MSG_NO_CHAPTER_FILE (path : jsstring) : jsstring :=
  [25214; 19981; 21040; 31456; 33410; 25991; 20214]%N ++ lit ": " ++ path.

(** [`章节${index + 1}`], the default title. *)
Definition default_title (index : nat) : jsstring :=
  [31456; 33410]%N ++ nat_to_jsstring (index + 1).

Definition containerPath : jsstring := lit "META-INF/container.xml".

Definition possiblePaths : list jsstring :=
  [lit "OEBPS/content.opf"; lit "content.opf"; lit "EPUB/content.opf"].

Definition XHTML_TYPE : jsstring := lit "application/xhtml+xml".

(** ** Archive Reader (JSZip)

    [zip.file(name)] is a lookup by exact entry name; an entry that exists
    can be read as text and as bytes (the interface of section 6 of the
    specification). *)
Record ZipObject := {
  entry_text : jsstring;
  entry_bytes : list Byte.byte
}.

Abbreviation Archive := (gmap (list N) ZipObject).

Definition zip_file (z : Archive) (name : jsstring) : option ZipObject :=
  z !! name.
#[global] Arguments zip_file : simpl never.

(** The constructor argument: a blob that [JSZip.loadAsync] opens as an
    archive, or rejects. *)
Inductive EpubFile :=
  | ZipBlob (content : Archive)
  | NotAZip.

Record Blob := {
  blob_content : list Byte.byte;
  blob_type : jsstring
}.

(** ** Document Parser (DOMParser, querySelector, document.evaluate)

    A parsed document is seen through the queries the classes run on it.
    Attribute values are [None] when [getAttribute] returns [null].
    Identifiers are XML names, so the interpolated selector
    [item[id="${v}"]] selects by equality of the [id] attribute. *)
Record Item := {
  item_id : option jsstring;
  item_href : option jsstring;
  item_title : option jsstring
}.

(** One node of [//ncx:navMap/ncx:navPoint]: the text content of its
    first [./ncx:navLabel/ncx:text] node, and the [src] attribute of its
    first [./ncx:content] node. *)
Record NavPoint := {
  np_text : option jsstring;
  np_content : option (option jsstring)
}.

(** An element of an HTML document: lower-cased tag name, [class]
    attribute, [textContent]. *)
Record Element := {
  el_tag : jsstring;
  el_class : option jsstring;
  el_textContent : jsstring
}.

Class DocumentParser := {
  (** [full-path] attributes of the [rootfile] elements, document order *)
  xml_rootfiles : jsstring → list (option jsstring);
  (** the [item] elements, document order *)
  xml_items : jsstring → list Item;
  (** [idref] attributes of the [spine itemref] elements, document order *)
  xml_spine_idrefs : jsstring → list (option jsstring);
  (** the navigation points of an NCX text; [None] when parsing or the
      XPath evaluation raises *)
  ncx_navPoints : jsstring → option (list NavPoint);
  (** the elements of a text parsed as [text/html], document order *)
  html_elements : jsstring → list Element;
  (** [xmlDoc.querySelector(selector)] for a selector text that this
      development does not interpret itself: [None] when the call raises
      a [SyntaxError]; otherwise the element found, seen through the
      attributes the classes read, or [null] *)
  xml_querySelector : jsstring → jsstring → option (option Item)
}.

(** What an attribute selector [item[id="..."]] that asks for the value
    [v] selects: the first [item] element whose [id] attribute is [v]. *)
Definition querySelector_item_id (items : list Item) (v : jsstring)
  : option Item :=
  List.find (λ it, bool_decide (item_id it = Some v)) items.

(** [`${idRef}`]: a missing attribute interpolates as the text [null]. *)
Definition interpolate (idRef : option jsstring) : jsstring :=
  match idRef with Some v => v | None => lit "null" end.

(** The selector text [`item[id="${v}"]`]: the value is pasted between
    two quotes as it is. *)
Definition QUOTE : N := 34%N.

Definition item_selector (v : jsstring) : jsstring :=
  lit "item[id=" ++ QUOTE :: v ++ QUOTE :: lit "]".

(** The code units that may not stand for themselves inside a quoted
    string of a selector: the quote ends the string, the backslash
    starts an escape, a line break makes the string a bad one, and the
    preprocessing of the selector text replaces NUL and a surrogate
    without its partner.  A value without any of them is plain. *)
Definition css_special (c : N) : bool :=
  ((c =? 34) || (c =? 92) || (c =? 10) || (c =? 12) || (c =? 13) || (c =? 0)
   || (55296 <=? c) && (c <=? 57343))%N.

Definition css_plain (v : jsstring) : bool :=
  forallb (λ c, negb (css_special c)) v.

Inductive Selector :=
  | TagName (name : jsstring)
  | ClassContains (needle : jsstring).

Definition selector_matches (sel : Selector) (e : Element) : bool :=
  match sel with
  | TagName name => str_eqb (el_tag e) name
  | ClassContains needle =>
      match el_class e with
      | Some v => includes v needle
      | None => false
      end
  end.

(** [doc.querySelector(selector)]: the first matching element. *)
Definition querySelector (doc : list Element) (sel : Selector)
  : option Element :=
  List.find (selector_matches sel) doc.

(** [['h1', 'h2', '[class*="title"]', '[class*="Title"]', 'h3']] *)
Definition titleSelectors : list Selector :=
  [TagName (lit "h1"); TagName (lit "h2"); ClassContains (lit "title");
   ClassContains (lit "Title"); TagName (lit "h3")].

(** ** Exceptions, effects and the method monad *)

Inductive exn :=
  | Error (message : jsstring)   (** [throw new Error(message)] *)
  | TypeError                    (** a property read on [null] *)
  | ZipError                     (** [JSZip.loadAsync] rejected *)
  | DOMException.                (** raised inside the document parser *)

Inductive res (A : Type) :=
  | Ok (a : A)
  | Throw (e : exn).
Arguments Ok {A} a.
Arguments Throw {A} e.

(** What a method does besides updating [this]: entry reads and console
    output, oldest first. *)
Inductive Effect :=
  | ReadText (name : jsstring)
  | ReadBytes (name : jsstring)
  | ConsoleLog
  | ConsoleWarn
  | ConsoleError.

Record World (T : Type) := {
  this : T;
  effects : list Effect
}.
Arguments this {T} w.
Arguments effects {T} w.
Arguments Build_World {T} this effects.

(** A method: from the world before the call to its outcome and the world
    after it.  A thrown exception keeps the updates made before it. *)
Definition M (T A : Type) : Type := World T → res A * World T.

Definition ret {T A} (a : A) : M T A := λ w, (Ok a, w).

Definition bind {T A B} (m : M T A) (k : A → M T B) : M T B :=
  λ w, match m w with
       | (Ok a, w') => k a w'
       | (Throw e, w') => (Throw e, w')
       end.

Definition throw {T A} (e : exn) : M T A := λ w, (Throw e, w).

Definition try_catch {T A} (body : M T A) (handler : exn → M T A) : M T A :=
  λ w, match body w with
       | (Ok a, w') => (Ok a, w')
       | (Throw e, w') => handler e w'
       end.

Definition get_this {T} : M T T := λ w, (Ok (this w), w).

Definition update_this {T} (f : T → T) : M T unit :=
  λ w, (Ok tt, {| this := f (this w); effects := effects w |}).

Definition emit {T} (es : list Effect) : M T unit :=
  λ w, (Ok tt, {| this := this w; effects := effects w ++ es |}).

Definition lift_res {T A} (r : res A) : M T A :=
  match r with Ok a => ret a | Throw e => throw e end.

(** [await entry.async('text')] and [await entry.async('arraybuffer')] *)
Definition async_text {T} (name : jsstring) (f : ZipObject) : M T jsstring :=
  bind (emit [ReadText name]) (λ _, ret (entry_text f)).

Definition async_arraybuffer {T} (name : jsstring) (f : ZipObject)
  : M T (list Byte.byte) :=
  bind (emit [ReadBytes name]) (λ _, ret (entry_bytes f)).

Declare Scope js_scope.
Delimit Scope js_scope with js.
Notation "'let*' x ':=' m 'in' k" := (bind m (λ x, k))
  (at level 10, x name, m at level 100, k at level 200) : js_scope.
Notation "m ';;;' k" := (bind m (λ _, k))
  (at level 100, k at level 200, right associativity) : js_scope.
Open Scope js_scope.

(** [arr.map((x, index) => ...)] with a callback that may throw: the
    first exception ends the call. *)
Fixpoint map_index_res {A B} (f : A → nat → res B) (index : nat)
    (l : list A) : res (list B) :=
  match l with
  | [] => Ok []
  | x :: rest =>
      match f x index with
      | Throw e => Throw e
      | Ok y =>
          match map_index_res f (S index) rest with
          | Throw e => Throw e
          | Ok ys => Ok (y :: ys)
          end
      end
  end.

(** [arr.filter(Boolean)] on an array of objects and [null]s. *)
Definition filter_Boolean {A} (l : list (option A)) : list A :=
  omap (λ x, x) l.

(** [xmlDoc.querySelector(`item[id="${v}"]`)] on the document parsed
    from [content].  Where [v] is plain, the text is the attribute
    selector that asks for the value [v]; any other text is what the
    selector engine makes of it: a [SyntaxError], as for a stray quote,
    or the element that the text happens to select, as for an escape. *)
Definition querySelector_item {DP : DocumentParser} (content v : jsstring)
  : res (option Item) :=
  if css_plain v then Ok (querySelector_item_id (xml_items content) v)
  else
    match xml_querySelector content (item_selector v) with
    | Some found => Ok found
    | None => Throw DOMException
    end.

(** ** Numbers as arguments

    A JavaScript number is a finite value, [NaN] or an infinity.  A
    finite value is given as a fraction, which every finite double is;
    [-0] is the fraction [0], and compares and indexes as [0] does. *)
Inductive JsNumber :=
  | Finite (numerator : Z) (denominator : positive)
  | NaN
  | Infinity (negative : bool).

Definition Integer (z : Z) : JsNumber := Finite z 1.

(** [x < 0] *)
Definition lt_zero (x : JsNumber) : bool :=
  match x with
  | Finite numerator _ => (numerator <? 0)%Z
  | NaN => false
  | Infinity negative => negative
  end.

(** [x >= arr.length] *)
Definition ge_length {A} (x : JsNumber) (arr : list A) : bool :=
  match x with
  | Finite numerator denominator =>
      (Z.of_nat (length arr) * Z.pos denominator <=? numerator)%Z
  | NaN => false
  | Infinity negative => negb negative
  end.

(** [arr[x]]: the property key of a number is the decimal text of an
    element index exactly when the number is a non-negative integer; any
    other key names no element, and the read gives [undefined]. *)
Definition at_number {A} (arr : list A) (x : JsNumber) : option A :=
  match x with
  | Finite numerator denominator =>
      if ((0 <=? numerator) && (numerator mod Z.pos denominator =? 0))%Z
      then arr !! Z.to_nat (numerator / Z.pos denominator)
      else None
  | NaN => None
  | Infinity _ => None
  end.

(** [resolvePath(base, attr)] on an attribute that may be [null]:
    [null.startsWith] raises. *)
Definition resolvePath_attr (base : jsstring) (attr : option jsstring)
  : res jsstring :=
  match attr with
  | Some relativePath => Ok (resolvePath base relativePath)
  | None => Throw TypeError
  end.

(** [loadJSZip], [readFileAsArrayBuffer] and [JSZip.loadAsync] together,
    the first lines of every [init]: the library is taken to be present. *)
Definition loadAsync (f : EpubFile) : res Archive :=
  match f with
  | ZipBlob content => Ok content
  | NotAZip => Throw ZipError
  end.

(** The loop over [possiblePaths] that ends [findContentOpf]
    (EpubExtractor.js 106-112, EpubExtractor1.2.js 74-77). *)
Fixpoint probe_paths (z : Archive) (paths : list jsstring)
  : option jsstring :=
  match paths with
  | [] => None
  | path :: rest =>
      match zip_file z path with
      | Some _ => Some path
      | None => probe_paths z rest
      end
  end.

(** ** [src/EpubExtractor.js]: locate, parse, count, fetch *)
Module V10.

(** [{ id, path }] *)
Record Chapter := {
  ch_id : option jsstring;
  ch_path : jsstring
}.

(** The fields of the instance; [jszip] is [this.zip]. *)
Record Extractor := {
  epubFile : EpubFile;
  jszip : option Archive;
  contentOpfPath : option jsstring;
  chapters : list Chapter;
  initialized : bool
}.

Definition set_jszip (z : option Archive) (t : Extractor) : Extractor :=
  {| epubFile := epubFile t; jszip := z; contentOpfPath := contentOpfPath t;
     chapters := chapters t; initialized := initialized t |}.

Definition set_contentOpfPath (p : option jsstring) (t : Extractor)
  : Extractor :=
  {| epubFile := epubFile t; jszip := jszip t; contentOpfPath := p;
     chapters := chapters t; initialized := initialized t |}.

Definition set_chapters (cs : list Chapter) (t : Extractor) : Extractor :=
  {| epubFile := epubFile t; jszip := jszip t;
     contentOpfPath := contentOpfPath t;
     chapters := cs; initialized := initialized t |}.

Definition set_initialized (b : bool) (t : Extractor) : Extractor :=
  {| epubFile := epubFile t; jszip := jszip t;
     contentOpfPath := contentOpfPath t;
     chapters := chapters t; initialized := b |}.

(** [constructor(epubFile)], lines 6-15 *)
Definition constructor (file : option EpubFile) : res Extractor :=
  match file with
  | None => Throw (Error MSG_NO_FILE)
  | Some f =>
      Ok {| epubFile := f; jszip := None; contentOpfPath := None;
            chapters := []; initialized := false |}
  end.

(** A read of [this.zip] that is about to be dereferenced. *)
Definition this_zip : M Extractor Archive :=
  let* t := get_this in
  match jszip t with
  | Some z => ret z
  | None => throw TypeError
  end.

Section WithParser.
Context {DP : DocumentParser}.

(** [findContentOpf], lines 83-113 *)
Definition findContentOpf : M Extractor (option jsstring) :=
  let* z := this_zip in
  match zip_file z containerPath with
  | Some containerFile =>
      let* content := async_text containerPath containerFile in
      match head (xml_rootfiles content) with
      | Some full_path => ret full_path
      | None => ret (probe_paths z possiblePaths)
      end
  | None => ret (probe_paths z possiblePaths)
  end.

(** The callback of [idRefs.map], lines 142-153, on the document parsed
    from [content] *)
Definition chapter_of_idRef (content : jsstring) (opfDir : jsstring)
    (idRef : option jsstring) (index : nat) : res (option Chapter) :=
  match querySelector_item content (interpolate idRef) with
  | Throw e => Throw e
  | Ok (Some item) =>
      match resolvePath_attr opfDir (item_href item) with
      | Ok p => Ok (Some {| ch_id := idRef; ch_path := p |})
      | Throw e => Throw e
      end
  | Ok None => Ok None
  end.

(** [parseContentOpf], lines 119-154.  [zip.file(name)] looks up
    [root + name], which for a [null] name is the text [null]. *)
Definition parseContentOpf : M Extractor unit :=
  let* t := get_this in
  let* z := this_zip in
  let name := interpolate (contentOpfPath t) in
  match zip_file z name with
  | None => throw (Error MSG_OPF_MISSING)
  | Some contentOpfFile =>
      let* content := async_text name contentOpfFile in
      match contentOpfPath t with
      | None => throw TypeError
      | Some p =>
          let opfDir := directory_of p in
          let idRefs := xml_spine_idrefs content in
          let* cs := lift_res (map_index_res
                        (chapter_of_idRef content opfDir)
                        0 idRefs) in
          update_this (set_chapters (filter_Boolean cs))
      end
  end.

(** [init], lines 21-44 *)
Definition init : M Extractor unit :=
  let* t := get_this in
  if initialized t then ret tt
  else
    try_catch
      (let* z := lift_res (loadAsync (epubFile t)) in
       update_this (set_jszip (Some z));;;
       let* p := findContentOpf in
       update_this (set_contentOpfPath p);;;
       if negb (truthy_opt p) then throw (Error MSG_NO_OPF)
       else
         parseContentOpf;;;
         update_this (set_initialized true))
      (λ error, emit [ConsoleError];;; throw error).

End WithParser.

(** [getChapterCount], lines 189-191 *)
Definition getChapterCount : M Extractor nat :=
  let* t := get_this in
  ret (length (chapters t)).

(** [getChapterXhtml], lines 198-217; [chapterIndex] is a number. *)
Definition getChapterXhtml (chapterIndex : JsNumber) : M Extractor Blob :=
  let* t := get_this in
  if negb (initialized t) then throw (Error MSG_NOT_INIT)
  else if lt_zero chapterIndex || ge_length chapterIndex (chapters t)
  then throw (Error (MSG_BAD_INDEX (Z.of_nat (length (chapters t)) - 1)))
  else
    match at_number (chapters t) chapterIndex with
    | None => throw TypeError
    | Some chapter =>
        let* z := this_zip in
        match zip_file z (ch_path chapter) with
        | None => throw (Error (MSG_NO_CHAPTER_FILE (ch_path chapter)))
        | Some xhtmlFile =>
            let* content := async_arraybuffer (ch_path chapter) xhtmlFile in
            ret {| blob_content := content; blob_type := XHTML_TYPE |}
        end
    end.

End V10.

(** ** [src/EpubExtractor1.2.js]: the pipeline with navigation titles and
    the heading fallback *)
Module V12.

(** [{ id, path, src, title }] *)
Record Chapter := {
  ch_id : option jsstring;
  ch_path : jsstring;
  ch_src : jsstring;
  ch_title : jsstring
}.

Definition set_title (title : jsstring) (c : Chapter) : Chapter :=
  {| ch_id := ch_id c; ch_path := ch_path c; ch_src := ch_src c;
     ch_title := title |}.

(** The fields of the instance; [jszip] is [this.zip]. *)
Record Extractor := {
  epubFile : EpubFile;
  jszip : option Archive;
  contentOpfPath : option jsstring;
  ncxPath : option jsstring;
  chapters : list Chapter;
  initialized : bool
}.

Definition set_jszip (z : option Archive) (t : Extractor) : Extractor :=
  {| epubFile := epubFile t; jszip := z; contentOpfPath := contentOpfPath t;
     ncxPath := ncxPath t; chapters := chapters t;
     initialized := initialized t |}.

Definition set_contentOpfPath (p : option jsstring) (t : Extractor)
  : Extractor :=
  {| epubFile := epubFile t; jszip := jszip t; contentOpfPath := p;
     ncxPath := ncxPath t; chapters := chapters t;
     initialized := initialized t |}.

Definition set_ncxPath (p : option jsstring) (t : Extractor) : Extractor :=
  {| epubFile := epubFile t; jszip := jszip t;
     contentOpfPath := contentOpfPath t;
     ncxPath := p; chapters := chapters t; initialized := initialized t |}.

Definition set_chapters (cs : list Chapter) (t : Extractor) : Extractor :=
  {| epubFile := epubFile t; jszip := jszip t;
     contentOpfPath := contentOpfPath t;
     ncxPath := ncxPath t; chapters := cs; initialized := initialized t |}.

Definition set_initialized (b : bool) (t : Extractor) : Extractor :=
  {| epubFile := epubFile t; jszip := jszip t;
     contentOpfPath := contentOpfPath t;
     ncxPath := ncxPath t; chapters := chapters t; initialized := b |}.

(** [chapter.title = title] on the chapter object held at [index]. *)
Definition set_chapter_title (index : nat) (title : jsstring)
    (t : Extractor) : Extractor :=
  set_chapters (alter (set_title title) index (chapters t)) t.

(** [constructor(epubFile)], lines 2-12 *)
Definition constructor (file : option EpubFile) : res Extractor :=
  match file with
  | None => Throw (Error MSG_NO_FILE)
  | Some f =>
      Ok {| epubFile := f; jszip := None; contentOpfPath := None;
            ncxPath := None; chapters := []; initialized := false |}
  end.

(** A read of [this.zip] that is about to be dereferenced. *)
Definition this_zip : M Extractor Archive :=
  let* t := get_this in
  match jszip t with
  | Some z => ret z
  | None => throw TypeError
  end.

(** [{ src, title }], an element of [navPoints] *)
Record NavEntry := {
  nav_src : jsstring;
  nav_title : jsstring
}.

(** The body of the loop over the XPath snapshot, lines 145-170: what it
    pushes for one navigation point, if anything. *)
Definition navPoint_entry (navPoint : NavPoint) : option NavEntry :=
  let title :=
    match np_text navPoint with
    | Some text => Some (normalize_text text)
    | None => None
    end in
  let src :=
    match np_content navPoint with
    | Some src_attribute => src_attribute
    | None => None
    end in
  match title, src with
  | Some title, Some src =>
      if truthy title && truthy src
      then Some {| nav_src := src; nav_title := title |}
      else None
  | _, _ => None
  end.

Definition collect_navPoints (snapshot : list NavPoint) : list NavEntry :=
  omap navPoint_entry snapshot.

(** The callback of [this.chapters.forEach], lines 173-179 *)
Definition match_nav (navPoints : list NavEntry) (chapter : Chapter)
  : Chapter :=
  match List.find (λ nav, str_eqb (nav_src nav) (ch_src chapter)) navPoints with
  | Some matchedNav => set_title (nav_title matchedNav) chapter
  | None => chapter
  end.

(** The loop of [extractTitleFromXhtml], lines 222-230: the first
    selector with a matching element ends it. *)
Fixpoint scan_selectors (doc : list Element) (selectors : list Selector)
  : option jsstring :=
  match selectors with
  | [] => None
  | selector :: rest =>
      match querySelector doc selector with
      | Some element =>
          let text := normalize_text (el_textContent element) in
          if (1 <? length text)%nat then Some text else None
      | None => scan_selectors doc rest
      end
  end.

(** Running the callbacks of [arr.map((x, index) => ...)] for the
    indices [index, index + 1, ...], [n] of them. *)
Fixpoint for_each_index (f : nat → M Extractor unit) (index n : nat)
  : M Extractor unit :=
  match n with
  | O => ret tt
  | S n' => f index;;; for_each_index f (S index) n'
  end.

Section WithParser.
Context {DP : DocumentParser}.

(** [findContentOpf], lines 64-78 *)
Definition findContentOpf : M Extractor (option jsstring) :=
  let* z := this_zip in
  match zip_file z containerPath with
  | Some containerFile =>
      let* content := async_text containerPath containerFile in
      match head (xml_rootfiles content) with
      | Some full_path => ret full_path
      | None => ret (probe_paths z possiblePaths)
      end
  | None => ret (probe_paths z possiblePaths)
  end.

(** The callback of [idRefs.map], lines 100-115 *)
Definition chapter_of_idRef (content : jsstring) (opfDir : jsstring)
    (idRef : option jsstring) (index : nat) : res (option Chapter) :=
  match querySelector_item content (interpolate idRef) with
  | Throw e => Throw e
  | Ok None => Ok None
  | Ok (Some item) =>
      let href := item_href item in
      match resolvePath_attr opfDir href, href with
      | Ok fullPath, Some src =>
          Ok (Some {| ch_id := idRef; ch_path := fullPath; ch_src := src;
                      ch_title := default_title index |})
      | Throw e, _ => Throw e
      | Ok _, None => Throw TypeError
      end
  end.

(** [parseContentOpf], lines 80-116.  [zip.file(name)] looks up
    [root + name], which for a [null] name is the text [null]. *)
Definition parseContentOpf : M Extractor unit :=
  let* t := get_this in
  let* z := this_zip in
  let name := interpolate (contentOpfPath t) in
  match zip_file z name with
  | None => throw (Error MSG_OPF_MISSING)
  | Some contentOpfFile =>
      let* content := async_text name contentOpfFile in
      match contentOpfPath t with
      | None => throw TypeError
      | Some p =>
          let opfDir := directory_of p in
          let items := xml_items content in
          match querySelector_item_id items (lit "ncx") with
          | Some ncxItem =>
              let* resolved :=
                lift_res (resolvePath_attr opfDir (item_href ncxItem)) in
              update_this (set_ncxPath (Some resolved))
          | None => ret tt
          end;;;
          let idRefs := xml_spine_idrefs content in
          let* cs := lift_res (map_index_res
                        (chapter_of_idRef content opfDir) 0 idRefs) in
          update_this (set_chapters (filter_Boolean cs))
      end
  end.

(** [parseNcx], lines 121-185 *)
Definition parseNcx : M Extractor unit :=
  let* t := get_this in
  match ncxPath t with
  | None => ret tt
  | Some p =>
      if negb (truthy p) then ret tt
      else
        let* z := this_zip in
        match zip_file z p with
        | None => emit [ConsoleWarn]
        | Some ncxFile =>
            try_catch
              (let* ncxContent := async_text p ncxFile in
               match ncx_navPoints ncxContent with
               | None => throw DOMException
               | Some snapshot =>
                   let navPoints := collect_navPoints snapshot in
                   update_this (λ t',
                     set_chapters (match_nav navPoints <$> chapters t') t');;;
                   emit [ConsoleLog]
               end)
              (λ error, emit [ConsoleWarn])
        end
  end.

(** [extractTitleFromXhtml], lines 212-231 *)
Definition extractTitleFromXhtml (xhtmlContent : jsstring)
  : option jsstring :=
  scan_selectors (html_elements xhtmlContent) titleSelectors.

(** The asynchronous callback of [preloadChapterTitles], lines 194-205,
    run for the chapter object held at [index]. *)
Definition preload_callback (index : nat) : M Extractor unit :=
  let* t := get_this in
  match chapters t !! index with
  | None => ret tt
  | Some chapter =>
      if negb (str_eqb (ch_title chapter) (default_title index)) then ret tt
      else
        try_catch
          (let* z := this_zip in
           match zip_file z (ch_path chapter) with
           | None => throw TypeError
           | Some xhtmlFile =>
               let* xhtmlContent := async_text (ch_path chapter) xhtmlFile in
               match extractTitleFromXhtml xhtmlContent with
               | Some title =>
                   if truthy title
                   then update_this (set_chapter_title index title)
                   else ret tt
               | None => ret tt
               end
           end)
          (λ error, emit [ConsoleWarn])
  end.

(** [preloadChapterTitles], lines 190-207.  Each callback reads and
    writes the title of its own chapter only, so the order in which
    [Promise.all] lets them finish does not show: they are run in index
    order. *)
Definition preloadChapterTitles : M Extractor unit :=
  let* t := get_this in
  if (length (chapters t) =? 0)%nat then ret tt
  else for_each_index preload_callback 0 (length (chapters t)).

(** [init], lines 14-41 *)
Definition init : M Extractor unit :=
  let* t := get_this in
  if initialized t then ret tt
  else
    try_catch
      (let* z := lift_res (loadAsync (epubFile t)) in
       update_this (set_jszip (Some z));;;
       let* p := findContentOpf in
       update_this (set_contentOpfPath p);;;
       if negb (truthy_opt p) then throw (Error MSG_NO_OPF)
       else
         parseContentOpf;;;
         let* t1 := get_this in
         (if truthy_opt (ncxPath t1) then parseNcx else ret tt);;;
         preloadChapterTitles;;;
         update_this (set_initialized true))
      (λ error, emit [ConsoleError];;; throw error).

End WithParser.

(** The public methods, lines 255-285.  [chapterIndex] is the ordinal of
    a chapter, an integer. *)
Definition getChapterCount : M Extractor nat :=
  let* t := get_this in
  if negb (initialized t) then throw (Error MSG_NOT_INIT)
  else ret (length (chapters t)).

Definition getChapterTitles : M Extractor (list jsstring) :=
  let* t := get_this in
  if negb (initialized t) then throw (Error MSG_NOT_INIT)
  else ret (ch_title <$> chapters t).

Definition out_of_range (chapterIndex : JsNumber) (t : Extractor) : bool :=
  lt_zero chapterIndex || ge_length chapterIndex (chapters t).

Definition getChapterTitle (chapterIndex : JsNumber) : M Extractor jsstring :=
  let* t := get_this in
  if negb (initialized t) then throw (Error MSG_NOT_INIT)
  else if out_of_range chapterIndex t
  then throw (Error (MSG_BAD_INDEX (Z.of_nat (length (chapters t)) - 1)))
  else
    match at_number (chapters t) chapterIndex with
    | None => throw TypeError
    | Some chapter => ret (ch_title chapter)
    end.

Definition getChapterXhtml (chapterIndex : JsNumber) : M Extractor Blob :=
  let* t := get_this in
  if negb (initialized t) then throw (Error MSG_NOT_INIT)
  else if out_of_range chapterIndex t
  then throw (Error (MSG_BAD_INDEX (Z.of_nat (length (chapters t)) - 1)))
  else
    match at_number (chapters t) chapterIndex with
    | None => throw TypeError
    | Some chapter =>
        let* z := this_zip in
        match zip_file z (ch_path chapter) with
        | None => throw (Error (MSG_NO_CHAPTER_FILE (ch_path chapter)))
        | Some xhtmlFile =>
            let* content := async_arraybuffer (ch_path chapter) xhtmlFile in
            ret {| blob_content := content; blob_type := XHTML_TYPE |}
        end
    end.

End V12.

(** ** [src/unnamed/part_000]: the condensed class *)
Module Compact.

(** [s(b, r)], lines 120-125.  The callback is the single conditional
    expression [p === '..' && bp.length ? bp.pop() : bp.push(p)]: its
    condition is the whole conjunction, so a [..] met while [bp] is empty
    takes the else branch. *)
Definition s_callback (bp : list jsstring) (p : jsstring) : list jsstring :=
  if str_eqb p DOTDOT && (0 <? length bp)%nat then pop bp else push bp p.

Definition s (b r : jsstring) : jsstring :=
  if startsWith_slash r then substring1 r
  else
    let bp := List.filter truthy (split_slash b) in
    join_slash (fold_left s_callback (List.filter truthy (split_slash r)) bp).

(** [C.L], the least accepted title length *)
Definition L : nat := 2.

(** The loop over [C.T] inside the callback of [t], lines 109-115: the
    text it assigns to [ch.t] before [break], if it gets there. *)
Fixpoint t_scan (d : list Element) (T : list Selector) : option jsstring :=
  match T with
  | [] => None
  | sel :: rest =>
      match querySelector d sel with
      | Some e =>
          let t := normalize_text (el_textContent e) in
          if (L <=? length t)%nat then Some t else t_scan d rest
      | None => t_scan d rest
      end
  end.

End Compact.

(** ** The claims in the words of the specification *)

(** Section 4.2 as claimed: the declared root-file path when the
    attribute is present, otherwise the first conventional path that
    exists in the archive. *)
Definition spec_locate {DP : DocumentParser} (z : Archive) : option jsstring :=
  let declared :=
    match zip_file z containerPath with
    | Some descriptor =>
        match head (xml_rootfiles (entry_text descriptor)) with
        | Some attribute => attribute
        | None => None
        end
    | None => None
    end in
  match declared with
  | Some p => Some p
  | None =>
      List.find (λ p, bool_decide (is_Some (zip_file z p)))
        [lit "OEBPS/content.opf"; lit "content.opf"; lit "EPUB/content.opf"]
  end.


(** Section 4.5 as claimed: the selectors in priority order, a match
    being accepted when its normalised text has at least two code units,
    a rejected match passing the turn to the next selector. *)
Definition spec_candidate (doc : list Element) (sel : Selector)
  : option jsstring :=
  match List.find (selector_matches sel) doc with
  | Some e =>
      let text := normalize_text (el_textContent e) in
      if (2 <=? length text)%nat then Some text else None
  | None => None
  end.

Fixpoint spec_first_candidate (doc : list Element) (sels : list Selector)
  : option jsstring :=
  match sels with
  | [] => None
  | sel :: rest =>
      match spec_candidate doc sel with
      | Some text => Some text
      | None => spec_first_candidate doc rest
      end
  end.

Definition spec_extract_title (doc : list Element) : option jsstring :=
  spec_first_candidate doc
    [TagName (lit "h1"); TagName (lit "h2"); ClassContains (lit "title");
     ClassContains (lit "Title"); TagName (lit "h3")].

(** ** Functional readings of the title stages of [V12] *)

(** The title that [parseNcx] finds for a chapter whose manifest href is
    [src]: that of the first usable navigation point with this [src],
    when the navigation document is there and parses. *)
Definition nav_title_for {DP : DocumentParser} (z : Archive)
    (ncxPath : option jsstring) (src : jsstring) : option jsstring :=
  match ncxPath with
  | Some p =>
      if truthy p then
        match zip_file z p with
        | Some ncxFile =>
            match ncx_navPoints (entry_text ncxFile) with
            | Some snapshot =>
                match List.find (λ nav, str_eqb (V12.nav_src nav) src)
                        (V12.collect_navPoints snapshot) with
                | Some nav => Some (V12.nav_title nav)
                | None => None
                end
            | None => None
            end
        | None => None
        end
      else None
  | None => None
  end.

(** The title that the fallback extracts from the document at [path],
    when the entry exists and a heading is accepted. *)
Definition heading_title_for {DP : DocumentParser} (z : Archive)
    (path : jsstring) : option jsstring :=
  match zip_file z path with
  | Some xhtmlFile =>
      match V12.extractTitleFromXhtml (entry_text xhtmlFile) with
      | Some title => if truthy title then Some title else None
      | None => None
      end
  | None => None
  end.

(** What the callback of [preloadChapterTitles] makes of the chapter at
    [index], and the effects it has. *)
Definition preload_chapter {DP : DocumentParser} (jz : option Archive)
    (index : nat) (c : V12.Chapter) : V12.Chapter :=
  if str_eqb (V12.ch_title c) (default_title index) then
    match jz with
    | Some z =>
        match heading_title_for z (V12.ch_path c) with
        | Some title => V12.set_title title c
        | None => c
        end
    | None => c
    end
  else c.

Definition preload_effects (jz : option Archive) (index : nat)
    (c : V12.Chapter) : list Effect :=
  if str_eqb (V12.ch_title c) (default_title index) then
    match jz with
    | Some z =>
        match zip_file z (V12.ch_path c) with
        | Some _ => [ReadText (V12.ch_path c)]
        | None => [ConsoleWarn]
        end
    | None => [ConsoleWarn]
    end
  else [].

(** A spine entry is resolvable when some manifest item has its idref
    for [id]; a missing idref reads as the text [null]. *)
Definition resolvable (items : list Item) (idRef : option jsstring) : bool :=
  bool_decide (Exists (λ it, item_id it = Some (interpolate idRef)) items).

(** The manifest item that the value [v] names: the first item, in
    document order, whose [id] is [v]. *)
Definition names_item (items : list Item) (v : jsstring) (item : Item)
  : Prop :=
  ∃ before after,
    items = before ++ item :: after
    ∧ item_id item = Some v
    ∧ Forall (λ it, item_id it ≠ Some v) before.

(** What [parseNcx] makes of one chapter. *)
Definition nav_chapter {DP : DocumentParser} (z : Archive)
    (ncxPath : option jsstring) (c : V12.Chapter) : V12.Chapter :=
  match nav_title_for z ncxPath (V12.ch_src c) with
  | Some title => V12.set_title title c
  | None => c
  end.

(** A chapter built from the manifest item that its identifier names:
    [src] is the [href] of that item, [path] that [href] resolved
    against the package directory. *)
Definition built_from (items : list Item) (opfDir : jsstring)
    (c : V12.Chapter) : Prop :=
  ∃ item,
    names_item items (interpolate (V12.ch_id c)) item
    ∧ item_href item = Some (V12.ch_src c)
    ∧ V12.ch_path c = resolvePath opfDir (V12.ch_src c).

(** A manifest item with its [title] attribute replaced. *)
Definition retitle (g : Item → option jsstring) (it : Item) : Item :=
  {| item_id := item_id it; item_href := item_href it; item_title := g it |}.

(** ** Example archives

    The example parser tells the documents apart by their whole text.
    A selector text that is not plain it rejects, as a selector engine
    rejects a text with a stray quote. *)
Module Fixture.

Definition container_xml : jsstring := lit "<container rootfile full-path>".
Definition container_bare_xml : jsstring := lit "<container rootfile>".
Definition book_opf : jsstring := lit "<package book>".
Definition plain_opf : jsstring := lit "<package plain>".
Definition book_ncx : jsstring := lit "<ncx book>".
Definition intro_xhtml : jsstring := lit "<h1>Heading</h1>".
Definition short_xhtml : jsstring := lit "<h1>1</h1><h3>Chapter One</h3>".

Definition item (id href : string) (title : option string) : Item :=
  {| item_id := Some (lit id); item_href := Some (lit href);
     item_title := lit <$> title |}.

Definition heading (tag text : string) : Element :=
  {| el_tag := lit tag; el_class := None; el_textContent := lit text |}.

Definition book_navPoints : list NavPoint :=
  [ {| np_text := Some (lit "  First" ++ [10%N; 9%N] ++ lit "chapter ");
       np_content := Some (Some (lit "text/c1.xhtml")) |};
    {| np_text := None;
       np_content := Some (Some (lit "text/c2.xhtml")) |} ].

Definition parser : DocumentParser := {|
  xml_rootfiles text :=
    if str_eqb text container_xml then [Some (lit "OEBPS/content.opf")]
    else if str_eqb text container_bare_xml then [None]
    else [];
  xml_items text :=
    if str_eqb text book_opf then
      [item "ncx" "toc.ncx" None;
       item "c1" "text/c1.xhtml" (Some "Intro");
       item "c2" "text/c2.xhtml" None]
    else if str_eqb text plain_opf then
      [item "c1" "c1.xhtml" (Some "Intro")]
    else [];
  xml_spine_idrefs text :=
    if str_eqb text book_opf then
      [Some (lit "c1"); Some (lit "gone"); Some (lit "c2")]
    else if str_eqb text plain_opf then [Some (lit "c1")]
    else [];
  ncx_navPoints text :=
    if str_eqb text book_ncx then Some book_navPoints else None;
  html_elements text :=
    if str_eqb text intro_xhtml then [heading "h1" "Heading"]
    else if str_eqb text short_xhtml then
      [heading "h1" "1"; heading "h3" "Chapter One"]
    else [];
  xml_querySelector _ _ := None
|}.

(** An entry holding an ASCII text. *)
Definition entry (text : jsstring) : ZipObject :=
  {| entry_text := text;
     entry_bytes := (λ c, default Byte.x00 (Byte.of_N c)) <$> text |}.

(** A book with a container descriptor, a navigation document, and a
    spine whose second entry has no manifest item. *)
Definition book_zip : Archive :=
  <[lit "META-INF/container.xml" := entry container_xml]>
  (<[lit "OEBPS/content.opf" := entry book_opf]>
  (<[lit "OEBPS/toc.ncx" := entry book_ncx]>
  (<[lit "OEBPS/text/c1.xhtml" := entry intro_xhtml]>
  (<[lit "OEBPS/text/c2.xhtml" := entry short_xhtml]> ∅)))).

(** The same book whose navigation document does not parse. *)
Definition broken_nav_zip : Archive :=
  <[lit "OEBPS/toc.ncx" := entry (lit "<ncx")]> book_zip.

(** A one-chapter book without descriptor and navigation document; the
    manifest item declares a title. *)
Definition plain_zip : Archive :=
  <[lit "content.opf" := entry plain_opf]>
  (<[lit "c1.xhtml" := entry intro_xhtml]> ∅).

(** A descriptor whose [rootfile] element lacks [full-path], next to a
    package document at the first conventional path. *)
Definition bare_zip : Archive :=
  <[lit "META-INF/container.xml" := entry container_bare_xml]>
  (<[lit "OEBPS/content.opf" := entry plain_opf]>
  (<[lit "OEBPS/c1.xhtml" := entry intro_xhtml]> ∅)).

(** Instances right after construction. *)
Definition fresh10 (z : Archive) : World V10.Extractor :=
  {| this := {| V10.epubFile := ZipBlob z; V10.jszip := None;
                V10.contentOpfPath := None; V10.chapters := [];
                V10.initialized := false |};
     effects := [] |}.

Definition fresh12 (z : Archive) : World V12.Extractor :=
  {| this := {| V12.epubFile := ZipBlob z; V12.jszip := None;
                V12.contentOpfPath := None; V12.ncxPath := None;
                V12.chapters := []; V12.initialized := false |};
     effects := [] |}.

(** The book after [init]. *)
Definition ready_book : World V12.Extractor :=
  (V12.init (DP := parser) (fresh12 book_zip)).2.

(** The book between package parsing and the title stages. *)
Definition parsed_book : World V12.Extractor :=
  (V12.parseContentOpf (DP := parser)
     {| this := V12.set_contentOpfPath (Some (lit "OEBPS/content.opf"))
                  (V12.set_jszip (Some book_zip) (this (fresh12 book_zip)));
        effects := [] |}).2.


(** The same for the book with the broken navigation document. *)
Definition parsed_broken : World V12.Extractor :=
  (V12.parseContentOpf (DP := parser)
     {| this := V12.set_contentOpfPath (Some (lit "OEBPS/content.opf"))
                  (V12.set_jszip (Some broken_nav_zip)
                     (this (fresh12 broken_nav_zip)));
        effects := [] |}).2.

(** The archive with the bare descriptor, opened. *)
Definition opened_bare : World V10.Extractor :=
  {| this := V10.set_jszip (Some bare_zip) (this (fresh10 bare_zip));
     effects := [] |}.

End Fixture.

(** ** Proof steps for the method monad *)

Ltac run :=
  unfold bind, ret, throw, get_this, update_this, emit, lift_res, try_catch,
    async_text, async_arraybuffer in *.

(** Reduce the monad operations only, leaving every other definition
    folded. *)
Ltac step :=
  cbv beta iota zeta delta
    [bind ret throw get_this update_this emit lift_res try_catch
     async_text async_arraybuffer];
  cbn [this effects fst snd negb].

(** ** Further notions about paths and texts *)

(** Whether resolving the segments [segs] against a stack of [depth]
    segments meets a [..] while the stack is empty. *)
Fixpoint climbs_above_root (depth : nat) (segs : list jsstring) : bool :=
  match segs with
  | [] => false
  | seg :: rest =>
      if str_eqb seg DOTDOT then
        match depth with
        | O => true
        | S d => climbs_above_root d rest
        end
      else climbs_above_root (S depth) rest
  end.

(** A text in which every white space code unit is a space that does not
    follow another white space unit; [prev_ws] tells whether the unit
    before the text is white space. *)
Fixpoint spaced (prev_ws : bool) (s : jsstring) : bool :=
  match s with
  | [] => true
  | c :: r =>
      if is_ws c then N.eqb c SPACE && negb prev_ws && spaced true r
      else spaced false r
  end.

(** The part of a chapter of [EpubExtractor1.2.js] that a chapter of
    [EpubExtractor.js] has. *)
Definition id_and_path (c : V12.Chapter) : V10.Chapter :=
  {| V10.ch_id := V12.ch_id c; V10.ch_path := V12.ch_path c |}.

(** The path that the locator returns on the archive [z]. *)
Definition located {DP : DocumentParser} (z : Archive) : option jsstring :=
  match zip_file z containerPath with
  | Some f =>
      match head (xml_rootfiles (entry_text f)) with
      | Some full_path => full_path
      | None => probe_paths z possiblePaths
      end
  | None => probe_paths z possiblePaths
  end.

(** ** Plain objects used as maps

    [const m = {}] gives an object whose prototype is [Object.prototype]:
    a property read falls back on the prototype, and the name
    [__proto__] is an accessor of the prototype, not a property of the
    map.  The classes store texts and [null] in such maps. *)
Module PlainObject.

Definition PROTO : jsstring := lit "__proto__".

(** The property names of [Object.prototype]. *)
Definition prototype_keys : list jsstring :=
  [lit "constructor"; lit "hasOwnProperty"; lit "isPrototypeOf";
   lit "propertyIsEnumerable"; lit "toLocaleString"; lit "toString";
   lit "valueOf"; PROTO; lit "__defineGetter__"; lit "__defineSetter__";
   lit "__lookupGetter__"; lit "__lookupSetter__"].

Record Obj := {
  own : gmap (list N) (option jsstring);
  has_prototype : bool
}.

(** [{}] *)
Definition empty : Obj := {| own := ∅; has_prototype := true |}.

(** [o[key] = value] for a value that is a text or [null].  Through the
    inherited accessor, [__proto__] ignores a text and takes [null] as
    the new prototype; without a prototype it is a name like any
    other. *)
Definition set (o : Obj) (key : jsstring) (value : option jsstring) : Obj :=
  if str_eqb key PROTO && has_prototype o then
    match value with
    | Some _ => o
    | None => {| own := own o; has_prototype := false |}
    end
  else {| own := <[key := value]> (own o);
          has_prototype := has_prototype o |}.

(** The outcome of [o[key]]: the own property, or the function or object
    that [Object.prototype] holds under that name, or [undefined]. *)
Inductive Got :=
  | Own (value : option jsstring)
  | Inherited (key : jsstring)
  | Undefined.

Definition get (o : Obj) (key : jsstring) : Got :=
  match own o !! key with
  | Some value => Own value
  | None =>
      if has_prototype o && bool_decide (key ∈ prototype_keys)
      then Inherited key
      else Undefined
  end.

End PlainObject.

(** ** [src/unnamed/part_000]: the methods of the condensed class around
    [s] and the loop of [t] *)
Module Condensed.

(** What [ch.t] holds: a text, or what [m[ch.s]] read from
    [Object.prototype]. *)
Inductive Title :=
  | Text (t : jsstring)
  | Inherited (key : jsstring).

(** [{ id, p, s, t }] *)
Record Chapter := {
  ch_id : option jsstring;
  ch_p : jsstring;
  ch_s : jsstring;
  ch_t : Title
}.

Definition set_t (title : Title) (ch : Chapter) : Chapter :=
  {| ch_id := ch_id ch; ch_p := ch_p ch; ch_s := ch_s ch; ch_t := title |}.

(** The fields of the instance. *)
Record Extractor := {
  f : EpubFile;
  z : option Archive;
  o : option jsstring;
  n : option jsstring;
  c : list Chapter;
  i : bool
}.

Definition set_z (v : option Archive) (e : Extractor) : Extractor :=
  {| f := f e; z := v; o := o e; n := n e; c := c e; i := i e |}.

Definition set_o (v : option jsstring) (e : Extractor) : Extractor :=
  {| f := f e; z := z e; o := v; n := n e; c := c e; i := i e |}.

Definition set_n (v : option jsstring) (e : Extractor) : Extractor :=
  {| f := f e; z := z e; o := o e; n := v; c := c e; i := i e |}.

Definition set_c (v : list Chapter) (e : Extractor) : Extractor :=
  {| f := f e; z := z e; o := o e; n := n e; c := v; i := i e |}.

Definition set_i (v : bool) (e : Extractor) : Extractor :=
  {| f := f e; z := z e; o := o e; n := n e; c := c e; i := v |}.

(** ['无content.opf，非有效EPUB'] *)
Definition MSG_INVALID : jsstring :=
  [26080]%N ++ lit "content.opf" ++ [65292; 38750; 26377; 25928]%N
  ++ lit "EPUB".

(** [`无content.opf: ${this.o}`] *)
Definition MSG_NO_OPF_AT (path : jsstring) : jsstring :=
  [26080]%N ++ lit "content.opf: " ++ path.

(** ['请先init()'] *)
Definition MSG_INIT_FIRST : jsstring := [35831; 20808]%N ++ lit "init()".

(** [`索引无效，范围0-${last}`] *)
Definition MSG_INDEX (last : Z) : jsstring :=
  [32034; 24341; 26080; 25928; 65292; 33539; 22260]%N ++ lit "0-"
  ++ Z_to_jsstring last.

(** [`无章节文件: ${path}`] *)
Definition MSG_NO_FILE_AT (path : jsstring) : jsstring :=
  [26080; 31456; 33410; 25991; 20214]%N ++ lit ": " ++ path.

(** [constructor(f)], lines 12-15 *)
Definition constructor (file : option EpubFile) : res Extractor :=
  match file with
  | None => Throw (Error MSG_NO_FILE)
  | Some file =>
      Ok {| f := file; z := None; o := None; n := None; c := [];
            i := false |}
  end.

(** A read of [this.z] that is about to be dereferenced. *)
Definition this_z : M Extractor Archive :=
  let* e := get_this in
  match z e with
  | Some archive => ret archive
  | None => throw TypeError
  end.

(** The body of the loop over the snapshot, lines 87-94: the key and the
    text of the assignment [m[s] = t], when it gets there.  A missing
    [src] is the key [null]. *)
Definition nav_pair (navPoint : NavPoint) : option (jsstring * jsstring) :=
  match np_text navPoint, np_content navPoint with
  | Some text, Some src =>
      let t := normalize_text text in
      if truthy t then Some (interpolate src, t) else None
  | _, _ => None
  end.

Definition nav_step (m : PlainObject.Obj) (navPoint : NavPoint)
  : PlainObject.Obj :=
  match nav_pair navPoint with
  | Some (s, t) => PlainObject.set m s (Some t)
  | None => m
  end.

(** [m] after the loop, lines 83-95 *)
Definition nav_map (snapshot : list NavPoint) : PlainObject.Obj :=
  fold_left nav_step snapshot PlainObject.empty.

(** [m[ch.s] || ch.t], line 97 *)
Definition or_title (got : PlainObject.Got) (old : Title) : Title :=
  match got with
  | PlainObject.Own (Some t) => if truthy t then Text t else old
  | PlainObject.Own None => old
  | PlainObject.Inherited key => Inherited key
  | PlainObject.Undefined => old
  end.

(** The callback of [this.c.forEach], line 97 *)
Definition retitle (m : PlainObject.Obj) (ch : Chapter) : Chapter :=
  set_t (or_title (PlainObject.get m (ch_s ch)) (ch_t ch)) ch.

(** [ch.t !== `${D}${idx + 1}`]: an object is never equal to a text. *)
Definition is_default (title : Title) (idx : nat) : bool :=
  match title with
  | Text t => str_eqb t (default_title idx)
  | Inherited _ => false
  end.

(** Running the callbacks of [arr.map((x, idx) => ...)] for the indices
    [idx, idx + 1, ...], [k] of them. *)
Fixpoint for_each_index (callback : nat → M Extractor unit) (idx k : nat)
  : M Extractor unit :=
  match k with
  | O => ret tt
  | S k' => callback idx;;; for_each_index callback (S idx) k'
  end.

Section WithParser.
Context {DP : DocumentParser}.

(** [fO], lines 48-57 *)
Definition fO : M Extractor (option jsstring) :=
  let* archive := this_z in
  match zip_file archive containerPath with
  | Some containerFile =>
      let* content := async_text containerPath containerFile in
      match head (xml_rootfiles content) with
      | Some full_path => ret full_path
      | None => ret (probe_paths archive possiblePaths)
      end
  | None => ret (probe_paths archive possiblePaths)
  end.

(** The callback of [map], lines 69-75, on the document parsed from
    [content] *)
Definition chapter_of_itemref (content : jsstring) (d : jsstring)
    (ir : option jsstring) (idx : nat) : res (option Chapter) :=
  match querySelector_item content (interpolate ir) with
  | Throw e => Throw e
  | Ok None => Ok None
  | Ok (Some mi) =>
      match item_href mi with
      | Some h =>
          Ok (Some {| ch_id := ir; ch_p := Compact.s d h; ch_s := h;
                      ch_t := Text (default_title idx) |})
      | None => Throw TypeError
      end
  end.

(** [p], lines 59-100.  [zip.file(name)] looks up [root + name], which
    for a [null] name is the text [null]. *)
Definition p : M Extractor unit :=
  let* e := get_this in
  let* archive := this_z in
  let name := interpolate (o e) in
  match zip_file archive name with
  | None => throw (Error (MSG_NO_OPF_AT name))
  | Some opfFile =>
      let* content := async_text name opfFile in
      match o e with
      | None => throw TypeError
      | Some path =>
          let d := directory_of path in
          let items := xml_items content in
          match querySelector_item_id items (lit "ncx") with
          | Some ni =>
              match item_href ni with
              | Some href => update_this (set_n (Some (Compact.s d href)))
              | None => throw TypeError
              end
          | None => ret tt
          end;;;
          let* cs := lift_res (map_index_res (chapter_of_itemref content d)
                                 0 (xml_spine_idrefs content)) in
          update_this (set_c (filter_Boolean cs));;;
          let* e1 := get_this in
          if negb (truthy_opt (n e1)) then ret tt
          else
            let ncxPath := interpolate (n e1) in
            match zip_file archive ncxPath with
            | None => emit [ConsoleWarn]
            | Some ncxFile =>
                try_catch
                  (let* ncxContent := async_text ncxPath ncxFile in
                   match ncx_navPoints ncxContent with
                   | None => throw DOMException
                   | Some snapshot =>
                       let m := nav_map snapshot in
                       update_this (λ e2, set_c (retitle m <$> c e2) e2);;;
                       emit [ConsoleLog]
                   end)
                  (λ error, emit [ConsoleWarn])
            end
      end
  end.

(** The asynchronous callback of [t], lines 105-116, run for the chapter
    object held at [idx]. *)
Definition t_callback (idx : nat) : M Extractor unit :=
  let* e := get_this in
  match c e !! idx with
  | None => ret tt
  | Some ch =>
      if negb (is_default (ch_t ch) idx) then ret tt
      else
        try_catch
          (let* archive := this_z in
           match zip_file archive (ch_p ch) with
           | None => throw TypeError
           | Some xhtmlFile =>
               let* x := async_text (ch_p ch) xhtmlFile in
               match Compact.t_scan (html_elements x) titleSelectors with
               | Some title =>
                   update_this (λ e1,
                     set_c (alter (set_t (Text title)) idx (c e1)) e1)
               | None => ret tt
               end
           end)
          (λ error, emit [ConsoleWarn])
  end.

(** [t], lines 102-118.  Each callback reads and writes the title of its
    own chapter only: they are run in index order. *)
Definition t : M Extractor unit :=
  let* e := get_this in
  for_each_index t_callback 0 (length (c e)).

(** [init], lines 17-26 *)
Definition init : M Extractor unit :=
  let* e := get_this in
  if i e then ret tt
  else
    try_catch
      (let* archive := lift_res (loadAsync (f e)) in
       update_this (set_z (Some archive));;;
       let* path := fO in
       update_this (set_o path);;;
       if negb (truthy_opt path) then throw (Error MSG_INVALID)
       else
         p;;;
         t;;;
         update_this (set_i true))
      (λ error, emit [ConsoleError];;; throw error).

End WithParser.

(** [getChapterTitles], lines 128-131 *)
Definition getChapterTitles : M Extractor (list Title) :=
  let* e := get_this in
  if negb (i e) then throw (Error MSG_INIT_FIRST)
  else ret (ch_t <$> c e).

(** [i < 0 || i >= this.c.length] *)
Definition out_of_range (index : JsNumber) (e : Extractor) : bool :=
  lt_zero index || ge_length index (c e).

(** [getChapterTitle], lines 133-137 *)
Definition getChapterTitle (index : JsNumber) : M Extractor Title :=
  let* e := get_this in
  if negb (i e) then throw (Error MSG_INIT_FIRST)
  else if out_of_range index e
  then throw (Error (MSG_INDEX (Z.of_nat (length (c e)) - 1)))
  else
    match at_number (c e) index with
    | None => throw TypeError
    | Some ch => ret (ch_t ch)
    end.

(** [getChapterXhtml], lines 139-146 *)
Definition getChapterXhtml (index : JsNumber) : M Extractor Blob :=
  let* e := get_this in
  if negb (i e) then throw (Error MSG_INIT_FIRST)
  else if out_of_range index e
  then throw (Error (MSG_INDEX (Z.of_nat (length (c e)) - 1)))
  else
    match at_number (c e) index with
    | None => throw TypeError
    | Some ch =>
        let* archive := this_z in
        match zip_file archive (ch_p ch) with
        | None => throw (Error (MSG_NO_FILE_AT (ch_p ch)))
        | Some file =>
            let* content := async_arraybuffer (ch_p ch) file in
            ret {| blob_content := content; blob_type := XHTML_TYPE |}
        end
    end.

End Condensed.

(** ** [src/EpubExtractor1.2.js], class [EpubParser]: the path and
    chapter-list methods *)
Module Parser.

(** [{ id, title, path, order }] *)
Record Chapter := {
  ch_id : jsstring;
  ch_title : jsstring;
  ch_path : jsstring;
  ch_order : nat
}.

(** The [for] loop of [resolveRelativePath], lines 621-632.  Each round
    either leaves the loop or removes [relativeParts[i]], so
    [relativeParts.length] rounds are enough; [i--] is undone by the
    [i++] of the loop, so [i] stays where it is. *)
Fixpoint strip_for (rounds i : nat) (baseParts relativeParts : list jsstring)
  : list jsstring * list jsstring :=
  match rounds with
  | O => (baseParts, relativeParts)
  | S rounds' =>
      match relativeParts !! i with
      | Some part =>
          if str_eqb part DOTDOT then
            strip_for rounds' i
              (if (0 <? length baseParts)%nat then pop baseParts
               else baseParts)
              (delete i relativeParts)
          else (baseParts, relativeParts)
      | None => (baseParts, relativeParts)
      end
  end.

(** [resolveRelativePath], lines 612-635 *)
Definition resolveRelativePath (basePath relativePath : jsstring)
  : jsstring :=
  if startsWith_slash relativePath then substring1 relativePath
  else
    let baseParts := List.filter truthy (split_slash basePath) in
    let relativeParts := List.filter truthy (split_slash relativePath) in
    let '(baseParts, relativeParts) :=
      strip_for (length relativeParts) 0 baseParts relativeParts in
    join_slash (baseParts ++ relativeParts).

(** [resolvePath], lines 642-644, on an instance whose
    [contentBasePath] is given. *)
Definition resolvePath (contentBasePath relativePath : jsstring)
  : jsstring :=
  resolveRelativePath contentBasePath relativePath.

(** [`chapter-${index + 1}`] and [`第${index + 1}章`] *)
Definition chapter_id (index : nat) : jsstring :=
  lit "chapter-" ++ nat_to_jsstring (index + 1).

Definition chapter_title (index : nat) : jsstring :=
  [31532]%N ++ nat_to_jsstring (index + 1) ++ [31456]%N.

(** [idToHrefMap] after the loop over [manifest item], lines 446-448:
    a missing [id] is the key [null]. *)
Definition idToHrefMap (manifestItems : list Item) : PlainObject.Obj :=
  fold_left
    (λ m item, PlainObject.set m (interpolate (item_id item)) (item_href item))
    manifestItems PlainObject.empty.

(** [spineItems.forEach((item, index) => ...)], lines 451-463, from
    [index] on; [chapters] is the array pushed to.  An inherited
    function or object passes [if (href)] and has no [startsWith]. *)
Fixpoint spine_forEach (contentBasePath : jsstring) (m : PlainObject.Obj)
    (chapters : list Chapter) (index : nat)
    (spineItems : list (option jsstring)) : res (list Chapter) :=
  match spineItems with
  | [] => Ok chapters
  | idref :: rest =>
      match PlainObject.get m (interpolate idref) with
      | PlainObject.Own (Some href) =>
          if truthy href then
            spine_forEach contentBasePath m
              (push chapters
                 {| ch_id := chapter_id index;
                    ch_title := chapter_title index;
                    ch_path := resolvePath contentBasePath href;
                    ch_order := index + 1 |})
              (S index) rest
          else spine_forEach contentBasePath m chapters (S index) rest
      | PlainObject.Own None | PlainObject.Undefined =>
          spine_forEach contentBasePath m chapters (S index) rest
      | PlainObject.Inherited _ => Throw TypeError
      end
  end.

(** [extractChaptersFromSpine], lines 440-466; the document is seen
    through its two queries, [manifest item] and [spine itemref]. *)
Definition extractChaptersFromSpine (contentBasePath : jsstring)
    (manifestItems : list Item) (spineItems : list (option jsstring))
  : res (list Chapter) :=
  spine_forEach contentBasePath (idToHrefMap manifestItems) [] 0 spineItems.

End Parser.

(** ** Notions used to state properties of these methods *)

(** The reference segments consist of [..] segments followed by segments
    none of which is [..]. *)
Fixpoint parents_lead (segs : list jsstring) : bool :=
  match segs with
  | [] => true
  | seg :: rest =>
      if str_eqb seg DOTDOT then parents_lead rest
      else forallb (λ x, negb (str_eqb x DOTDOT)) segs
  end.

(** The text that the navigation loop of the condensed class leaves
    under [key]: that of the last navigation point assigning to it. *)
Definition last_nav_text (snapshot : list NavPoint) (key : jsstring)
  : option jsstring :=
  snd <$> last (List.filter (λ st, str_eqb st.1 key)
                  (omap Condensed.nav_pair snapshot)).

(** The href that the manifest loop of [EpubParser] leaves under [key]:
    that of the last item with this [id]. *)
Definition last_item_href (manifestItems : list Item) (key : jsstring)
  : option (option jsstring) :=
  item_href <$> last (List.filter
                        (λ it, str_eqb (interpolate (item_id it)) key)
                        manifestItems).


(** ** Further example data *)
Module Sample.

(** A descriptor that names a package document the archive lacks. *)
Definition dangling_zip : Archive :=
  <[lit "META-INF/container.xml" := Fixture.entry Fixture.container_xml]>
  (<[lit "content.opf" := Fixture.entry Fixture.plain_opf]> ∅).

(** The book between locating and package parsing. *)
Definition located_book : World V12.Extractor :=
  {| this := V12.set_contentOpfPath (Some (lit "OEBPS/content.opf"))
               (V12.set_jszip (Some Fixture.book_zip)
                  (this (Fixture.fresh12 Fixture.book_zip)));
     effects := [] |}.

(** An instance of the condensed class right after construction. *)
Definition fresh (archive : Archive) : World Condensed.Extractor :=
  {| this := {| Condensed.f := ZipBlob archive; Condensed.z := None;
                Condensed.o := None; Condensed.n := None;
                Condensed.c := []; Condensed.i := false |};
     effects := [] |}.

(** Two manifest items with one [id]. *)
Definition twin_items : list Item :=
  [Fixture.item "c1" "a.xhtml" None; Fixture.item "c1" "b.xhtml" None].

(** Two navigation points with one [src], and a chapter with that
    [src]. *)
Definition twin_navPoints : list NavPoint :=
  [ {| np_text := Some (lit "Old");
       np_content := Some (Some (lit "c.xhtml")) |};
    {| np_text := Some (lit "New");
       np_content := Some (Some (lit "c.xhtml")) |} ].

Definition twin_chapter : V12.Chapter :=
  {| V12.ch_id := Some (lit "c");
     V12.ch_path := lit "OEBPS/c.xhtml";
     V12.ch_src := lit "c.xhtml";
     V12.ch_title := default_title 0 |}.

(** A spine idref with a quote in it, in a package without a manifest
    item for it; and a spine idref with an escape, which a selector
    engine reads as [az], in a package whose manifest has the item
    [az]. *)
Definition quoted_idref : jsstring := lit "a" ++ QUOTE :: lit "b".
Definition quoted_opf : jsstring := lit "<package quoted>".
Definition escaped_idref : jsstring := lit "a\z".
Definition escaped_opf : jsstring := lit "<package escaped>".

(** A package whose manifest items have the hrefs [toString] and [null],
    and its navigation document: one navigation point, with a label and
    a [content] element that has no [src]. *)
Definition odd_opf : jsstring := lit "<package odd>".
Definition odd_ncx : jsstring := lit "<ncx odd>".

Definition odd_navPoints : list NavPoint :=
  [ {| np_text := Some (lit "Orphan"); np_content := Some None |} ].

(** The example parser with these documents added.  Of the selector
    texts that are not plain it answers the one with the escape, and
    rejects the others. *)
Definition parser : DocumentParser := {|
  xml_rootfiles := xml_rootfiles (DocumentParser := Fixture.parser);
  xml_items text :=
    if str_eqb text escaped_opf then [Fixture.item "az" "c1.xhtml" None]
    else if str_eqb text odd_opf then
      [Fixture.item "ncx" "toc.ncx" None;
       Fixture.item "c1" "toString" None;
       Fixture.item "c2" "null" None]
    else xml_items (DocumentParser := Fixture.parser) text;
  xml_spine_idrefs text :=
    if str_eqb text quoted_opf then [Some quoted_idref]
    else if str_eqb text escaped_opf then [Some escaped_idref]
    else if str_eqb text odd_opf then [Some (lit "c1"); Some (lit "c2")]
    else xml_spine_idrefs (DocumentParser := Fixture.parser) text;
  ncx_navPoints text :=
    if str_eqb text odd_ncx then Some odd_navPoints
    else ncx_navPoints (DocumentParser := Fixture.parser) text;
  html_elements := html_elements (DocumentParser := Fixture.parser);
  xml_querySelector text selector :=
    if str_eqb text escaped_opf
       && str_eqb selector (item_selector escaped_idref)
    then Some (Some (Fixture.item "az" "c1.xhtml" None))
    else None
|}.

Definition quoted_zip : Archive :=
  <[lit "content.opf" := Fixture.entry quoted_opf]> ∅.

Definition escaped_zip : Archive :=
  <[lit "content.opf" := Fixture.entry escaped_opf]>
  (<[lit "c1.xhtml" := Fixture.entry Fixture.intro_xhtml]> ∅).

Definition odd_zip : Archive :=
  <[lit "content.opf" := Fixture.entry odd_opf]>
  (<[lit "toc.ncx" := Fixture.entry odd_ncx]> ∅).

End Sample.

(** ** Facts about splitting *)

Lemma split_slash_not_nil s : split_slash s ≠ [].
Proof. destruct s as [|c r]; simpl; [done|]. destruct (N.eqb c SLASH); [done|]. by destruct (split_slash r). Qed.

Lemma split_slash_no_slash s :
  Forall (λ seg, SLASH ∉ seg) (split_slash s).
Proof.
  induction s as [|c r IH]; cbn [split_slash].
  - constructor; [|constructor]. by intros ?%elem_of_nil.
  - destruct (N.eqb_spec c SLASH) as [Heq|Hne].
    + constructor; [by intros ?%elem_of_nil | done].
    + destruct (split_slash r) as [|seg segs].
      * constructor; [|constructor].
        intros [Heq|?%elem_of_nil]%elem_of_cons; [congruence|done].
      * inversion IH; subst. constructor; [|done].
        intros [Heq|?]%elem_of_cons; [congruence|done].
Qed.

Lemma segments_nonempty s : Forall (λ seg, seg ≠ []) (segments s).
Proof.
  unfold segments. apply List.Forall_forall. intros seg Hin.
  apply List.filter_In in Hin as [_ Ht]. by destruct seg.
Qed.

Lemma segments_no_slash s : Forall (λ seg, SLASH ∉ seg) (segments s).
Proof.
  unfold segments. apply List.Forall_forall. intros seg Hin.
  apply List.filter_In in Hin as [Hin _].
  pose proof (split_slash_no_slash s) as H.
  rewrite List.Forall_forall in H. by apply H.
Qed.

(** The index-driven loop visits the segments from position [i] on, in
    order: it is the left fold of [resolve_step] over that suffix. *)
Lemma resolve_for_fold rel n i bp :
  (i + n = length rel)%nat →
  resolve_for rel n i bp = fold_left resolve_step (drop i rel) bp.
Proof.
  revert i bp. induction n as [|n IH]; intros i bp Hlen; simpl.
  - rewrite drop_ge by lia. done.
  - destruct (rel !! i) as [part|] eqn:Hi.
    + rewrite IH by lia. by rewrite (drop_S _ _ _ Hi).
    + apply lookup_ge_None in Hi. lia.
Qed.

Lemma resolve_step_spec bp part :
  resolve_step bp part = spec_fold_segment bp part.
Proof.
  unfold resolve_step, spec_fold_segment, pop, push.
  destruct (str_eqb part DOTDOT); [|done]. by destruct bp.
Qed.

Lemma fold_left_ext_eq {A B} (f g : A → B → A) l a :
  (∀ x y, f x y = g x y) → fold_left f l a = fold_left g l a.
Proof. intros H. revert a. induction l as [|y l IH]; intros a; simpl; [done|]. by rewrite H, IH. Qed.

(** [resolvePath] computes the resolver of the specification. *)
Lemma resolvePath_spec base ref : resolvePath base ref = spec_resolve base ref.
Proof.
  unfold resolvePath, spec_resolve, substring1.
  destruct (startsWith_slash ref); [done|].
  rewrite resolve_for_fold by lia. rewrite drop_0.
  f_equal. apply fold_left_ext_eq, resolve_step_spec.
Qed.

Example resolvePath_parent :
  resolvePath (lit "a/b/") (lit "../c") = lit "a/c".
Proof. reflexivity. Qed.

Example resolvePath_absolute :
  resolvePath (lit "a/b") (lit "/x/y") = lit "x/y".
Proof. reflexivity. Qed.

Example resolvePath_no_underflow :
  resolvePath (lit "") (lit "../x") = lit "x".
Proof. reflexivity. Qed.

Example resolvePath_empty_ref :
  resolvePath (lit "a") (lit "") = lit "a".
Proof. reflexivity. Qed.

(** Away from an empty base the condensed resolver agrees with
    [resolvePath]. *)
Example s_parent :
  Compact.s (lit "a/b/") (lit "../c") = lit "a/c"
  ∧ Compact.s (lit "a/b") (lit "/x/y") = lit "x/y"
  ∧ Compact.s (lit "a") (lit "") = lit "a".
Proof. repeat split; reflexivity. Qed.

(** C1.  The condensed resolver [Compact.s] does not treat [..] on an
    empty base as a no-op: it appends the [..] segment, so resolving
    [../x] against the empty base yields [../x], where [resolvePath] and
    the specification yield [x]. *)
Theorem s_keeps_parent_segment_on_empty_base :
  Compact.s (lit "") (lit "../x") = lit "../x"
  ∧ resolvePath (lit "") (lit "../x") = lit "x"
  ∧ spec_resolve (lit "") (lit "../x") = lit "x".
Proof. repeat split; reflexivity. Qed.
(** ** The query methods *)

Lemma bad_index_is_not_missing_file last path :
  MSG_BAD_INDEX last ≠ MSG_NO_CHAPTER_FILE path.
Proof. unfold MSG_BAD_INDEX, MSG_NO_CHAPTER_FILE. simpl. discriminate. Qed.

Lemma not_init_is_not_bad_index last : MSG_NOT_INIT ≠ MSG_BAD_INDEX last.
Proof. unfold MSG_BAD_INDEX, MSG_NOT_INIT. simpl. discriminate. Qed.

(** An integer as a number: the comparisons are those of integers, and
    the element read is the one at that index. *)
Lemma lt_zero_Integer i : lt_zero (Integer i) = (i <? 0)%Z.
Proof. done. Qed.

Lemma ge_length_Integer {A} i (l : list A) :
  ge_length (Integer i) l = (Z.of_nat (length l) <=? i)%Z.
Proof. unfold ge_length, Integer. by rewrite Z.mul_1_r. Qed.

Lemma at_number_Integer {A} (l : list A) i :
  (0 ≤ i)%Z → at_number l (Integer i) = l !! Z.to_nat i.
Proof.
  intros Hi. unfold at_number, Integer.
  rewrite Z.mod_1_r, Z.div_1_r. cbn [Z.eqb]. rewrite andb_true_r.
  by rewrite (proj2 (Z.leb_le 0 i) Hi).
Qed.

Lemma out_of_range_spec i t :
  V12.out_of_range (Integer i) t = false
  ↔ (0 ≤ i < Z.of_nat (length (V12.chapters t)))%Z.
Proof.
  unfold V12.out_of_range.
  rewrite lt_zero_Integer, ge_length_Integer, orb_false_iff, Z.ltb_ge,
    Z.leb_gt. lia.
Qed.

Lemma in_range_lookup {A} (l : list A) i :
  (0 ≤ i < Z.of_nat (length l))%Z → is_Some (l !! Z.to_nat i).
Proof. intros H. apply lookup_lt_is_Some. lia. Qed.

(** The document fetch of [EpubExtractor1.2.js] on an integer index, in
    the Ready state: it raises the bounds error exactly for an index
    outside [0 <= i < chapterCount]; for an index in range it raises the
    not-found error exactly when the archive has no entry at the
    chapter's path, and otherwise returns the bytes of that entry as a
    blob of type [application/xhtml+xml]; the two error texts differ. *)
Theorem getChapterXhtml_outcomes (w : World V12.Extractor) (z : Archive) (i : Z) :
  V12.initialized (this w) = true →
  V12.jszip (this w) = Some z →
  let n := Z.of_nat (length (V12.chapters (this w))) in
  ((V12.getChapterXhtml (Integer i) w).1
   = Throw (Error (MSG_BAD_INDEX (n - 1)))
     ↔ ¬ (0 ≤ i < n)%Z)
  ∧ (∀ c, (0 ≤ i < n)%Z → V12.chapters (this w) !! Z.to_nat i = Some c →
       ((V12.getChapterXhtml (Integer i) w).1
          = Throw (Error (MSG_NO_CHAPTER_FILE (V12.ch_path c)))
        ↔ zip_file z (V12.ch_path c) = None)
       ∧ ∀ f, zip_file z (V12.ch_path c) = Some f →
           (V12.getChapterXhtml (Integer i) w).1
           = Ok {| blob_content := entry_bytes f; blob_type := XHTML_TYPE |})
  ∧ (∀ last path, MSG_BAD_INDEX last ≠ MSG_NO_CHAPTER_FILE path).
Proof.
  intros Hinit Hzip n.
  assert (Hrun : (V12.getChapterXhtml (Integer i) w).1 =
    if V12.out_of_range (Integer i) (this w)
    then Throw (Error (MSG_BAD_INDEX (n - 1)))
    else match at_number (V12.chapters (this w)) (Integer i) with
         | None => Throw TypeError
         | Some c =>
             match zip_file z (V12.ch_path c) with
             | None => Throw (Error (MSG_NO_CHAPTER_FILE (V12.ch_path c)))
             | Some f => Ok {| blob_content := entry_bytes f;
                               blob_type := XHTML_TYPE |}
             end
         end).
  { unfold V12.getChapterXhtml, V12.this_zip. step. rewrite Hinit. step.
    destruct (V12.out_of_range (Integer i) (this w)); [done|].
    destruct (at_number (V12.chapters (this w)) (Integer i)) as [c|]; [|done].
    step. rewrite Hzip. step.
    destruct (zip_file z (V12.ch_path c)); done. }
  split; [|split].
  - rewrite Hrun. destruct (V12.out_of_range (Integer i) (this w)) eqn:Hr.
    + split; [|done]. intros _ Hin. apply out_of_range_spec in Hin. congruence.
    + apply out_of_range_spec in Hr. split; [|done].
      rewrite at_number_Integer by lia.
      destruct (in_range_lookup _ _ Hr) as [c ->].
      destruct (zip_file z (V12.ch_path c)); [done|].
      intros Heq _.
      assert (MSG_BAD_INDEX (n - 1) = MSG_NO_CHAPTER_FILE (V12.ch_path c))
        as Hm by congruence.
      by eapply bad_index_is_not_missing_file.
  - intros c Hin Hc. pose proof Hin as Hin'. apply out_of_range_spec in Hin.
    rewrite Hrun, Hin, at_number_Integer, Hc by lia. split.
    + destruct (zip_file z (V12.ch_path c)); [|done]. split; done.
    + by intros f ->.
  - apply bad_index_is_not_missing_file.
Qed.

(** A number that is not an integer, or not a number at all, passes the
    bounds test of [getChapterXhtml] whenever it is not below [0] and
    not at or above the chapter count; no chapter is read then, and the
    call fails on the missing chapter object: neither the bounds error,
    nor the not-found error, nor a blob. *)
Lemma getChapterXhtml_without_a_chapter (w : World V12.Extractor) x :
  V12.initialized (this w) = true →
  V12.out_of_range x (this w) = false →
  at_number (V12.chapters (this w)) x = None →
  V12.getChapterXhtml x w = (Throw TypeError, w).
Proof.
  intros Hinit Hrange Hnone. unfold V12.getChapterXhtml. step.
  by rewrite Hinit, Hrange, Hnone.
Qed.

(** C8.  In the Ready state the document fetch does not raise the bounds
    error for every index outside the chapters: on the example book,
    which has two chapters, the index [1.5] and the index [NaN] pass the
    bounds test of both classes, and the call ends in a [TypeError]. *)
Theorem getChapterXhtml_lets_a_fraction_through :
  V12.initialized (this Fixture.ready_book) = true
  ∧ length (V12.chapters (this Fixture.ready_book)) = 2%nat
  ∧ (V12.getChapterXhtml (Finite 3 2) Fixture.ready_book).1 = Throw TypeError
  ∧ (V12.getChapterXhtml NaN Fixture.ready_book).1 = Throw TypeError
  ∧ (V12.getChapterXhtml (Integer 2) Fixture.ready_book).1
    = Throw (Error (MSG_BAD_INDEX 1))
  ∧ (V10.getChapterXhtml (Finite 3 2)
       (V10.init (DP := Fixture.parser)
          (Fixture.fresh10 Fixture.book_zip)).2).1 = Throw TypeError
  ∧ (V10.getChapterXhtml NaN
       (V10.init (DP := Fixture.parser)
          (Fixture.fresh10 Fixture.book_zip)).2).1 = Throw TypeError.
Proof. repeat split; vm_compute; reflexivity. Qed.

(** C9.  [getChapterCount] of [src/EpubExtractor.js] has no readiness
    check: on an instance that was just constructed, for any file, it
    returns [0] instead of raising the precondition error that
    [getChapterXhtml] of the same class raises. *)
Theorem getChapterCount_answers_before_init (f : EpubFile) :
  ∃ t, V10.constructor (Some f) = Ok t
       ∧ V10.initialized t = false
       ∧ (V10.getChapterCount {| this := t; effects := [] |}).1 = Ok 0%nat
       ∧ (V10.getChapterXhtml (Integer 0) {| this := t; effects := [] |}).1
         = Throw (Error MSG_NOT_INIT).
Proof. eexists. repeat split. Qed.

(** Every query of [EpubExtractor1.2.js] raises the precondition error
    before initialisation, and leaves the instance alone. *)
Lemma V12_queries_guarded (w : World V12.Extractor) (i : JsNumber) :
  V12.initialized (this w) = false →
  V12.getChapterCount w = (Throw (Error MSG_NOT_INIT), w)
  ∧ V12.getChapterTitles w = (Throw (Error MSG_NOT_INIT), w)
  ∧ V12.getChapterTitle i w = (Throw (Error MSG_NOT_INIT), w)
  ∧ V12.getChapterXhtml i w = (Throw (Error MSG_NOT_INIT), w).
Proof.
  intros H.
  unfold V12.getChapterCount, V12.getChapterTitles, V12.getChapterTitle,
    V12.getChapterXhtml, bind, get_this, throw.
  cbn. rewrite H. done.
Qed.

Section Frozen.
Context {DP : DocumentParser}.

(** C10.  On a Ready instance [init] returns at once: the world after
    the call is the world before it, effects included, so no stage ran
    again; and no query changes a field of the instance. *)
Theorem ready_instance_is_frozen (w : World V12.Extractor) :
  V12.initialized (this w) = true →
  V12.init w = (Ok tt, w)
  ∧ (V12.getChapterCount w).2 = w
  ∧ (V12.getChapterTitles w).2 = w
  ∧ (∀ i, (V12.getChapterTitle i w).2 = w)
  ∧ (∀ i, this (V12.getChapterXhtml i w).2 = this w
          ∧ V12.chapters (this (V12.getChapterXhtml i w).2)
            = V12.chapters (this w)).
Proof.
  intros H. repeat split.
  - unfold V12.init, bind, get_this. cbn. by rewrite H.
  - unfold V12.getChapterCount, bind, get_this. cbn. by rewrite H.
  - unfold V12.getChapterTitles, bind, get_this. cbn. by rewrite H.
  - intros i. unfold V12.getChapterTitle, bind, get_this, throw, ret. cbn.
    rewrite H. cbn. destruct (V12.out_of_range i (this w)); [done|].
    by destruct (at_number (V12.chapters (this w)) i).
  - unfold V12.getChapterXhtml, V12.this_zip, async_arraybuffer, emit, bind,
      get_this, throw, ret. cbn.
    rewrite H. cbn. destruct (V12.out_of_range i (this w)); [done|].
    destruct (at_number (V12.chapters (this w)) i) as [c|]; [|done]. cbn.
    destruct (V12.jszip (this w)) as [z|]; [|done]. cbn.
    by destruct (zip_file z (V12.ch_path c)).
  - unfold V12.getChapterXhtml, V12.this_zip, async_arraybuffer, emit, bind,
      get_this, throw, ret. cbn.
    rewrite H. cbn. destruct (V12.out_of_range i (this w)); [done|].
    destruct (at_number (V12.chapters (this w)) i) as [c|]; [|done]. cbn.
    destruct (V12.jszip (this w)) as [z|]; [|done]. cbn.
    by destruct (zip_file z (V12.ch_path c)).
Qed.

End Frozen.

(** ** Locating the package document *)

Lemma probe_paths_find z paths :
  probe_paths z paths
  = List.find (λ p, bool_decide (is_Some (zip_file z p))) paths.
Proof.
  induction paths as [|p rest IH]; cbn [probe_paths List.find]; [done|].
  destruct (zip_file z p) as [f|] eqn:Hp.
  - rewrite bool_decide_true; [done|]. by eexists.
  - rewrite bool_decide_false; [done|]. by intros [? ?].
Qed.

Lemma world_eta {T} (w : World T) :
  {| this := this w; effects := effects w |} = w.
Proof. by destruct w. Qed.

Section Locate.
Context {DP : DocumentParser}.

(** What the locator of [EpubExtractor.js] returns, as a function of the
    archive. *)
Lemma V10_findContentOpf_run (w : World V10.Extractor) z :
  V10.jszip (this w) = Some z →
  ∃ es,
    V10.findContentOpf w
    = (Ok (match zip_file z containerPath with
           | Some f =>
               match head (xml_rootfiles (entry_text f)) with
               | Some full_path => full_path
               | None => probe_paths z possiblePaths
               end
           | None => probe_paths z possiblePaths
           end),
       {| this := this w; effects := effects w ++ es |}).
Proof.
  intros Hz. unfold V10.findContentOpf, V10.this_zip. run.
  cbn -[containerPath possiblePaths]. rewrite Hz.
  destruct (zip_file z containerPath) as [f|].
  - cbn -[containerPath possiblePaths].
    exists [ReadText containerPath].
    by destruct (head (xml_rootfiles (entry_text f))).
  - exists []. rewrite app_nil_r. by rewrite world_eta.
Qed.

(** C6, as the code has it.  With an archive loaded, the locator returns
    the [full-path] attribute of the first [rootfile] element of the
    container descriptor whenever that element exists, be the attribute
    there or not; it probes the three conventional paths, in order, only
    when the descriptor entry or its [rootfile] element is missing; and
    [init] fails with the no-package error, staying uninitialised, when
    the result is [null] or empty. *)
Theorem findContentOpf_gates_on_rootfile_element
    (w : World V10.Extractor) (z : Archive) :
  V10.jszip (this w) = Some z →
  let rootfile :=
    match zip_file z containerPath with
    | Some f => head (xml_rootfiles (entry_text f))
    | None => None
    end in
  let located :=
    match rootfile with
    | Some full_path => full_path
    | None =>
        List.find (λ p, bool_decide (is_Some (zip_file z p))) possiblePaths
    end in
  (V10.findContentOpf w).1 = Ok located
  ∧ this (V10.findContentOpf w).2 = this w
  ∧ ∀ w0 : World V10.Extractor,
      V10.initialized (this w0) = false →
      V10.epubFile (this w0) = ZipBlob z →
      truthy_opt located = false →
      (V10.init w0).1 = Throw (Error MSG_NO_OPF)
      ∧ V10.initialized (this (V10.init w0).2) = false.
Proof.
  intros Hz rootfile located.
  assert (Hloc : match zip_file z containerPath with
           | Some f =>
               match head (xml_rootfiles (entry_text f)) with
               | Some full_path => full_path
               | None => probe_paths z possiblePaths
               end
           | None => probe_paths z possiblePaths
           end = located).
  { unfold located, rootfile. rewrite probe_paths_find.
    by destruct (zip_file z containerPath). }
  destruct (V10_findContentOpf_run w z Hz) as [es Hrun].
  rewrite Hrun, Hloc. split; [done|]. split; [done|].
  intros w0 Hinit Hfile Hfalsy.
  unfold V10.init. run. cbn -[V10.findContentOpf]. rewrite Hinit, Hfile.
  cbn -[V10.findContentOpf].
  destruct (V10_findContentOpf_run
              {| this := V10.set_jszip (Some z) (this w0);
                 effects := effects w0 |} z eq_refl) as [es0 Hrun0].
  rewrite Hrun0, Hloc. cbn. rewrite Hfalsy. cbn. by rewrite Hinit.
Qed.

End Locate.

(** ** The stages of [V12.init] as functions of the world *)

Lemma V12_set_chapters_same t : V12.set_chapters (V12.chapters t) t = t.
Proof. by destruct t. Qed.

Lemma V12_set_chapters_twice cs cs' t :
  V12.set_chapters cs' (V12.set_chapters cs t) = V12.set_chapters cs' t.
Proof. done. Qed.

Lemma alter_fixed {A} (f : A → A) (l : list A) i :
  (∀ x, l !! i = Some x → f x = x) → alter f i l = l.
Proof.
  intros Hf. apply list_eq. intros j. rewrite list_lookup_alter.
  case_decide as Hij; [|done]. subst j.
  destruct (l !! i) as [x|] eqn:Hx; [|done]. cbn. by rewrite Hf.
Qed.

Section Stages.
Context {DP : DocumentParser}.

Lemma V12_findContentOpf_run (w : World V12.Extractor) z :
  V12.jszip (this w) = Some z →
  ∃ p es, V12.findContentOpf w
          = (Ok p, {| this := this w; effects := effects w ++ es |}).
Proof.
  intros Hz. unfold V12.findContentOpf, V12.this_zip. run.
  cbn -[containerPath possiblePaths]. rewrite Hz.
  destruct (zip_file z containerPath) as [f|].
  - cbn -[containerPath possiblePaths].
    destruct (head (xml_rootfiles (entry_text f))); by eexists _, _.
  - eexists _, []. rewrite app_nil_r. by rewrite world_eta.
Qed.

(** A successful [parseContentOpf] read the package document at
    [contentOpfPath], set [chapters] to the non-null results of the spine
    callback, and left the archive alone. *)
Lemma V12_parseContentOpf_inv (w w' : World V12.Extractor) :
  V12.parseContentOpf w = (Ok tt, w') →
  ∃ z p f cs,
    V12.jszip (this w) = Some z
    ∧ V12.contentOpfPath (this w) = Some p
    ∧ zip_file z p = Some f
    ∧ map_index_res
        (V12.chapter_of_idRef (entry_text f) (directory_of p))
        0 (xml_spine_idrefs (entry_text f)) = Ok cs
    ∧ V12.chapters (this w') = filter_Boolean cs
    ∧ V12.jszip (this w') = Some z
    ∧ V12.contentOpfPath (this w') = Some p
    ∧ V12.initialized (this w') = V12.initialized (this w).
Proof.
  unfold V12.parseContentOpf, V12.this_zip. run. cbn.
  destruct (V12.jszip (this w)) as [z|] eqn:Hz; [|done]. cbn.
  destruct (V12.contentOpfPath (this w)) as [p|] eqn:Hp; cbn.
  2:{ by destruct (zip_file z (lit "null")). }
  destruct (zip_file z p) as [f|] eqn:Hf; [|done]. cbn.
  destruct (querySelector_item_id (xml_items (entry_text f)) (lit "ncx"))
    as [ncxItem|]; cbn.
  - destruct (resolvePath_attr (directory_of p) (item_href ncxItem)); [|done].
    cbn.
    destruct (map_index_res _ 0 (xml_spine_idrefs (entry_text f))) as [cs|]
      eqn:Hcs; [|done].
    cbn. intros [= <-]. cbn. exists z, p, f, cs. by rewrite Hz, Hp.
  - destruct (map_index_res _ 0 (xml_spine_idrefs (entry_text f))) as [cs|]
      eqn:Hcs; [|done].
    cbn. intros [= <-]. cbn. exists z, p, f, cs. by rewrite Hz, Hp.
Qed.

(** [parseNcx] on an instance that has its archive: it never raises, and
    gives each chapter the navigation title found for its [src]. *)
Lemma V12_parseNcx_run (w : World V12.Extractor) z :
  V12.jszip (this w) = Some z →
  ∃ es,
    V12.parseNcx w
    = (Ok tt,
       {| this :=
            V12.set_chapters
              ((λ c, match nav_title_for z (V12.ncxPath (this w))
                             (V12.ch_src c) with
                     | Some title => V12.set_title title c
                     | None => c
                     end) <$> V12.chapters (this w))
              (this w);
          effects := effects w ++ es |}).
Proof.
  intros Hz. unfold V12.parseNcx, V12.this_zip, nav_title_for. run. cbn.
  destruct (V12.ncxPath (this w)) as [p|] eqn:Hp; cbn.
  2:{ exists []. rewrite app_nil_r, list_fmap_id, V12_set_chapters_same.
      by rewrite world_eta. }
  destruct (truthy p); cbn.
  2:{ exists []. rewrite app_nil_r, list_fmap_id, V12_set_chapters_same.
      by rewrite world_eta. }
  rewrite Hz. destruct (zip_file z p) as [f|]; cbn.
  2:{ exists [ConsoleWarn]. by rewrite list_fmap_id, V12_set_chapters_same. }
  destruct (ncx_navPoints (entry_text f)) as [snapshot|]; cbn.
  2:{ exists [ReadText p; ConsoleWarn].
      rewrite list_fmap_id, V12_set_chapters_same. by rewrite <- app_assoc. }
  exists [ReadText p; ConsoleLog]. rewrite <- app_assoc. cbn.
  do 3 f_equal. apply list_fmap_ext. intros i c _. unfold V12.match_nav.
  by destruct (List.find _ _).
Qed.

Lemma V12_preload_callback_run (w : World V12.Extractor) i :
  V12.preload_callback i w
  = (Ok tt,
     {| this :=
          V12.set_chapters
            (alter (preload_chapter (V12.jszip (this w)) i) i
               (V12.chapters (this w)))
            (this w);
        effects :=
          effects w
          ++ match V12.chapters (this w) !! i with
             | Some c => preload_effects (V12.jszip (this w)) i c
             | None => []
             end |}).
Proof.
  unfold V12.preload_callback, V12.this_zip, preload_chapter, preload_effects,
    heading_title_for.
  step.
  destruct (V12.chapters (this w) !! i) as [c|] eqn:Hc; step.
  2:{ rewrite app_nil_r, alter_fixed, V12_set_chapters_same, world_eta; [done|].
      intros x Hx. congruence. }
  destruct (str_eqb (V12.ch_title c) (default_title i)) eqn:Ht; step.
  2:{ rewrite app_nil_r, alter_fixed, V12_set_chapters_same, world_eta; [done|].
      intros x Hx. assert (x = c) as -> by congruence. by rewrite Ht. }
  destruct (V12.jszip (this w)) as [z|] eqn:Hz; step.
  2:{ rewrite alter_fixed, V12_set_chapters_same; [done|].
      intros x Hx. assert (x = c) as -> by congruence. by rewrite Ht. }
  destruct (zip_file z (V12.ch_path c)) as [f|] eqn:Hf; step.
  2:{ rewrite alter_fixed, V12_set_chapters_same; [done|].
      intros x Hx. assert (x = c) as -> by congruence. by rewrite Ht, Hf. }
  destruct (V12.extractTitleFromXhtml (entry_text f)) as [title|] eqn:He; step.
  2:{ rewrite alter_fixed, V12_set_chapters_same; [done|].
      intros x Hx. assert (x = c) as -> by congruence. by rewrite Ht, Hf, He. }
  destruct (truthy title) eqn:Htr; step.
  2:{ rewrite alter_fixed, V12_set_chapters_same; [done|].
      intros x Hx. assert (x = c) as -> by congruence.
      by rewrite Ht, Hf, He, Htr. }
  unfold V12.set_chapter_title. do 3 f_equal.
  apply list_alter_ext; [|done]. intros x Hx. assert (x = c) as -> by congruence.
  by rewrite Ht, Hf, He, Htr.
Qed.

(** The callbacks for the indices [k .. k + n - 1], run in order: each
    chapter in that range is replaced by its [preload_chapter], the rest
    of the instance stays as it is. *)
Lemma V12_for_each_preload n : ∀ k (w : World V12.Extractor),
  ∃ cs' es,
    V12.for_each_index V12.preload_callback k n w
    = (Ok tt, {| this := V12.set_chapters cs' (this w);
                 effects := effects w ++ es |})
    ∧ ∀ j, cs' !! j
           = if bool_decide (k ≤ j < k + n)
             then preload_chapter (V12.jszip (this w)) j
                    <$> V12.chapters (this w) !! j
             else V12.chapters (this w) !! j.
Proof.
  induction n as [|n IH]; intros k w; cbn [V12.for_each_index].
  - exists (V12.chapters (this w)), []. split.
    + unfold ret. by rewrite app_nil_r, V12_set_chapters_same, world_eta.
    + intros j. rewrite bool_decide_false by lia. done.
  - unfold bind at 1. rewrite V12_preload_callback_run.
    destruct (IH (S k)
      {| this := V12.set_chapters
                   (alter (preload_chapter (V12.jszip (this w)) k) k
                      (V12.chapters (this w))) (this w);
         effects := effects w
                    ++ match V12.chapters (this w) !! k with
                       | Some c => preload_effects (V12.jszip (this w)) k c
                       | None => []
                       end |}) as (cs' & es & Hrun & Hcs).
    rewrite Hrun. cbn. exists cs', (match V12.chapters (this w) !! k with
                       | Some c => preload_effects (V12.jszip (this w)) k c
                       | None => []
                       end ++ es).
    split; [by rewrite app_assoc|].
    intros j. rewrite Hcs. cbn.
    destruct (decide (j = k)) as [->|Hjk].
    + rewrite bool_decide_false by lia. rewrite bool_decide_true by lia.
      apply list_lookup_alter_eq.
    + rewrite list_lookup_alter_ne by done.
      destruct (decide (S k ≤ j < S k + n)).
      * rewrite !bool_decide_true by lia. done.
      * rewrite !bool_decide_false by lia. done.
Qed.

(** [preloadChapterTitles] never raises; it maps [preload_chapter] over
    the chapter list, by position. *)
Lemma V12_preloadChapterTitles_run (w : World V12.Extractor) :
  ∃ es,
    V12.preloadChapterTitles w
    = (Ok tt,
       {| this := V12.set_chapters
                    (imap (preload_chapter (V12.jszip (this w)))
                       (V12.chapters (this w)))
                    (this w);
          effects := effects w ++ es |}).
Proof.
  unfold V12.preloadChapterTitles. run. cbn.
  destruct (length (V12.chapters (this w)) =? 0)%nat eqn:Hlen.
  - apply Nat.eqb_eq in Hlen. apply length_zero_iff_nil in Hlen.
    exists []. rewrite Hlen at 1. cbn.
    rewrite <- Hlen at 1. by rewrite app_nil_r, V12_set_chapters_same, world_eta.
  - destruct (V12_for_each_preload (length (V12.chapters (this w))) 0 w)
      as (cs' & es & Hrun & Hcs).
    exists es. rewrite Hrun. do 3 f_equal.
    apply list_eq. intros j. rewrite Hcs, list_lookup_imap.
    case_bool_decide as Hj; [done|].
    rewrite lookup_ge_None_2 by lia. done.
Qed.

End Stages.

(** ** [V12.init] as a whole *)

Section Init.
Context {DP : DocumentParser}.

Lemma nav_chapter_without_path z ncx :
  truthy_opt ncx = false → ∀ c, nav_chapter z ncx c = c.
Proof.
  intros H c. unfold nav_chapter, nav_title_for.
  destruct ncx as [p|]; [|done]. cbn in H. by rewrite H.
Qed.

(** When the archive opens, the package document is located and
    [parseContentOpf] succeeds, [init] runs to its end: the title stages
    that follow cannot make it fail. *)
Lemma V12_init_run (w w1 w2 : World V12.Extractor) z p :
  V12.initialized (this w) = false →
  V12.epubFile (this w) = ZipBlob z →
  V12.findContentOpf
    {| this := V12.set_jszip (Some z) (this w); effects := effects w |}
  = (Ok p, w1) →
  truthy_opt p = true →
  V12.parseContentOpf
    {| this := V12.set_contentOpfPath p (this w1); effects := effects w1 |}
  = (Ok tt, w2) →
  ∃ es,
    V12.init w
    = (Ok tt,
       {| this :=
            V12.set_initialized true
              (V12.set_chapters
                 (imap (preload_chapter (Some z))
                    (nav_chapter z (V12.ncxPath (this w2))
                       <$> V12.chapters (this w2)))
                 (this w2));
          effects := effects w2 ++ es |}).
Proof.
  intros Hinit Hfile Hfind Htruthy Hparse.
  assert (Hz2 : V12.jszip (this w2) = Some z).
  { destruct (V12_findContentOpf_run
                {| this := V12.set_jszip (Some z) (this w);
                   effects := effects w |} z eq_refl) as (p' & es' & Hrun).
    rewrite Hrun in Hfind. injection Hfind as -> <-.
    apply V12_parseContentOpf_inv in Hparse
      as (z' & p'' & f & cs & Hz' & _ & _ & _ & _ & Hz'' & _).
    cbn in Hz'. congruence. }
  unfold V12.init. step. rewrite Hinit, Hfile. cbn [loadAsync]. step.
  rewrite Hfind. step. rewrite Htruthy. step. rewrite Hparse. step.
  destruct (truthy_opt (V12.ncxPath (this w2))) eqn:Hncx.
  - destruct (V12_parseNcx_run w2 z Hz2) as [es1 Hnav]. rewrite Hnav. step.
    match goal with |- context [V12.preloadChapterTitles ?w0] =>
      destruct (V12_preloadChapterTitles_run w0) as [es2 Hpre] end.
    rewrite Hpre. step. cbn [V12.jszip V12.chapters V12.set_chapters] in *.
    exists (es1 ++ es2). rewrite Hz2, app_assoc. done.
  - step.
    destruct (V12_preloadChapterTitles_run w2) as [es2 Hpre].
    rewrite Hpre. step. exists es2. rewrite Hz2.
    rewrite (list_fmap_ext (nav_chapter z (V12.ncxPath (this w2))) (λ c, c)
               (V12.chapters (this w2)))
      by (intros; by apply nav_chapter_without_path).
    by rewrite list_fmap_id.
Qed.

(** Conversely, an [init] that succeeded on a fresh instance went
    through these steps. *)
Lemma V12_init_ok_inv (w w' : World V12.Extractor) :
  V12.initialized (this w) = false →
  V12.init w = (Ok tt, w') →
  ∃ z p w1 w2,
    V12.epubFile (this w) = ZipBlob z
    ∧ V12.findContentOpf
        {| this := V12.set_jszip (Some z) (this w); effects := effects w |}
      = (Ok p, w1)
    ∧ truthy_opt p = true
    ∧ V12.parseContentOpf
        {| this := V12.set_contentOpfPath p (this w1); effects := effects w1 |}
      = (Ok tt, w2)
    ∧ this w'
      = V12.set_initialized true
          (V12.set_chapters
             (imap (preload_chapter (Some z))
                (nav_chapter z (V12.ncxPath (this w2))
                   <$> V12.chapters (this w2)))
             (this w2)).
Proof.
  intros Hinit Hok.
  destruct (V12.epubFile (this w)) as [z|] eqn:Hfile.
  2:{ unfold V12.init in Hok. revert Hok. step. rewrite Hinit, Hfile.
      cbn [loadAsync]. step. done. }
  destruct (V12.findContentOpf
              {| this := V12.set_jszip (Some z) (this w);
                 effects := effects w |}) as [[p|e] w1] eqn:Hfind.
  2:{ unfold V12.init in Hok. revert Hok. step. rewrite Hinit, Hfile.
      cbn [loadAsync]. step. rewrite Hfind. step. done. }
  destruct (truthy_opt p) eqn:Htruthy.
  2:{ unfold V12.init in Hok. revert Hok. step. rewrite Hinit, Hfile.
      cbn [loadAsync]. step. rewrite Hfind. step. rewrite Htruthy. step.
      done. }
  destruct (V12.parseContentOpf
              {| this := V12.set_contentOpfPath p (this w1);
                 effects := effects w1 |}) as [[[]|e] w2] eqn:Hparse.
  2:{ unfold V12.init in Hok. revert Hok. step. rewrite Hinit, Hfile.
      cbn [loadAsync]. step. rewrite Hfind. step. rewrite Htruthy. step.
      rewrite Hparse. step. done. }
  destruct (V12_init_run w w1 w2 z p Hinit Hfile Hfind Htruthy Hparse)
    as [es Hrun].
  rewrite Hrun in Hok. injection Hok as <-.
  by exists z, p, w1, w2.
Qed.

End Init.

(** ** The package parser *)

Lemma filter_split_length {A} (f : A → bool) (l : list A) :
  length (List.filter f l)
  = length l - length (List.filter (λ x, negb (f x)) l).
Proof.
  induction l as [|x l IH]; [done|]. cbn [List.filter].
  pose proof (List.filter_length_le (λ x, negb (f x)) l).
  destruct (f x); cbn [negb length]; lia.
Qed.

(** ** The manifest lookup *)

Lemma querySelector_item_id_names items v it :
  querySelector_item_id items v = Some it ↔ names_item items v it.
Proof.
  unfold querySelector_item_id, names_item.
  induction items as [|x items IH]; cbn [List.find].
  - split; [done|]. intros (before & after & Heq & _). by destruct before.
  - destruct (bool_decide_reflect (item_id x = Some v)) as [Hx|Hx].
    + split.
      * intros [= ->]. exists [], items. by repeat split.
      * intros ([|y before] & after & Heq & Hid & Hbefore).
        -- by injection Heq as ->.
        -- injection Heq as -> _. by inversion Hbefore.
    + rewrite IH. split.
      * intros (before & after & -> & Hid & Hbefore).
        exists (x :: before), after. split; [done|]. split; [done|].
        by constructor.
      * intros ([|y before] & after & Heq & Hid & Hbefore).
        -- injection Heq as -> _. done.
        -- injection Heq as -> ->. inversion Hbefore; subst.
           by exists before, after.
Qed.

Lemma querySelector_item_id_none items v :
  querySelector_item_id items v = None
  ↔ ¬ Exists (λ it, item_id it = Some v) items.
Proof.
  unfold querySelector_item_id. rewrite Exists_exists. split.
  - intros Hnone (it & Hin%list_elem_of_In & Hid).
    pose proof (find_none _ _ Hnone it Hin) as Hf. cbn in Hf.
    by apply bool_decide_eq_false in Hf.
  - intros Hno. destruct (List.find _ items) as [it|] eqn:Hfind; [|done].
    apply find_some in Hfind as [Hin Hid]. apply bool_decide_eq_true in Hid.
    exfalso. apply Hno. exists it. split; [by apply list_elem_of_In|done].
Qed.

Lemma resolvable_lookup items idRef :
  resolvable items idRef
  = bool_decide (is_Some (querySelector_item_id items (interpolate idRef))).
Proof.
  unfold resolvable. apply bool_decide_ext.
  destruct (querySelector_item_id items (interpolate idRef)) as [it|] eqn:Hq.
  - apply querySelector_item_id_names in Hq
      as (before & after & -> & Hid & _).
    split; [by eexists|]. intros _. apply Exists_app. right. by left.
  - apply querySelector_item_id_none in Hq. split; [done|by intros [? ?]].
Qed.

Section Package.
Context {DP : DocumentParser}.

(** For a plain value the query is the id lookup over the items of the
    document. *)
Lemma querySelector_item_plain content v :
  css_plain v = true →
  querySelector_item content v
  = Ok (querySelector_item_id (xml_items content) v).
Proof. intros Hv. unfold querySelector_item. by rewrite Hv. Qed.

(** Whatever the query finds, a chapter carries the idref it was asked
    for and the default title of its position. *)
Lemma chapter_of_idRef_fields content opfDir idRef index c :
  V12.chapter_of_idRef content opfDir idRef index = Ok (Some c) →
  V12.ch_id c = idRef
  ∧ V12.ch_path c = resolvePath opfDir (V12.ch_src c)
  ∧ V12.ch_title c = default_title index.
Proof.
  unfold V12.chapter_of_idRef.
  destruct (querySelector_item content (interpolate idRef)) as [[it|]|e];
    [|done|done].
  destruct (item_href it) as [href|]; cbn [resolvePath_attr]; [|done].
  by intros [= <-].
Qed.

Lemma chapter_of_idRef_ok content opfDir idRef index r :
  css_plain (interpolate idRef) = true →
  V12.chapter_of_idRef content opfDir idRef index = Ok r →
  match r with
  | Some c =>
      resolvable (xml_items content) idRef = true ∧ V12.ch_id c = idRef
      ∧ built_from (xml_items content) opfDir c
      ∧ V12.ch_title c = default_title index
  | None => resolvable (xml_items content) idRef = false
  end.
Proof.
  intros Hplain. unfold V12.chapter_of_idRef, built_from.
  rewrite (querySelector_item_plain _ _ Hplain), resolvable_lookup.
  destruct (querySelector_item_id (xml_items content) (interpolate idRef))
    as [it|] eqn:Hq.
  - destruct (item_href it) as [href|] eqn:Hh; cbn [resolvePath_attr];
      [|done].
    intros [= <-]. cbn [V12.ch_id V12.ch_src V12.ch_path V12.ch_title].
    split; [|split; [done|split; [|done]]].
    + apply bool_decide_eq_true. by eexists.
    + exists it. split; [|done]. by apply querySelector_item_id_names.
  - intros [= <-]. apply bool_decide_eq_false. by intros [? ?].
Qed.

(** The chapter list is the spine with the unresolvable entries taken
    out: same order, nothing put in their place. *)
Lemma map_index_res_chapters content opfDir idRefs : ∀ index cs,
  Forall (λ r, css_plain (interpolate r) = true) idRefs →
  map_index_res (V12.chapter_of_idRef content opfDir) index idRefs = Ok cs →
  V12.ch_id <$> filter_Boolean cs
  = List.filter (resolvable (xml_items content)) idRefs
  ∧ Forall (built_from (xml_items content) opfDir) (filter_Boolean cs).
Proof.
  induction idRefs as [|idRef rest IH]; intros index cs Hplain;
    cbn [map_index_res].
  - intros [= <-]. by split.
  - inversion Hplain as [|? ? Hhead Hrest]; subst.
    destruct (V12.chapter_of_idRef content opfDir idRef index) as [r|] eqn:Hr;
      [|done].
    destruct (map_index_res _ (S index) rest) as [rs|] eqn:Hrs; [|done].
    intros [= <-]. apply (chapter_of_idRef_ok _ _ _ _ _ Hhead) in Hr.
    destruct (IH _ _ Hrest Hrs) as [IHids IHwf].
    cbn [List.filter].
    destruct r as [c|].
    + destruct Hr as (-> & Hid & Hwf & _).
      change (filter_Boolean (Some c :: rs)) with (c :: filter_Boolean rs).
      cbn [fmap list_fmap]. split.
      * rewrite Hid. f_equal. exact IHids.
      * constructor; [done|exact IHwf].
    + rewrite Hr. split; [exact IHids|exact IHwf].
Qed.

(** The spine callback succeeds on every spine of plain idrefs whose
    named items carry an [href]. *)
Lemma map_index_res_total content opfDir idRefs :
  Forall (λ r, css_plain (interpolate r) = true) idRefs →
  (∀ idRef item, idRef ∈ idRefs →
     names_item (xml_items content) (interpolate idRef) item →
     is_Some (item_href item)) →
  ∀ index, ∃ cs,
    map_index_res (V12.chapter_of_idRef content opfDir) index idRefs = Ok cs.
Proof.
  induction idRefs as [|idRef rest IH]; intros Hplain Hhref index;
    cbn [map_index_res]; [by eexists|].
  inversion Hplain as [|? ? Hhead Hrest]; subst.
  assert (∃ r, V12.chapter_of_idRef content opfDir idRef index = Ok r)
    as [r ->].
  { unfold V12.chapter_of_idRef. rewrite (querySelector_item_plain _ _ Hhead).
    destruct (querySelector_item_id (xml_items content) (interpolate idRef))
      as [it|] eqn:Hq; [|by eexists].
    apply querySelector_item_id_names in Hq.
    destruct (Hhref idRef it) as [href Hh]; [by left|done|].
    rewrite Hh. cbn. by eexists. }
  destruct (IH Hrest
              (λ r' it Hin, Hhref r' it (list_elem_of_further _ _ _ Hin))
              (S index)) as [rs ->].
  by eexists.
Qed.

End Package.

(** The spine callback reads no attribute of the item found but its
    [href]: on a document that differs in the [title] attributes only,
    it builds the same chapter. *)
Lemma chapter_of_idRef_ignores_item_title (DP DP' : DocumentParser) g
    content opfDir idRef index :
  querySelector_item (DP := DP') content (interpolate idRef)
  = match querySelector_item (DP := DP) content (interpolate idRef) with
    | Ok found => Ok (retitle g <$> found)
    | Throw e => Throw e
    end →
  V12.chapter_of_idRef (DP := DP') content opfDir idRef index
  = V12.chapter_of_idRef (DP := DP) content opfDir idRef index.
Proof.
  intros Hsame. unfold V12.chapter_of_idRef. rewrite Hsame.
  by destruct (querySelector_item (DP := DP) content (interpolate idRef))
    as [[it|]|e].
Qed.

Section Chapters.
Context {DP : DocumentParser}.

Lemma nav_chapter_keeps z ncx c :
  V12.ch_id (nav_chapter z ncx c) = V12.ch_id c
  ∧ V12.ch_path (nav_chapter z ncx c) = V12.ch_path c
  ∧ V12.ch_src (nav_chapter z ncx c) = V12.ch_src c.
Proof. unfold nav_chapter. by destruct (nav_title_for z ncx (V12.ch_src c)). Qed.

Lemma preload_chapter_keeps jz i c :
  V12.ch_id (preload_chapter jz i c) = V12.ch_id c
  ∧ V12.ch_path (preload_chapter jz i c) = V12.ch_path c
  ∧ V12.ch_src (preload_chapter jz i c) = V12.ch_src c.
Proof.
  unfold preload_chapter.
  destruct (str_eqb _ _); [|done]. destruct jz as [z|]; [|done].
  by destruct (heading_title_for z (V12.ch_path c)).
Qed.

(** For a package whose spine idrefs are plain: after a successful
    [init] of [EpubExtractor1.2.js] the chapter identifiers are the
    spine idrefs that some manifest item has for [id], in spine order
    and with nothing in place of the others; every chapter is built from
    the first manifest item with its idref; and [getChapterCount] is the
    number of spine entries less the unresolvable ones. *)
Theorem chapters_are_the_resolvable_spine_entries
    (w w' : World V12.Extractor) z p f :
  V12.initialized (this w) = false →
  V12.init w = (Ok tt, w') →
  V12.jszip (this w') = Some z →
  V12.contentOpfPath (this w') = Some p →
  zip_file z p = Some f →
  let items := xml_items (entry_text f) in
  let spine := xml_spine_idrefs (entry_text f) in
  Forall (λ r, css_plain (interpolate r) = true) spine →
  V12.ch_id <$> V12.chapters (this w') = List.filter (resolvable items) spine
  ∧ Forall (built_from items (directory_of p)) (V12.chapters (this w'))
  ∧ (V12.getChapterCount w').1
    = Ok (length spine
          - length (List.filter (λ r, negb (resolvable items r)) spine)).
Proof.
  intros Hinit Hok Hz' Hp' Hf' items spine Hplain.
  apply V12_init_ok_inv in Hok as (z0 & p0 & w1 & w2 & _ & _ & _ & Hparse & Hthis);
    [|done].
  apply V12_parseContentOpf_inv in Hparse
    as (z1 & p1 & f1 & cs & _ & _ & Hf & Hcs & Hch & Hz & Hp & _).
  rewrite Hthis in Hz', Hp'.
  cbn [V12.jszip V12.contentOpfPath V12.set_initialized V12.set_chapters]
    in Hz', Hp'.
  assert (z1 = z) as -> by congruence. assert (p1 = p) as -> by congruence.
  assert (f1 = f) as -> by congruence.
  apply (map_index_res_chapters _ _ _ _ _ Hplain) in Hcs as [Hids Hwf].
  fold items spine in Hids, Hwf.
  rewrite Hthis. cbn [V12.set_initialized V12.set_chapters V12.chapters].
  assert (Hsame : ∀ j,
    imap (preload_chapter (Some z0))
      (nav_chapter z0 (V12.ncxPath (this w2)) <$> V12.chapters (this w2)) !! j
    = (λ c, preload_chapter (Some z0) j
              (nav_chapter z0 (V12.ncxPath (this w2)) c))
        <$> V12.chapters (this w2) !! j).
  { intros j. rewrite list_lookup_imap, list_lookup_fmap.
    by destruct (V12.chapters (this w2) !! j). }
  split; [|split].
  - rewrite <- Hids, <- Hch. apply list_eq. intros j.
    rewrite !list_lookup_fmap, Hsame.
    destruct (V12.chapters (this w2) !! j) as [c|]; [|done]. cbn.
    f_equal. destruct (preload_chapter_keeps (Some z0) j
      (nav_chapter z0 (V12.ncxPath (this w2)) c)) as (-> & _).
    by destruct (nav_chapter_keeps z0 (V12.ncxPath (this w2)) c) as (-> & _).
  - apply Forall_lookup. intros j c' Hc'. rewrite Hsame in Hc'.
    destruct (V12.chapters (this w2) !! j) as [c|] eqn:Hc; [|done].
    injection Hc' as <-.
    rewrite Hch in Hc. rewrite Forall_lookup in Hwf. specialize (Hwf j c Hc).
    destruct Hwf as (it & Hq & Hh & Hpath).
    destruct (preload_chapter_keeps (Some z0) j
      (nav_chapter z0 (V12.ncxPath (this w2)) c)) as (Hi1 & Hp1 & Hs1).
    destruct (nav_chapter_keeps z0 (V12.ncxPath (this w2)) c)
      as (Hi2 & Hp2 & Hs2).
    exists it. rewrite Hi1, Hi2, Hp1, Hp2, Hs1, Hs2. done.
  - unfold V12.getChapterCount. step. rewrite Hthis. cbn [V12.initialized
      V12.set_initialized V12.set_chapters V12.chapters]. step.
    f_equal. rewrite length_imap, length_fmap, Hch.
    rewrite <- filter_split_length, <- Hids. by rewrite length_fmap.
Qed.

End Chapters.

(** ** Navigation titles *)

(** The navigation points that [parseNcx] keeps: those with a label text
    that is not blank and a [src] attribute that is not empty. *)
Lemma collect_navPoints_spec snapshot nav :
  nav ∈ V12.collect_navPoints snapshot
  ↔ ∃ np text src,
      np ∈ snapshot ∧ np_text np = Some text
      ∧ np_content np = Some (Some src)
      ∧ normalize_text text ≠ [] ∧ src ≠ []
      ∧ nav = {| V12.nav_src := src; V12.nav_title := normalize_text text |}.
Proof.
  unfold V12.collect_navPoints. rewrite list_elem_of_omap. split.
  - intros (np & Hin & Hentry). unfold V12.navPoint_entry in Hentry.
    destruct (np_text np) as [text|] eqn:Ht; [|done].
    destruct (np_content np) as [[src|]|] eqn:Hs; [|done|done].
    destruct (normalize_text text) as [|a title] eqn:Hn; [done|].
    destruct src as [|b src]; [done|]. cbn in Hentry.
    injection Hentry as <-. exists np, text, (b :: src).
    rewrite Hn. repeat split; done.
  - intros (np & text & src & Hin & Ht & Hs & Hn & Hsrc & ->).
    exists np. split; [done|]. unfold V12.navPoint_entry. rewrite Ht, Hs.
    destruct (normalize_text text); [done|]. by destruct src.
Qed.

Lemma find_nav_Some navPoints src nav :
  List.find (λ nav, str_eqb (V12.nav_src nav) src) navPoints = Some nav →
  nav ∈ navPoints ∧ V12.nav_src nav = src.
Proof.
  intros H. apply List.find_some in H as [Hin Heq].
  split; [by apply list_elem_of_In|]. by apply bool_decide_eq_true in Heq.
Qed.

Lemma find_nav_None navPoints src :
  List.find (λ nav, str_eqb (V12.nav_src nav) src) navPoints = None →
  ∀ nav, nav ∈ navPoints → V12.nav_src nav ≠ src.
Proof.
  intros H nav Hin Heq. apply list_elem_of_In in Hin.
  pose proof (List.find_none _ _ H nav Hin) as Hf. cbn in Hf.
  unfold str_eqb in Hf. by apply bool_decide_eq_false in Hf.
Qed.

Section Navigation.
Context {DP : DocumentParser}.

(** With the navigation document loaded, [parseNcx] of
    [EpubExtractor1.2.js] keeps the navigation points that have both a
    non-blank label and a non-empty [src]; a chapter gets the title of
    such a point exactly when the point's [src] equals the chapter's own
    [src] (the raw manifest href), whatever the positions of the chapter
    and of the point, and keeps its title when there is none; the points
    without label or [src] give no title; reordering the navigation
    points does not change which chapters are matched. *)
Theorem navigation_titles_go_by_src
    (w : World V12.Extractor) z p ncxFile snapshot :
  V12.jszip (this w) = Some z →
  V12.ncxPath (this w) = Some p →
  truthy p = true →
  zip_file z p = Some ncxFile →
  ncx_navPoints (entry_text ncxFile) = Some snapshot →
  let navPoints := V12.collect_navPoints snapshot in
  let w' := (V12.parseNcx w).2 in
  (V12.parseNcx w).1 = Ok tt
  ∧ (∀ nav, nav ∈ navPoints
       ↔ ∃ np text src,
           np ∈ snapshot ∧ np_text np = Some text
           ∧ np_content np = Some (Some src)
           ∧ normalize_text text ≠ [] ∧ src ≠ []
           ∧ nav = {| V12.nav_src := src;
                      V12.nav_title := normalize_text text |})
  ∧ length (V12.chapters (this w')) = length (V12.chapters (this w))
  ∧ (∀ i c, V12.chapters (this w) !! i = Some c →
       ∃ c', V12.chapters (this w') !! i = Some c'
         ∧ V12.ch_id c' = V12.ch_id c
         ∧ V12.ch_path c' = V12.ch_path c
         ∧ V12.ch_src c' = V12.ch_src c
         ∧ ((∃ nav, nav ∈ navPoints ∧ V12.nav_src nav = V12.ch_src c) →
            ∃ nav, nav ∈ navPoints ∧ V12.nav_src nav = V12.ch_src c
                   ∧ V12.ch_title c' = V12.nav_title nav)
         ∧ ((∀ nav, nav ∈ navPoints → V12.nav_src nav ≠ V12.ch_src c) →
            c' = c))
  ∧ (∀ snapshot' src, snapshot ≡ₚ snapshot' →
       (∃ nav, nav ∈ navPoints ∧ V12.nav_src nav = src)
       ↔ (∃ nav, nav ∈ V12.collect_navPoints snapshot'
                 ∧ V12.nav_src nav = src)).
Proof.
  intros Hz Hp Htruthy Hfile Hsnap navPoints w'.
  destruct (V12_parseNcx_run w z Hz) as [es Hrun].
  unfold w'. rewrite Hrun. cbn [fst snd this V12.chapters V12.set_chapters].
  split; [done|]. split; [apply collect_navPoints_spec|].
  split; [by rewrite length_fmap|]. split.
  - intros i c Hc. rewrite list_lookup_fmap, Hc. cbn.
    eexists. split; [done|].
    unfold nav_title_for. rewrite Hp, Htruthy, Hfile, Hsnap.
    fold navPoints.
    destruct (List.find _ navPoints) as [nav|] eqn:Hfind.
    + apply find_nav_Some in Hfind as [Hin Hsrc].
      repeat split; try done.
      * intros _. by exists nav.
      * intros Hnone. by destruct (Hnone nav Hin).
    + repeat split; try done.
      intros (nav & Hin & Hsrc).
      by destruct (find_nav_None _ _ Hfind nav Hin).
  - intros snapshot' src Hperm. unfold navPoints, V12.collect_navPoints.
    by setoid_rewrite Hperm.
Qed.

(** C7.  On an instance that holds an archive [parseNcx] always returns
    normally; when the navigation entry is missing, or reading it
    raises, the instance is left exactly as it was, so every chapter
    keeps its title.  And once the package document has been located
    and parsed, [init] completes and marks the instance initialised,
    whatever the navigation document is. *)
Theorem navigation_failure_is_not_fatal
    (w : World V12.Extractor) (z : Archive) :
  V12.jszip (this w) = Some z →
  (∃ w', V12.parseNcx w = (Ok tt, w')
     ∧ ((∀ p, V12.ncxPath (this w) = Some p →
           match zip_file z p with
           | Some ncxFile => ncx_navPoints (entry_text ncxFile) = None
           | None => True
           end) →
        this w' = this w))
  ∧ ∀ (w0 w1 w2 : World V12.Extractor) p,
      V12.initialized (this w0) = false →
      V12.epubFile (this w0) = ZipBlob z →
      V12.findContentOpf
        {| this := V12.set_jszip (Some z) (this w0); effects := effects w0 |}
      = (Ok p, w1) →
      truthy_opt p = true →
      V12.parseContentOpf
        {| this := V12.set_contentOpfPath p (this w1); effects := effects w1 |}
      = (Ok tt, w2) →
      ∃ w3, V12.init w0 = (Ok tt, w3) ∧ V12.initialized (this w3) = true.
Proof.
  intros Hz. split.
  - destruct (V12_parseNcx_run w z Hz) as [es Hrun].
    eexists. split; [exact Hrun|]. intros Hnone. cbn [this].
    rewrite (list_fmap_ext _ (λ c, c) (V12.chapters (this w))).
    + by rewrite list_fmap_id, V12_set_chapters_same.
    + intros i c _. unfold nav_title_for.
      destruct (V12.ncxPath (this w)) as [p|]; [|done].
      specialize (Hnone p eq_refl). destruct (truthy p); [|done].
      destruct (zip_file z p); [|done]. by rewrite Hnone.
  - intros w0 w1 w2 p Hinit Hfile Hfind Htruthy Hparse.
    destruct (V12_init_run w0 w1 w2 z p Hinit Hfile Hfind Htruthy Hparse)
      as [es Hrun].
    eexists. split; [exact Hrun|done].
Qed.

(** ** Title tiers *)


End Navigation.

(** ** Heading extraction *)

(** The loop of the condensed class is the extraction of section 4.5. *)
Lemma t_scan_is_spec d :
  Compact.t_scan d titleSelectors = spec_extract_title d.
Proof.
  unfold spec_extract_title. change
    [TagName (lit "h1"); TagName (lit "h2"); ClassContains (lit "title");
     ClassContains (lit "Title"); TagName (lit "h3")] with titleSelectors.
  induction titleSelectors as [|sel rest IH];
    cbn [Compact.t_scan spec_first_candidate]; [done|].
  unfold spec_candidate, querySelector, Compact.L.
  destruct (List.find (selector_matches sel) d) as [e|]; [|done].
  by destruct (2 <=? length (normalize_text (el_textContent e)))%nat.
Qed.

(** What [extractTitleFromXhtml] returns it shares with the extraction
    of section 4.5; it returns nothing in more cases. *)
Lemma scan_selectors_sound d sels text :
  V12.scan_selectors d sels = Some text →
  spec_first_candidate d sels = Some text.
Proof.
  induction sels as [|sel rest IH];
    cbn [V12.scan_selectors spec_first_candidate]; [done|].
  unfold spec_candidate, querySelector.
  destruct (List.find (selector_matches sel) d) as [e|]; [|done].
  destruct (length (normalize_text (el_textContent e))) as [|[|n]] eqn:Hlen;
    cbn; [done|done|]. by intros [= <-].
Qed.

(** C3.  [extractTitleFromXhtml] of [EpubExtractor1.2.js] returns from
    inside the loop at the first selector that matches anything: for a
    document with a one-character [h1] and an [h3] it yields nothing,
    where the specification, and the loop of the condensed class, go on
    to the [h3] text. *)
Theorem extractTitleFromXhtml_stops_at_short_match :
  html_elements (DocumentParser := Fixture.parser) Fixture.short_xhtml
  = [Fixture.heading "h1" "1"; Fixture.heading "h3" "Chapter One"]
  ∧ V12.extractTitleFromXhtml (DP := Fixture.parser) Fixture.short_xhtml
    = None
  ∧ spec_extract_title
      (html_elements (DocumentParser := Fixture.parser) Fixture.short_xhtml)
    = Some (lit "Chapter One")
  ∧ Compact.t_scan
      (html_elements (DocumentParser := Fixture.parser) Fixture.short_xhtml)
      titleSelectors
    = Some (lit "Chapter One").
Proof. repeat split; vm_compute; reflexivity. Qed.

(** ** Remarks on the model *)

Section Remarks.
Context {DP : DocumentParser}.

(** The Ready state of the query theorems is what [init] establishes. *)
Lemma V12_init_establishes_ready (w w' : World V12.Extractor) :
  V12.initialized (this w) = false →
  V12.init w = (Ok tt, w') →
  V12.initialized (this w') = true
  ∧ V12.jszip (this w') = Some
      match V12.epubFile (this w) with ZipBlob z => z | NotAZip => ∅ end.
Proof.
  intros Hinit Hok.
  apply V12_init_ok_inv in Hok
    as (z & p & w1 & w2 & Hfile & Hfind & _ & Hparse & ->); [|done].
  rewrite Hfile. split; [done|].
  cbn [V12.jszip V12.set_initialized V12.set_chapters].
  destruct (V12_findContentOpf_run
              {| this := V12.set_jszip (Some z) (this w);
                 effects := effects w |} z eq_refl) as (p' & es' & Hrun).
  rewrite Hrun in Hfind. injection Hfind as -> <-.
  apply V12_parseContentOpf_inv in Hparse
    as (z' & p'' & f & cs & Hz' & _ & _ & _ & _ & Hz'' & _).
  cbn in Hz'. congruence.
Qed.

(** The callbacks of [preloadChapterTitles] for two different chapters
    commute on the instance: the order in which they finish does not
    show in the chapter list. *)
Lemma preload_callbacks_commute (w : World V12.Extractor) i j :
  i ≠ j →
  this ((V12.preload_callback i;;; V12.preload_callback j) w).2
  = this ((V12.preload_callback j;;; V12.preload_callback i) w).2.
Proof.
  intros Hij. step.
  rewrite (V12_preload_callback_run w i), (V12_preload_callback_run w j).
  step. rewrite !V12_preload_callback_run.
  cbn [snd this V12.jszip V12.chapters V12.set_chapters].
  rewrite !V12_set_chapters_twice. f_equal. by apply list_alter_alter_ne.
Qed.

End Remarks.

(** In the example book the spine entry before the second chapter is
    dropped: the chapter holds the default text numbered by its spine
    position, the fallback compares with the text numbered by its list
    position, and its document is never read. *)
Example fallback_skips_chapter_after_dropped_entry :
  V12.ch_title <$> V12.chapters (this Fixture.ready_book) !! 1%nat
  = Some (default_title 2)
  ∧ V12.ch_path <$> V12.chapters (this Fixture.ready_book) !! 1%nat
    = Some (lit "OEBPS/text/c2.xhtml")
  ∧ ReadText (lit "OEBPS/text/c2.xhtml") ∉ effects Fixture.ready_book.
Proof.
  split; [vm_compute; reflexivity|]. split; [vm_compute; reflexivity|].
  intros Hin. apply list_elem_of_In in Hin. vm_compute in Hin.
  repeat destruct Hin as [Hin|Hin]; try discriminate Hin. done.
Qed.

(** ** The theorems at the example archives *)


(** C6 as stated fails: the descriptor is there, its [rootfile] element
    has no [full-path], and the first conventional path exists; the
    locator returns [null] and [init] fails, where the claim has the
    locator fall back to that path. *)
Lemma locator_does_not_probe_after_bare_rootfile :
  xml_rootfiles (DocumentParser := Fixture.parser)
    Fixture.container_bare_xml = [None]
  ∧ (V10.findContentOpf (DP := Fixture.parser) Fixture.opened_bare).1
    = Ok None
  ∧ spec_locate (DP := Fixture.parser) Fixture.bare_zip
    = Some (lit "OEBPS/content.opf")
  ∧ (V10.init (DP := Fixture.parser) (Fixture.fresh10 Fixture.bare_zip)).1
    = Throw (Error MSG_NO_OPF).
Proof. repeat split; vm_compute; reflexivity. Qed.

(** C4.  The spine callback pastes the idref into the selector text as
    it is, and an idref that is not plain is not looked up by its text.
    With a quote in the idref, in a package that has no manifest item
    for it, the query raises and [init] of both classes fails, where the
    entry was to be dropped.  With an escape in the idref the query
    finds an item whose [id] is another text: the entry has no matching
    manifest item and still gives a chapter, so that the chapter count
    is [1] where the spine entries less the unresolvable ones are
    [0]. *)
Theorem unplain_idref_is_not_dropped :
  let quoted :=
    V12.init (DP := Sample.parser) (Fixture.fresh12 Sample.quoted_zip) in
  let escaped :=
    V12.init (DP := Sample.parser) (Fixture.fresh12 Sample.escaped_zip) in
  let items := xml_items (DocumentParser := Sample.parser) Sample.escaped_opf in
  let spine :=
    xml_spine_idrefs (DocumentParser := Sample.parser) Sample.escaped_opf in
  xml_spine_idrefs (DocumentParser := Sample.parser) Sample.quoted_opf
  = [Some Sample.quoted_idref]
  ∧ xml_items (DocumentParser := Sample.parser) Sample.quoted_opf = []
  ∧ quoted.1 = Throw DOMException
  ∧ V12.initialized (this quoted.2) = false
  ∧ spine = [Some Sample.escaped_idref]
  ∧ item_id <$> items = [Some (lit "az")]
  ∧ resolvable items (Some Sample.escaped_idref) = false
  ∧ escaped.1 = Ok tt
  ∧ V12.ch_id <$> V12.chapters (this escaped.2) = [Some Sample.escaped_idref]
  ∧ (V12.getChapterCount escaped.2).1 = Ok 1%nat
  ∧ (length spine
     - length (List.filter (λ r, negb (resolvable items r)) spine))%nat
    = 0%nat
  ∧ (V10.init (DP := Sample.parser) (Fixture.fresh10 Sample.quoted_zip)).1
    = Throw DOMException.
Proof. repeat split; vm_compute; reflexivity. Qed.


Lemma chapters_are_the_resolvable_spine_entries_witness :
  V12.initialized (this (Fixture.fresh12 Fixture.book_zip)) = false
  ∧ V12.init (DP := Fixture.parser) (Fixture.fresh12 Fixture.book_zip)
    = (Ok tt, Fixture.ready_book)
  ∧ zip_file Fixture.book_zip (lit "OEBPS/content.opf")
    = Some (Fixture.entry Fixture.book_opf)
  ∧ xml_spine_idrefs (DocumentParser := Fixture.parser) Fixture.book_opf
    = [Some (lit "c1"); Some (lit "gone"); Some (lit "c2")]
  ∧ Forall (λ r, css_plain (interpolate r) = true)
      (xml_spine_idrefs (DocumentParser := Fixture.parser) Fixture.book_opf)
  ∧ V12.ch_id <$> V12.chapters (this Fixture.ready_book)
    = [Some (lit "c1"); Some (lit "c2")]
  ∧ (V12.getChapterCount Fixture.ready_book).1 = Ok 2%nat.
Proof.
  assert (H1 : V12.initialized (this (Fixture.fresh12 Fixture.book_zip))
               = false) by reflexivity.
  assert (H2 : V12.init (DP := Fixture.parser)
                 (Fixture.fresh12 Fixture.book_zip)
               = (Ok tt, Fixture.ready_book)) by (vm_compute; reflexivity).
  assert (H3 : V12.jszip (this Fixture.ready_book) = Some Fixture.book_zip)
    by (vm_compute; reflexivity).
  assert (H4 : V12.contentOpfPath (this Fixture.ready_book)
               = Some (lit "OEBPS/content.opf")) by (vm_compute; reflexivity).
  assert (H5 : zip_file Fixture.book_zip (lit "OEBPS/content.opf")
               = Some (Fixture.entry Fixture.book_opf))
    by (vm_compute; reflexivity).
  assert (H6 : Forall (λ r, css_plain (interpolate r) = true)
                 (xml_spine_idrefs (DocumentParser := Fixture.parser)
                    Fixture.book_opf)).
  { apply (bool_decide_unpack _). vm_compute. exact I. }
  split; [exact H1|]. split; [exact H2|]. split; [exact H5|].
  split; [vm_compute; reflexivity|]. split; [exact H6|].
  destruct (chapters_are_the_resolvable_spine_entries (DP := Fixture.parser)
              _ _ _ _ _ H1 H2 H3 H4 H5 H6) as (Hids & _ & Hcount).
  split.
  - rewrite Hids. vm_compute; reflexivity.
  - rewrite Hcount. vm_compute; reflexivity.
Defined.

Lemma navigation_titles_go_by_src_witness :
  V12.jszip (this Fixture.parsed_book) = Some Fixture.book_zip
  ∧ V12.ncxPath (this Fixture.parsed_book) = Some (lit "OEBPS/toc.ncx")
  ∧ truthy (lit "OEBPS/toc.ncx") = true
  ∧ zip_file Fixture.book_zip (lit "OEBPS/toc.ncx")
    = Some (Fixture.entry Fixture.book_ncx)
  ∧ ncx_navPoints (DocumentParser := Fixture.parser)
      (entry_text (Fixture.entry Fixture.book_ncx))
    = Some Fixture.book_navPoints
  ∧ (V12.parseNcx (DP := Fixture.parser) Fixture.parsed_book).1 = Ok tt
  ∧ length (V12.chapters
              (this (V12.parseNcx (DP := Fixture.parser)
                       Fixture.parsed_book).2))
    = length (V12.chapters (this Fixture.parsed_book)).
Proof.
  assert (H1 : V12.jszip (this Fixture.parsed_book) = Some Fixture.book_zip)
    by (vm_compute; reflexivity).
  assert (H2 : V12.ncxPath (this Fixture.parsed_book)
               = Some (lit "OEBPS/toc.ncx")) by (vm_compute; reflexivity).
  assert (H3 : truthy (lit "OEBPS/toc.ncx") = true) by reflexivity.
  assert (H4 : zip_file Fixture.book_zip (lit "OEBPS/toc.ncx")
               = Some (Fixture.entry Fixture.book_ncx))
    by (vm_compute; reflexivity).
  assert (H5 : ncx_navPoints (DocumentParser := Fixture.parser)
                 (entry_text (Fixture.entry Fixture.book_ncx))
               = Some Fixture.book_navPoints) by (vm_compute; reflexivity).
  repeat (split; [assumption|]).
  destruct (navigation_titles_go_by_src (DP := Fixture.parser)
              Fixture.parsed_book _ _ _ _ H1 H2 H3 H4 H5)
    as (Hok & _ & Hlen & _).
  split; [exact Hok|exact Hlen].
Defined.

Lemma findContentOpf_gates_on_rootfile_element_witness :
  V10.jszip (this Fixture.opened_bare) = Some Fixture.bare_zip
  ∧ (V10.findContentOpf (DP := Fixture.parser) Fixture.opened_bare).1
    = Ok None
  ∧ (V10.init (DP := Fixture.parser) (Fixture.fresh10 Fixture.bare_zip)).1
    = Throw (Error MSG_NO_OPF).
Proof.
  assert (H1 : V10.jszip (this Fixture.opened_bare) = Some Fixture.bare_zip)
    by reflexivity.
  split; [exact H1|].
  destruct (findContentOpf_gates_on_rootfile_element (DP := Fixture.parser)
              Fixture.opened_bare Fixture.bare_zip H1)
    as (Hloc & _ & Hinit).
  split.
  - rewrite Hloc. vm_compute; reflexivity.
  - apply (Hinit (Fixture.fresh10 Fixture.bare_zip));
      [reflexivity|reflexivity|vm_compute; reflexivity].
Defined.

Lemma navigation_failure_is_not_fatal_witness :
  V12.jszip (this Fixture.parsed_broken) = Some Fixture.broken_nav_zip
  ∧ (∃ w', V12.parseNcx (DP := Fixture.parser) Fixture.parsed_broken
           = (Ok tt, w')
           ∧ this w' = this Fixture.parsed_broken)
  ∧ ∃ w3, V12.init (DP := Fixture.parser)
            (Fixture.fresh12 Fixture.broken_nav_zip) = (Ok tt, w3)
          ∧ V12.initialized (this w3) = true.
Proof.
  assert (H1 : V12.jszip (this Fixture.parsed_broken)
               = Some Fixture.broken_nav_zip) by (vm_compute; reflexivity).
  split; [exact H1|].
  destruct (navigation_failure_is_not_fatal (DP := Fixture.parser)
              Fixture.parsed_broken Fixture.broken_nav_zip H1)
    as [(w' & Hrun & Hkeep) Hinit].
  split.
  - exists w'. split; [exact Hrun|]. apply Hkeep. intros p Hp.
    assert (Hpath : V12.ncxPath (this Fixture.parsed_broken)
                    = Some (lit "OEBPS/toc.ncx")) by (vm_compute; reflexivity).
    rewrite Hpath in Hp. injection Hp as <-. vm_compute; reflexivity.
  - eapply (Hinit (Fixture.fresh12 Fixture.broken_nav_zip) _ _
              (Some (lit "OEBPS/content.opf")));
      [reflexivity|reflexivity|vm_compute; reflexivity|reflexivity
      |vm_compute; reflexivity].
Defined.

Lemma getChapterXhtml_outcomes_witness :
  V12.initialized (this Fixture.ready_book) = true
  ∧ V12.jszip (this Fixture.ready_book) = Some Fixture.book_zip
  ∧ (V12.getChapterXhtml (Integer 2) Fixture.ready_book).1
    = Throw (Error (MSG_BAD_INDEX 1))
  ∧ (V12.getChapterXhtml (Integer 1) Fixture.ready_book).1
    = Ok {| blob_content := entry_bytes (Fixture.entry Fixture.short_xhtml);
            blob_type := XHTML_TYPE |}.
Proof.
  assert (H1 : V12.initialized (this Fixture.ready_book) = true)
    by (vm_compute; reflexivity).
  assert (H2 : V12.jszip (this Fixture.ready_book) = Some Fixture.book_zip)
    by (vm_compute; reflexivity).
  split; [exact H1|]. split; [exact H2|]. split.
  - destruct (getChapterXhtml_outcomes Fixture.ready_book Fixture.book_zip 2
                H1 H2) as (Hbounds & _).
    assert (Hlen : length (V12.chapters (this Fixture.ready_book)) = 2%nat)
      by (vm_compute; reflexivity).
    rewrite Hlen in Hbounds. apply Hbounds. cbn. lia.
  - destruct (getChapterXhtml_outcomes Fixture.ready_book Fixture.book_zip 1
                H1 H2) as (_ & Hin & _).
    assert (Hlen : length (V12.chapters (this Fixture.ready_book)) = 2%nat)
      by (vm_compute; reflexivity).
    rewrite Hlen in Hin.
    destruct (Hin (V12.set_title (default_title 2)
                     {| V12.ch_id := Some (lit "c2");
                        V12.ch_path := lit "OEBPS/text/c2.xhtml";
                        V12.ch_src := lit "text/c2.xhtml";
                        V12.ch_title := [] |})) as [_ Hfetch].
    + cbn. lia.
    + vm_compute; reflexivity.
    + apply Hfetch. vm_compute; reflexivity.
Defined.

Lemma ready_instance_is_frozen_witness :
  V12.initialized (this Fixture.ready_book) = true
  ∧ V12.init (DP := Fixture.parser) Fixture.ready_book
    = (Ok tt, Fixture.ready_book)
  ∧ (V12.getChapterTitles Fixture.ready_book).2 = Fixture.ready_book.
Proof.
  assert (H1 : V12.initialized (this Fixture.ready_book) = true)
    by (vm_compute; reflexivity).
  split; [exact H1|].
  destruct (ready_instance_is_frozen (DP := Fixture.parser)
              Fixture.ready_book H1) as (Hinit & _ & Htitles & _).
  split; [exact Hinit|exact Htitles].
Defined.

(** ** More on the path resolver *)

Lemma split_slash_app a b :
  split_slash (a ++ SLASH :: b) = split_slash a ++ split_slash b.
Proof.
  induction a as [|c a IH]; cbn [app split_slash].
  - by rewrite N.eqb_refl.
  - destruct (N.eqb c SLASH); [by rewrite IH|].
    rewrite IH. pose proof (split_slash_not_nil a) as Hne.
    by destruct (split_slash a).
Qed.

Lemma split_slash_plain p : SLASH ∉ p → split_slash p = [p].
Proof.
  induction p as [|c p IH]; intros Hp; cbn [split_slash]; [done|].
  destruct (N.eqb_spec c SLASH) as [->|Hc]; [by destruct Hp; left|].
  rewrite IH; [done|]. intros Hin. apply Hp. by right.
Qed.

Lemma segments_app a b :
  segments (a ++ SLASH :: b) = segments a ++ segments b.
Proof. unfold segments. by rewrite split_slash_app, List.filter_app. Qed.

Lemma split_slash_join parts :
  parts ≠ [] → Forall (λ seg, SLASH ∉ seg) parts →
  split_slash (join_slash parts) = parts.
Proof.
  induction parts as [|p rest IH]; intros Hne Hparts; [done|].
  inversion Hparts as [|? ? Hp Hrest]; subst.
  destruct rest as [|q rest]; cbn [join_slash].
  - by apply split_slash_plain.
  - change (SLASH :: join_slash (q :: rest)) with (SLASH :: join_slash (q :: rest)).
    rewrite split_slash_app, split_slash_plain by done.
    cbn [app]. f_equal. by apply IH.
Qed.

Lemma filter_truthy_all parts :
  Forall (λ seg : jsstring, seg ≠ []) parts → List.filter truthy parts = parts.
Proof.
  induction 1 as [|p rest Hp _ IH]; [done|]. cbn [List.filter].
  destruct p; [done|]. cbn. by rewrite IH.
Qed.

(** Joining clean segments and splitting again gives them back. *)
Lemma segments_join parts :
  Forall (λ seg, seg ≠ []) parts → Forall (λ seg, SLASH ∉ seg) parts →
  segments (join_slash parts) = parts.
Proof.
  intros Hne Hsl. destruct parts as [|p rest]; [done|].
  unfold segments. rewrite split_slash_join by done.
  by apply filter_truthy_all.
Qed.

Lemma Forall_removelast {A} (P : A → Prop) (l : list A) :
  Forall P l → Forall P (removelast l).
Proof.
  induction 1 as [|x l Hx Hl IH]; [constructor|]. cbn [removelast].
  destruct l; [constructor|]. by constructor.
Qed.

Lemma resolve_step_Forall (P : jsstring → Prop) bp part :
  Forall P bp → P part → Forall P (resolve_step bp part).
Proof.
  intros Hbp Hpart. unfold resolve_step, pop, push.
  destruct (str_eqb part DOTDOT).
  - destruct (0 <? length bp)%nat; [by apply Forall_removelast|done].
  - apply Forall_app. by split; [|constructor].
Qed.

Lemma fold_resolve_step_Forall (P : jsstring → Prop) segs : ∀ bp,
  Forall P bp → Forall P segs → Forall P (fold_left resolve_step segs bp).
Proof.
  induction segs as [|seg segs IH]; intros bp Hbp Hsegs; [done|].
  inversion Hsegs; subst. cbn [fold_left]. apply IH; [|done].
  by apply resolve_step_Forall.
Qed.

(** The segments that [resolvePath] joins, for a relative reference. *)
Lemma resolvePath_relative b r :
  startsWith_slash r = false →
  resolvePath b r
  = join_slash (fold_left resolve_step (segments r) (segments b))
  ∧ segments (resolvePath b r)
    = fold_left resolve_step (segments r) (segments b).
Proof.
  intros Hr. unfold resolvePath. rewrite Hr.
  rewrite resolve_for_fold by lia. rewrite drop_0. split; [done|].
  apply segments_join; apply fold_resolve_step_Forall;
    auto using segments_nonempty, segments_no_slash.
Qed.

(** X1.  For a relative reference the path that [resolvePath] returns is
    in normal form: it has no empty component, so no leading, trailing
    or doubled separator, and joining its segments gives it back. *)
Theorem resolvePath_is_normalised b r :
  startsWith_slash r = false →
  join_slash (segments (resolvePath b r)) = resolvePath b r
  ∧ (resolvePath b r ≠ [] →
     split_slash (resolvePath b r) = segments (resolvePath b r)
     ∧ Forall (λ seg, seg ≠ []) (split_slash (resolvePath b r))).
Proof.
  intros Hr. destruct (resolvePath_relative b r Hr) as [Hjoin Hsegs].
  split; [by rewrite Hsegs|].
  intros Hne. rewrite Hsegs.
  assert (Hclean : Forall (λ seg, seg ≠ [])
            (fold_left resolve_step (segments r) (segments b))).
  { apply fold_resolve_step_Forall; auto using segments_nonempty. }
  assert (Hsplit : split_slash (resolvePath b r)
            = fold_left resolve_step (segments r) (segments b)).
  { rewrite Hjoin. apply split_slash_join.
    - intros Hnil. apply Hne. by rewrite Hjoin, Hnil.
    - apply fold_resolve_step_Forall; auto using segments_no_slash. }
  rewrite Hsplit. by split.
Qed.

(** X2.  [resolvePath] uses up every [..] of a relative reference: when
    the base has no [..] segment, the result has none. *)
Theorem resolvePath_leaves_no_parent_segment b r :
  startsWith_slash r = false →
  DOTDOT ∉ segments b →
  DOTDOT ∉ segments (resolvePath b r).
Proof.
  intros Hr Hb. destruct (resolvePath_relative b r Hr) as [_ ->].
  assert (Hgen : ∀ segs bp,
    Forall (λ seg, seg ≠ DOTDOT) bp →
    Forall (λ seg, seg ≠ DOTDOT) (fold_left resolve_step segs bp)).
  { induction segs as [|seg segs IH]; intros bp Hbp; [done|].
    cbn [fold_left]. apply IH. unfold resolve_step, pop, push.
    destruct (str_eqb seg DOTDOT) eqn:Hseg.
    - destruct (0 <? length bp)%nat; [by apply Forall_removelast|done].
    - apply Forall_app. split; [done|]. constructor; [|done].
      by apply bool_decide_eq_false in Hseg. }
  intros Hin.
  assert (Hall : Forall (λ seg, seg ≠ DOTDOT) (segments b)).
  { apply Forall_forall. intros seg Hseg ->. done. }
  specialize (Hgen (segments r) (segments b) Hall).
  rewrite Forall_forall in Hgen. by apply (Hgen DOTDOT).
Qed.

(** X3.  Resolving in two steps is resolving the two references joined
    by a separator. *)
Theorem resolvePath_composes b r1 r2 :
  startsWith_slash r1 = false → r1 ≠ [] →
  startsWith_slash r2 = false →
  resolvePath (resolvePath b r1) r2 = resolvePath b (r1 ++ SLASH :: r2).
Proof.
  intros Hr1 Hne Hr2.
  assert (Hr12 : startsWith_slash (r1 ++ SLASH :: r2) = false).
  { by destruct r1. }
  destruct (resolvePath_relative b r1 Hr1) as [_ Hs1].
  destruct (resolvePath_relative (resolvePath b r1) r2 Hr2) as [-> _].
  destruct (resolvePath_relative b (r1 ++ SLASH :: r2) Hr12) as [-> _].
  by rewrite Hs1, segments_app, fold_left_app.
Qed.

Lemma length_removelast_pred {A} (l : list A) :
  length (removelast l) = pred (length l).
Proof.
  induction l as [|x l IH]; [done|]. cbn [removelast].
  destruct l; [done|]. cbn [length] in *. by rewrite IH.
Qed.

Lemma s_callback_fold segs : ∀ bp,
  climbs_above_root (length bp) segs = false →
  fold_left Compact.s_callback segs bp = fold_left resolve_step segs bp.
Proof.
  induction segs as [|seg segs IH]; intros bp Hclimb; [done|].
  cbn [fold_left climbs_above_root] in *.
  unfold Compact.s_callback at 2, resolve_step at 2.
  destruct (str_eqb seg DOTDOT).
  - destruct (length bp) as [|d] eqn:Hlen; [done|].
    cbn. apply IH. unfold pop. by rewrite length_removelast_pred, Hlen.
  - cbn. apply IH. unfold push. rewrite length_app. cbn.
    by replace (length bp + 1)%nat with (S (length bp)) by lia.
Qed.

(** X4.  The condensed resolver of [part_000] returns what [resolvePath]
    returns for every reference that never climbs above the root, that
    is, never meets a [..] with no base segment left. *)
Theorem s_agrees_below_root b r :
  climbs_above_root (length (segments b)) (segments r) = false →
  Compact.s b r = resolvePath b r.
Proof.
  intros Hclimb. unfold Compact.s, resolvePath.
  destruct (startsWith_slash r); [done|].
  rewrite resolve_for_fold by lia. rewrite drop_0.
  f_equal. by apply s_callback_fold.
Qed.

(** ** More on text normalisation *)

Lemma last_rev {A} (l : list A) : last (rev l) = head l.
Proof. rewrite rev_alt. apply last_reverse. Qed.

Lemma head_rev {A} (l : list A) : head (rev l) = last l.
Proof. rewrite rev_alt. apply head_reverse. Qed.

Lemma spaced_replace_ws_runs s : ∀ b, spaced b (replace_ws_runs b s) = true.
Proof.
  induction s as [|c s IH]; intros b; [done|]. cbn [replace_ws_runs].
  destruct (is_ws c) eqn:Hc.
  - destruct b; [apply IH|]. cbn [spaced].
    assert (is_ws SPACE = true) as -> by reflexivity.
    rewrite N.eqb_refl. cbn. apply IH.
  - cbn [spaced]. rewrite Hc. apply IH.
Qed.

Lemma spaced_weaken s : spaced true s = true → spaced false s = true.
Proof.
  destruct s as [|c s]; [done|]. cbn [spaced].
  destruct (is_ws c); [|done]. rewrite !andb_true_iff. cbn. tauto.
Qed.

Lemma spaced_trimStart s : ∀ b,
  spaced b s = true → spaced false (trimStart s) = true.
Proof.
  induction s as [|c s IH]; intros b H; [done|]. cbn [trimStart].
  destruct (is_ws c) eqn:Hc.
  - cbn [spaced] in H. rewrite Hc in H.
    apply andb_true_iff in H as [_ H]. by apply (IH true).
  - cbn [spaced] in *. by rewrite Hc in *.
Qed.

Lemma trimStart_head s c : head (trimStart s) = Some c → is_ws c = false.
Proof.
  induction s as [|d s IH]; [done|]. cbn [trimStart].
  destruct (is_ws d) eqn:Hd; [done|]. cbn. by intros [= <-].
Qed.

Lemma trimStart_fixed s :
  (∀ c, head s = Some c → is_ws c = false) → trimStart s = s.
Proof. destruct s as [|c s]; [done|]. intros H. cbn. by rewrite (H c). Qed.

Lemma trimStart_suffix s : ∃ pre, s = pre ++ trimStart s.
Proof.
  induction s as [|c s [pre IH]]; [by exists []|]. cbn [trimStart].
  destruct (is_ws c); [|by exists []].
  exists (c :: pre). cbn. by rewrite <- IH.
Qed.

(** The state of the last unit of a text, [b] for the empty text. *)
Lemma spaced_snoc s c : ∀ b,
  spaced b (s ++ [c])
  = spaced b s
    && (if is_ws c
        then N.eqb c SPACE
             && negb (match last s with Some d => is_ws d | None => b end)
        else true).
Proof.
  induction s as [|d s IH]; intros b; cbn [app spaced last].
  - destruct (is_ws c); [|done]. by rewrite !andb_true_r.
  - rewrite IH. rewrite last_cons.
    destruct (is_ws d) eqn:Hd.
    + destruct (last s) as [e|]; [|rewrite Hd]; by rewrite !andb_assoc.
    + by destruct (last s) as [e|]; [|rewrite Hd].
Qed.

Lemma spaced_head_after_ws s :
  spaced true s = true → ∀ c, head s = Some c → is_ws c = false.
Proof.
  destruct s as [|d s]; [done|]. cbn [spaced head].
  intros H c [= <-]. destruct (is_ws d); [|done].
  rewrite !andb_true_iff in H. by destruct H as [[_ ?] _].
Qed.

Lemma spaced_rev s : spaced false s = true → spaced false (rev s) = true.
Proof.
  induction s as [|c s IH]; [done|]. intros H.
  change (rev (c :: s)) with (rev s ++ [c]). rewrite spaced_snoc.
  cbn [spaced] in H. destruct (is_ws c) eqn:Hc.
  - rewrite !andb_true_iff in H. destruct H as [[Heq _] Hs].
    rewrite (IH (spaced_weaken _ Hs)), Heq. cbn.
    rewrite last_rev.
    destruct (head s) as [d|] eqn:Hd; [|done].
    by rewrite (spaced_head_after_ws s Hs d Hd).
  - by rewrite IH.
Qed.

Lemma spaced_fixed s : ∀ b, spaced b s = true → replace_ws_runs b s = s.
Proof.
  induction s as [|c s IH]; intros b H; [done|].
  cbn [spaced replace_ws_runs] in *. destruct (is_ws c).
  - rewrite !andb_true_iff in H. destruct H as [[Heq Hb] Hs].
    apply N.eqb_eq in Heq. destruct b; [done|]. by rewrite IH, Heq.
  - by rewrite IH.
Qed.

Lemma spaced_units s : ∀ b,
  spaced b s = true →
  Forall (λ c, is_ws c = true → c = SPACE) s
  ∧ ∀ i a d, s !! i = Some a → s !! S i = Some d →
             is_ws a = true → is_ws d = false.
Proof.
  induction s as [|c s IH]; intros b H; [by split; [|intros []]|].
  cbn [spaced] in H. destruct (is_ws c) eqn:Hc.
  - rewrite !andb_true_iff in H. destruct H as [[Heq _] Hs].
    destruct (IH _ Hs) as [Hall Hadj]. split.
    + constructor; [|done]. intros _. by apply N.eqb_eq.
    + intros [|i] a d Ha Hd Hws; cbn in Ha, Hd.
      * apply (spaced_head_after_ws s Hs). by rewrite head_lookup.
      * exact (Hadj i a d Ha Hd Hws).
  - destruct (IH _ H) as [Hall Hadj]. split.
    + constructor; [|done]. congruence.
    + intros [|i] a d Ha Hd Hws; cbn in Ha, Hd.
      * congruence.
      * exact (Hadj i a d Ha Hd Hws).
Qed.

Lemma normalize_text_shape s :
  let t := normalize_text s in
  spaced false t = true
  ∧ (∀ c, head t = Some c → is_ws c = false)
  ∧ (∀ c, last t = Some c → is_ws c = false).
Proof.
  cbn zeta. unfold normalize_text, trim.
  set (u := replace_ws_runs false s).
  set (v := trimStart u). set (x := trimStart (rev v)).
  assert (Hv : spaced false v = true).
  { by apply (spaced_trimStart u false), spaced_replace_ws_runs. }
  assert (Hx : spaced false x = true).
  { by apply (spaced_trimStart (rev v) false), spaced_rev. }
  split; [by apply spaced_rev|]. split.
  - intros c Hc. rewrite head_rev in Hc.
    destruct (trimStart_suffix (rev v)) as [pre Hpre]. fold x in Hpre.
    destruct x as [|e x'] eqn:Hxe; [done|].
    assert (Hlast : last (rev v) = Some c).
    { rewrite Hpre. rewrite last_app. by rewrite Hc. }
    rewrite last_rev in Hlast. by apply (trimStart_head u).
  - intros c Hc. rewrite last_rev in Hc. by apply (trimStart_head (rev v)).
Qed.

(** X5.  A normalised text has no white space but single spaces between
    other code units: every white space unit in it is a space, no two
    stand side by side, none comes first or last; and normalising it
    again changes nothing. *)
Theorem normalize_text_is_tidy_and_idempotent s :
  let t := normalize_text s in
  Forall (λ c, is_ws c = true → c = SPACE) t
  ∧ (∀ i a d, t !! i = Some a → t !! S i = Some d →
              is_ws a = true → is_ws d = false)
  ∧ (∀ c, head t = Some c → is_ws c = false)
  ∧ (∀ c, last t = Some c → is_ws c = false)
  ∧ normalize_text t = t.
Proof.
  cbn zeta. destruct (normalize_text_shape s) as (Hsp & Hhead & Hlast).
  destruct (spaced_units _ _ Hsp) as [Hall Hadj].
  repeat split; try done.
  unfold normalize_text at 1. rewrite (spaced_fixed _ _ Hsp).
  unfold trim. rewrite (trimStart_fixed _ Hhead).
  rewrite trimStart_fixed; [by rewrite rev_involutive|].
  intros c Hc. rewrite head_rev in Hc. by apply Hlast.
Qed.

(** ** More on the pipeline of [EpubExtractor1.2.js] *)

Section Pipeline.
Context {DP : DocumentParser}.

Lemma V12_findContentOpf_value (w : World V12.Extractor) z :
  V12.jszip (this w) = Some z →
  ∃ es, V12.findContentOpf w
        = (Ok (located z), {| this := this w; effects := effects w ++ es |}).
Proof.
  intros Hz. unfold V12.findContentOpf, V12.this_zip, located. step.
  rewrite Hz. step.
  destruct (zip_file z containerPath) as [f|]; step.
  - destruct (head (xml_rootfiles (entry_text f))); by eexists.
  - exists []. by rewrite app_nil_r, world_eta.
Qed.

(** The spine callback fails on an item without [href], with a
    [TypeError], and on a query that raises, which takes an idref that
    is not plain. *)
Lemma chapter_of_idRef_throw content opfDir idRef index e :
  V12.chapter_of_idRef content opfDir idRef index = Throw e →
  (e = TypeError
   ∧ ∃ item, querySelector_item content (interpolate idRef) = Ok (Some item)
             ∧ item_href item = None)
  ∨ (e = DOMException ∧ css_plain (interpolate idRef) = false).
Proof.
  unfold V12.chapter_of_idRef.
  destruct (querySelector_item content (interpolate idRef)) as [[it|]|e0]
    eqn:Hq; [|done|].
  - destruct (item_href it) eqn:Hh; cbn [resolvePath_attr]; [done|].
    intros [= <-]. left. split; [done|]. by exists it.
  - intros [= <-]. right. unfold querySelector_item in Hq.
    destruct (css_plain (interpolate idRef)); [done|].
    destruct (xml_querySelector content _); [done|].
    by injection Hq as <-.
Qed.

Lemma map_index_res_throw content opfDir idRefs : ∀ index e,
  map_index_res (V12.chapter_of_idRef content opfDir) index idRefs = Throw e →
  (e = TypeError
   ∧ ∃ idRef item, idRef ∈ idRefs
       ∧ querySelector_item content (interpolate idRef) = Ok (Some item)
       ∧ item_href item = None)
  ∨ (e = DOMException
     ∧ ∃ idRef, idRef ∈ idRefs ∧ css_plain (interpolate idRef) = false).
Proof.
  induction idRefs as [|idRef rest IH]; intros index e; cbn [map_index_res];
    [done|].
  destruct (V12.chapter_of_idRef content opfDir idRef index) as [r|e'] eqn:Hr.
  - destruct (map_index_res _ (S index) rest) as [rs|e''] eqn:Hrs; [done|].
    intros [= <-].
    destruct (IH _ _ Hrs) as [(-> & r' & it & Hin & Hq & Hh)
                             |(-> & r' & Hin & Hplain)].
    + left. split; [done|]. exists r', it. split; [by right|done].
    + right. split; [done|]. exists r'. split; [by right|done].
  - intros [= <-].
    apply chapter_of_idRef_throw in Hr as [(-> & it & Hq & Hh)|[-> Hplain]].
    + left. split; [done|]. exists idRef, it. split; [by left|done].
    + right. split; [done|]. exists idRef. split; [by left|done].
Qed.

(** On a spine of plain idrefs the callback returns exactly when every
    named item carries an [href]. *)
Lemma map_index_res_returns_iff content opfDir idRefs :
  Forall (λ r, css_plain (interpolate r) = true) idRefs →
  ∀ index,
    (∃ cs, map_index_res (V12.chapter_of_idRef content opfDir) index idRefs
           = Ok cs)
    ↔ (∀ idRef item, idRef ∈ idRefs →
         names_item (xml_items content) (interpolate idRef) item →
         is_Some (item_href item)).
Proof.
  intros Hplain index. split.
  - intros [cs Hcs] idRef item Hin Hitem.
    destruct (item_href item) eqn:Hh; [done|]. exfalso.
    revert index cs Hcs.
    induction idRefs as [|r rest IH]; [by apply elem_of_nil in Hin|].
    inversion Hplain as [|? ? Hhead Hrest]; subst.
    intros index cs. cbn [map_index_res].
    apply elem_of_cons in Hin as [->|Hin].
    + unfold V12.chapter_of_idRef at 1.
      rewrite (querySelector_item_plain _ _ Hhead).
      apply querySelector_item_id_names in Hitem. by rewrite Hitem, Hh.
    + destruct (V12.chapter_of_idRef content opfDir r index); [|done].
      destruct (map_index_res _ (S index) rest) eqn:Hrs; [|done].
      intros _. by eapply IH.
  - intros Hhref. by apply map_index_res_total.
Qed.

(** [parseContentOpf] on an instance that has its archive, its package
    path and the package entry, case by case. *)
Lemma V12_parseContentOpf_run (w : World V12.Extractor) z p f :
  V12.jszip (this w) = Some z →
  V12.contentOpfPath (this w) = Some p →
  zip_file z p = Some f →
  let items := xml_items (entry_text f) in
  let opfDir := directory_of p in
  let w1 t := {| this := t; effects := effects w ++ [ReadText p] |} in
  let spine t :=
    match map_index_res (V12.chapter_of_idRef (entry_text f) opfDir) 0
            (xml_spine_idrefs (entry_text f)) with
    | Ok cs => (Ok tt, w1 (V12.set_chapters (filter_Boolean cs) t))
    | Throw e => (Throw e, w1 t)
    end in
  V12.parseContentOpf w
  = match querySelector_item_id items (lit "ncx") with
    | Some ncxItem =>
        match item_href ncxItem with
        | Some href =>
            spine (V12.set_ncxPath (Some (resolvePath opfDir href)) (this w))
        | None => (Throw TypeError, w1 (this w))
        end
    | None => spine (this w)
    end.
Proof.
  intros Hz Hp Hf. cbn zeta.
  unfold V12.parseContentOpf, V12.this_zip. step. rewrite Hz, Hp. step.
  cbn [interpolate]. rewrite Hf. step.
  destruct (querySelector_item_id (xml_items (entry_text f)) (lit "ncx"))
    as [ncxItem|]; step.
  - destruct (item_href ncxItem) as [href|]; cbn [resolvePath_attr]; step;
      [|done].
    by destruct (map_index_res _ 0 (xml_spine_idrefs (entry_text f))).
  - by destruct (map_index_res _ 0 (xml_spine_idrefs (entry_text f))).
Qed.

(** However [parseContentOpf] ends, it leaves [initialized] and the
    archive alone; when it raises, it raises one of three exceptions and
    leaves the chapter list alone. *)
Lemma V12_parseContentOpf_frame (w : World V12.Extractor) r w' :
  V12.parseContentOpf w = (r, w') →
  V12.initialized (this w') = V12.initialized (this w)
  ∧ V12.jszip (this w') = V12.jszip (this w)
  ∧ ∀ e, r = Throw e →
      (e = Error MSG_OPF_MISSING ∨ e = TypeError ∨ e = DOMException)
      ∧ V12.chapters (this w') = V12.chapters (this w).
Proof.
  destruct (V12.jszip (this w)) as [z|] eqn:Hz.
  2:{ unfold V12.parseContentOpf, V12.this_zip. step. rewrite Hz. step.
      intros [= <- <-]. split; [done|]. split; [done|].
      intros e [= <-]. split; auto. }
  destruct (V12.contentOpfPath (this w)) as [p|] eqn:Hp.
  2:{ unfold V12.parseContentOpf, V12.this_zip. step. rewrite Hz, Hp. step.
      destruct (zip_file z (interpolate None)); step; intros [= <- <-];
        (split; [done|]); (split; [done|]); intros e [= <-]; split; auto. }
  destruct (zip_file z p) as [f|] eqn:Hf.
  2:{ unfold V12.parseContentOpf, V12.this_zip. step. rewrite Hz, Hp. step.
      cbn [interpolate]. rewrite Hf. step. intros [= <- <-].
      split; [done|]. split; [done|]. intros e [= <-]. split; auto. }
  rewrite (V12_parseContentOpf_run w z p f Hz Hp Hf). cbn zeta.
  assert (Hspine : ∀ e0,
    map_index_res (V12.chapter_of_idRef (entry_text f) (directory_of p)) 0
      (xml_spine_idrefs (entry_text f)) = Throw e0 →
    e0 = Error MSG_OPF_MISSING ∨ e0 = TypeError ∨ e0 = DOMException).
  { intros e0 Hcs. apply map_index_res_throw in Hcs as [[-> _]|[-> _]]; auto. }
  destruct (querySelector_item_id (xml_items (entry_text f)) (lit "ncx"))
    as [ncxItem|].
  - destruct (item_href ncxItem) as [href|].
    + destruct (map_index_res _ 0 (xml_spine_idrefs (entry_text f)))
        as [cs|e0] eqn:Hcs; intros [= <- <-]; (split; [done|]);
        (split; [done|]); intros e [= <-].
      split; [by apply Hspine|done].
    + intros [= <- <-]. split; [done|]. split; [done|]. intros e [= <-].
      split; auto.
  - destruct (map_index_res _ 0 (xml_spine_idrefs (entry_text f)))
      as [cs|e0] eqn:Hcs; intros [= <- <-]; (split; [done|]);
      (split; [done|]); intros e [= <-].
    split; [by apply Hspine|done].
Qed.


(** X7.  A package path declared by the container descriptor is not
    second-guessed: when the archive has no entry at that path [init]
    fails with the missing-package error, whatever else the archive
    holds at the conventional paths. *)
Theorem declared_package_path_is_final
    (w : World V12.Extractor) z descriptor p :
  V12.initialized (this w) = false →
  V12.epubFile (this w) = ZipBlob z →
  zip_file z containerPath = Some descriptor →
  head (xml_rootfiles (entry_text descriptor)) = Some (Some p) →
  truthy p = true →
  zip_file z p = None →
  (V12.init w).1 = Throw (Error MSG_OPF_MISSING)
  ∧ V12.initialized (this (V12.init w).2) = false.
Proof.
  intros Hinit Hfile Hdesc Hroot Htruthy Hmissing.
  unfold V12.init. step. rewrite Hinit, Hfile. cbn [loadAsync]. step.
  destruct (V12_findContentOpf_value
              {| this := V12.set_jszip (Some z) (this w);
                 effects := effects w |} z eq_refl) as [es0 Hfind].
  rewrite Hfind. step.
  assert (Hloc : located z = Some p).
  { unfold located. by rewrite Hdesc, Hroot. }
  rewrite Hloc. cbn [truthy_opt]. rewrite Htruthy. step.
  unfold V12.parseContentOpf, V12.this_zip. step.
  cbn [V12.jszip V12.set_contentOpfPath V12.set_jszip V12.contentOpfPath
       interpolate V12.initialized].
  step. rewrite Hmissing. step.
  cbn [fst snd this V12.initialized V12.set_contentOpfPath V12.set_jszip].
  by rewrite Hinit.
Qed.

(** X8.  With the package entry at hand and a spine of plain idrefs,
    [parseContentOpf] succeeds exactly when the first manifest item with
    the [id] [ncx], if there is one, and the first manifest item with
    the [id] of each spine entry, if there is one, carry an [href];
    otherwise it raises a [TypeError] and leaves the chapter list as it
    was. *)
Theorem parseContentOpf_succeeds_iff (w : World V12.Extractor) z p f :
  V12.jszip (this w) = Some z →
  V12.contentOpfPath (this w) = Some p →
  zip_file z p = Some f →
  let items := xml_items (entry_text f) in
  let spine := xml_spine_idrefs (entry_text f) in
  Forall (λ r, css_plain (interpolate r) = true) spine →
  let hrefs_present :=
    (∀ item, names_item items (lit "ncx") item → is_Some (item_href item))
    ∧ (∀ idRef item, idRef ∈ spine →
         names_item items (interpolate idRef) item →
         is_Some (item_href item)) in
  ((V12.parseContentOpf w).1 = Ok tt ↔ hrefs_present)
  ∧ (¬ hrefs_present →
     (V12.parseContentOpf w).1 = Throw TypeError
     ∧ V12.chapters (this (V12.parseContentOpf w).2)
       = V12.chapters (this w)).
Proof.
  intros Hz Hp Hf items spine Hplain hrefs_present.
  pose proof (map_index_res_returns_iff (entry_text f) (directory_of p)
                spine Hplain 0) as Hspine.
  fold items in Hspine.
  assert (Hiff : (V12.parseContentOpf w).1 = Ok tt ↔ hrefs_present).
  { rewrite (V12_parseContentOpf_run w z p f Hz Hp Hf). cbn zeta.
    fold items spine. unfold hrefs_present.
    destruct (querySelector_item_id items (lit "ncx")) as [ncxItem|] eqn:Hncx.
    - apply querySelector_item_id_names in Hncx.
      destruct (item_href ncxItem) as [href|] eqn:Hh.
      + destruct (map_index_res _ 0 spine) as [cs|e0] eqn:Hcs; cbn [fst].
        * split; [|done]. intros _. split.
          -- intros it Hit.
             apply querySelector_item_id_names in Hncx, Hit.
             assert (it = ncxItem) as -> by congruence. by rewrite Hh.
          -- apply Hspine. by exists cs.
        * split; [done|]. intros [_ Hall].
          apply Hspine in Hall as [cs Hcs']. congruence.
      + cbn [fst]. split; [done|]. intros [Hn _].
        destruct (Hn ncxItem Hncx) as [? ?]. congruence.
    - destruct (map_index_res _ 0 spine) as [cs|e0] eqn:Hcs; cbn [fst].
      + split; [|done]. intros _. split.
        * intros it Hit. apply querySelector_item_id_names in Hit.
          congruence.
        * apply Hspine. by exists cs.
      + split; [done|]. intros [_ Hall].
        apply Hspine in Hall as [cs Hcs']. congruence. }
  split; [done|]. intros Hnot.
  destruct (V12.parseContentOpf w) as [r w'] eqn:Hrun.
  destruct (V12_parseContentOpf_frame w r w' Hrun) as (_ & _ & Hthrow).
  cbn [fst snd] in *. destruct r as [[]|e].
  - by destruct Hnot; apply Hiff.
  - destruct (Hthrow e eq_refl) as [[->|[->| ->]] Hch]; [|done|].
    + exfalso. rewrite (V12_parseContentOpf_run w z p f Hz Hp Hf) in Hrun.
      cbn zeta in Hrun.
      destruct (querySelector_item_id (xml_items (entry_text f)) (lit "ncx"))
        as [ncxItem|].
      * destruct (item_href ncxItem); [|done].
        destruct (map_index_res _ 0 (xml_spine_idrefs (entry_text f)))
          as [cs|e0] eqn:Hcs; [done|].
        apply map_index_res_throw in Hcs as [[-> _]|[-> _]]; done.
      * destruct (map_index_res _ 0 (xml_spine_idrefs (entry_text f)))
          as [cs|e0] eqn:Hcs; [done|].
        apply map_index_res_throw in Hcs as [[-> _]|[-> _]]; done.
    + exfalso. rewrite (V12_parseContentOpf_run w z p f Hz Hp Hf) in Hrun.
      cbn zeta in Hrun.
      assert (Hno :
        map_index_res (V12.chapter_of_idRef (entry_text f) (directory_of p))
          0 (xml_spine_idrefs (entry_text f)) ≠ Throw DOMException).
      { intros Hcs.
        apply map_index_res_throw in Hcs
          as [[? _]|(_ & idRef & Hin & Hbad)]; [done|].
        unfold spine in Hplain. rewrite Forall_forall in Hplain.
        specialize (Hplain idRef Hin). congruence. }
      destruct (querySelector_item_id (xml_items (entry_text f)) (lit "ncx"))
        as [ncxItem|].
      * destruct (item_href ncxItem); [|done].
        destruct (map_index_res _ 0 (xml_spine_idrefs (entry_text f)))
          as [cs|e0] eqn:Hcs; [done|].
        injection Hrun as -> _. by apply Hno.
      * destruct (map_index_res _ 0 (xml_spine_idrefs (entry_text f)))
          as [cs|e0] eqn:Hcs; [done|].
        injection Hrun as -> _. by apply Hno.
Qed.

End Pipeline.

(** ** Titles after [init] *)

Lemma default_title_not_empty k : default_title k ≠ [].
Proof. unfold default_title. cbn. discriminate. Qed.

Section Titles.
Context {DP : DocumentParser}.

Lemma nav_title_for_not_empty z ncx src t :
  nav_title_for z ncx src = Some t → t ≠ [].
Proof.
  unfold nav_title_for. destruct ncx as [p|]; [|done].
  destruct (truthy p); [|done]. destruct (zip_file z p) as [f|]; [|done].
  destruct (ncx_navPoints (entry_text f)) as [snapshot|]; [|done].
  destruct (List.find _ _) as [nav|] eqn:Hfind; [|done].
  intros [= <-]. apply find_nav_Some in Hfind as [Hin _].
  apply collect_navPoints_spec in Hin
    as (np & text & src' & _ & _ & _ & Hne & _ & ->). done.
Qed.

Lemma heading_title_for_not_empty z path t :
  heading_title_for z path = Some t → t ≠ [].
Proof.
  unfold heading_title_for. destruct (zip_file z path) as [f|]; [|done].
  destruct (V12.extractTitleFromXhtml (entry_text f)) as [t'|]; [|done].
  destruct t'; [done|]. by intros [= <-].
Qed.

(** Right after the spine callback every chapter holds a default text. *)
Lemma map_index_res_default_titles content opfDir idRefs : ∀ index cs,
  map_index_res (V12.chapter_of_idRef content opfDir) index idRefs = Ok cs →
  Forall (λ c, ∃ k, V12.ch_title c = default_title k) (filter_Boolean cs).
Proof.
  induction idRefs as [|idRef rest IH]; intros index cs; cbn [map_index_res].
  - intros [= <-]. constructor.
  - destruct (V12.chapter_of_idRef content opfDir idRef index) as [r|] eqn:Hr;
      [|done].
    destruct (map_index_res _ (S index) rest) as [rs|] eqn:Hrs; [|done].
    intros [= <-]. specialize (IH _ _ Hrs).
    destruct r as [c|]; [|exact IH].
    apply chapter_of_idRef_fields in Hr as (_ & _ & Ht).
    change (filter_Boolean (Some c :: rs)) with (c :: filter_Boolean rs).
    constructor; [|exact IH]. by exists index.
Qed.

(** When no spine entry is dropped, the default text of a chapter is the
    one of its list position. *)
Lemma map_index_res_complete content opfDir idRefs : ∀ index cs,
  Forall (λ r, css_plain (interpolate r) = true) idRefs →
  Forall (λ r, resolvable (xml_items content) r = true) idRefs →
  map_index_res (V12.chapter_of_idRef content opfDir) index idRefs = Ok cs →
  ∀ j c, filter_Boolean cs !! j = Some c →
         V12.ch_title c = default_title (index + j).
Proof.
  induction idRefs as [|idRef rest IH]; intros index cs Hplain Hall;
    cbn [map_index_res].
  - by intros [= <-] j c.
  - inversion Hall as [|? ? Hres Hrest]; subst.
    inversion Hplain as [|? ? Hhead Htail]; subst.
    destruct (V12.chapter_of_idRef content opfDir idRef index) as [r|] eqn:Hr;
      [|done].
    destruct (map_index_res _ (S index) rest) as [rs|] eqn:Hrs; [|done].
    intros [= <-]. apply (chapter_of_idRef_ok _ _ _ _ _ Hhead) in Hr.
    destruct r as [c0|]; [|congruence].
    destruct Hr as (_ & _ & _ & Ht).
    change (filter_Boolean (Some c0 :: rs)) with (c0 :: filter_Boolean rs).
    intros [|j] c Hc; cbn [lookup list_lookup] in Hc.
    + injection Hc as <-. by rewrite Ht, Nat.add_0_r.
    + rewrite (IH _ _ Htail Hrest Hrs j c Hc). f_equal. lia.
Qed.

(** X9.  After a successful [init] no chapter has an empty title. *)
Theorem init_titles_are_not_empty (w w' : World V12.Extractor) :
  V12.initialized (this w) = false →
  V12.init w = (Ok tt, w') →
  Forall (λ c, V12.ch_title c ≠ []) (V12.chapters (this w')).
Proof.
  intros Hinit Hok.
  apply V12_init_ok_inv in Hok
    as (z & p0 & w1 & w2 & _ & _ & _ & Hparse & ->); [|done].
  apply V12_parseContentOpf_inv in Hparse
    as (z' & p & f & cs & _ & _ & _ & Hcs & Hch & _).
  apply map_index_res_default_titles in Hcs. rewrite <- Hch in Hcs.
  cbn [V12.chapters V12.set_initialized V12.set_chapters].
  apply Forall_lookup. intros j c Hc.
  rewrite list_lookup_imap, list_lookup_fmap in Hc.
  destruct (V12.chapters (this w2) !! j) as [c0|] eqn:Hc0; [|done].
  injection Hc as <-.
  rewrite Forall_lookup in Hcs. destruct (Hcs j c0 Hc0) as [k Hk].
  assert (Hnav : V12.ch_title (nav_chapter z (V12.ncxPath (this w2)) c0) ≠ []).
  { unfold nav_chapter.
    destruct (nav_title_for z _ _) as [t|] eqn:Ht.
    - cbn. by eapply nav_title_for_not_empty.
    - rewrite Hk. apply default_title_not_empty. }
  unfold preload_chapter. destruct (str_eqb _ _); [|done].
  destruct (heading_title_for z _) as [t|] eqn:Ht; [|done].
  cbn. by eapply heading_title_for_not_empty.
Qed.

(** X10.  When every spine idref is plain and is the [id] of some
    manifest item, each chapter ends [init] with the navigation title
    found for its [src], unless there is none or it is the default text
    of the chapter's position: then with the heading extracted from its
    document, and with neither, with that default text. *)
Theorem titles_of_a_complete_spine (w w' : World V12.Extractor) z p f :
  V12.initialized (this w) = false →
  V12.init w = (Ok tt, w') →
  V12.jszip (this w') = Some z →
  V12.contentOpfPath (this w') = Some p →
  zip_file z p = Some f →
  Forall (λ r, css_plain (interpolate r) = true)
    (xml_spine_idrefs (entry_text f)) →
  Forall (λ r, resolvable (xml_items (entry_text f)) r = true)
    (xml_spine_idrefs (entry_text f)) →
  ∀ j c, V12.chapters (this w') !! j = Some c →
    V12.ch_title c
    = let t0 := default (default_title j)
                  (nav_title_for z (V12.ncxPath (this w'))
                     (V12.ch_src c)) in
      if str_eqb t0 (default_title j)
      then default t0 (heading_title_for z (V12.ch_path c))
      else t0.
Proof.
  intros Hinit Hok Hz' Hp' Hf' Hplain Hall.
  pose proof (V12_init_establishes_ready w w' Hinit Hok) as [_ Hready].
  apply V12_init_ok_inv in Hok
    as (z0 & p0 & w1 & w2 & Hfile & _ & _ & Hparse & Hw'); [|done].
  rewrite Hfile, Hw' in Hready. rewrite Hw' in Hz', Hp' |- *. clear Hw'.
  apply V12_parseContentOpf_inv in Hparse
    as (z1 & p1 & f1 & cs & _ & _ & Hf & Hcs & Hch & Hz & Hp & _).
  cbn [V12.jszip V12.contentOpfPath V12.set_initialized V12.set_chapters]
    in Hready, Hz', Hp'.
  assert (z0 = z) as -> by congruence.
  assert (z1 = z) as -> by congruence.
  assert (p1 = p) as -> by congruence.
  assert (f1 = f) as -> by congruence.
  cbn [V12.jszip V12.contentOpfPath V12.ncxPath V12.chapters
       V12.set_initialized V12.set_chapters].
  intros j c Hc.
  rewrite list_lookup_imap, list_lookup_fmap in Hc.
  destruct (V12.chapters (this w2) !! j) as [c0|] eqn:Hc0; [|done].
  injection Hc as <-.
  rewrite Hch in Hc0.
  pose proof (map_index_res_complete _ _ _ _ _ Hplain Hall Hcs j c0 Hc0)
    as Ht.
  change (0 + j) with j in Ht.
  destruct (preload_chapter_keeps (Some z) j
              (nav_chapter z (V12.ncxPath (this w2)) c0)) as (_ & -> & ->).
  destruct (nav_chapter_keeps z (V12.ncxPath (this w2)) c0) as (_ & -> & ->).
  cbn zeta. unfold preload_chapter, nav_chapter.
  destruct (nav_title_for z (V12.ncxPath (this w2)) (V12.ch_src c0))
    as [t|]; cbn [from_option id V12.ch_title V12.set_title V12.ch_path].
  - destruct (str_eqb t (default_title j)); [|done].
    by destruct (heading_title_for z (V12.ch_path c0)).
  - rewrite Ht. destruct (str_eqb (default_title j) (default_title j));
      [|done].
    by destruct (heading_title_for z (V12.ch_path c0)); cbn.
Qed.

(** The effects of the fallback callbacks for the positions
    [k .. k + n - 1] are those of [preload_effects] at these positions. *)
Lemma V12_for_each_preload_effects n : ∀ k (w : World V12.Extractor),
  ∃ es,
    effects (V12.for_each_index V12.preload_callback k n w).2
    = effects w ++ es
    ∧ ∀ e, e ∈ es →
        ∃ i c, k ≤ i ∧ V12.chapters (this w) !! i = Some c
               ∧ e ∈ preload_effects (V12.jszip (this w)) i c.
Proof.
  induction n as [|n IH]; intros k w; cbn [V12.for_each_index].
  - exists []. split; [by rewrite app_nil_r|]. by intros e ?%elem_of_nil.
  - unfold bind at 1. rewrite V12_preload_callback_run.
    match goal with |- context [V12.for_each_index _ (S k) n ?w0] =>
      destruct (IH (S k) w0) as (es & Hes & Hin) end.
    cbn [this effects V12.jszip V12.chapters V12.set_chapters] in Hes, Hin.
    eexists. split; [rewrite Hes; by rewrite <- app_assoc|].
    intros e [He|He]%elem_of_app.
    + destruct (V12.chapters (this w) !! k) as [c|] eqn:Hc;
        [|by apply elem_of_nil in He].
      by exists k, c.
    + destruct (Hin e He) as (i & c & Hik & Hc & Hec).
      rewrite list_lookup_alter_ne in Hc by lia.
      exists i, c. split; [lia|done].
Qed.

Lemma V12_preloadChapterTitles_loop (w : World V12.Extractor) :
  V12.preloadChapterTitles w
  = V12.for_each_index V12.preload_callback 0
      (length (V12.chapters (this w))) w.
Proof.
  unfold V12.preloadChapterTitles. step.
  by destruct (V12.chapters (this w)).
Qed.

Lemma str_eqb_true a b : str_eqb a b = true → a = b.
Proof. unfold str_eqb. apply bool_decide_eq_true. Qed.

(** X11.  The fallback stage reads the document of a chapter only when
    that chapter holds the default text of its list position: whatever
    [preloadChapterTitles] adds to the effects, a read of [path] among
    them is the read of the path of such a chapter, present in the
    archive; and when no chapter holds its default text, nothing is read
    or printed at all. *)
Theorem fallback_reads_only_default_titled_chapters
    (w : World V12.Extractor) :
  ∃ es,
    effects (V12.preloadChapterTitles w).2 = effects w ++ es
    ∧ (∀ path, ReadText path ∈ es →
         ∃ i c z, V12.chapters (this w) !! i = Some c
                  ∧ V12.ch_path c = path
                  ∧ V12.ch_title c = default_title i
                  ∧ V12.jszip (this w) = Some z
                  ∧ is_Some (zip_file z path))
    ∧ ((∀ i c, V12.chapters (this w) !! i = Some c →
               V12.ch_title c ≠ default_title i) → es = []).
Proof.
  rewrite V12_preloadChapterTitles_loop.
  destruct (V12_for_each_preload_effects
              (length (V12.chapters (this w))) 0 w) as (es & Hes & Hin).
  assert (Hsub : ∀ e, e ∈ es →
            ∃ i c, V12.chapters (this w) !! i = Some c
                   ∧ e ∈ preload_effects (V12.jszip (this w)) i c).
  { intros e He. destruct (Hin e He) as (i & c & _ & ? & ?). eauto. }
  clear Hin.
  exists es. split; [done|]. split.
  - intros path Hpath. destruct (Hsub _ Hpath) as (i & c & Hc & He).
    unfold preload_effects in He.
    destruct (str_eqb (V12.ch_title c) (default_title i)) eqn:Ht;
      [|by apply elem_of_nil in He].
    apply str_eqb_true in Ht.
    destruct (V12.jszip (this w)) as [z|];
      [|by apply list_elem_of_singleton in He].
    destruct (zip_file z (V12.ch_path c)) as [f|] eqn:Hf;
      [|by apply list_elem_of_singleton in He].
    apply list_elem_of_singleton in He. injection He as ->.
    exists i, c, z. rewrite Hf. by eauto.
  - intros Hnone. destruct es as [|e0 es0]; [done|exfalso].
    destruct (Hsub e0 ltac:(left)) as (i & c & Hc & He).
    unfold preload_effects in He.
    destruct (str_eqb (V12.ch_title c) (default_title i)) eqn:Ht;
      [|by apply elem_of_nil in He].
    apply str_eqb_true in Ht. by apply (Hnone i c).
Qed.

End Titles.

(** ** The title queries, and the two classes side by side *)

Lemma ge_length_fmap {A B} (g : A → B) (l : list A) x :
  ge_length x (g <$> l) = ge_length x l.
Proof. destruct x; cbn [ge_length]; by rewrite ?length_fmap. Qed.

Lemma at_number_fmap {A B} (g : A → B) (l : list A) x :
  at_number (g <$> l) x = g <$> at_number l x.
Proof.
  destruct x as [n d| |neg]; cbn [at_number]; [|done|done].
  destruct ((0 <=? n)%Z && (n mod Z.pos d =? 0)%Z); [|done].
  by rewrite list_lookup_fmap.
Qed.

(** X12.  On an initialised instance the three title and count queries
    agree: [getChapterTitles] has [getChapterCount] entries;
    [getChapterTitle] returns the entry of that list at an integer index
    inside [0, count) and throws the range error outside; at an integer
    index it never fails on the chapter object, while a number that
    passes the range test without being an index raises a [TypeError];
    and none of them changes the instance or has an effect. *)
Theorem title_queries_agree (w : World V12.Extractor) (i : Z) :
  V12.initialized (this w) = true →
  ∃ n titles,
    V12.getChapterCount w = (Ok n, w)
    ∧ V12.getChapterTitles w = (Ok titles, w)
    ∧ length titles = n
    ∧ (V12.getChapterTitle (Integer i) w).2 = w
    ∧ match titles !! Z.to_nat i with
      | Some t =>
          if (i <? 0)%Z
          then (V12.getChapterTitle (Integer i) w).1
               = Throw (Error (MSG_BAD_INDEX (Z.of_nat n - 1)))
          else (V12.getChapterTitle (Integer i) w).1 = Ok t
      | None =>
          (V12.getChapterTitle (Integer i) w).1
          = Throw (Error (MSG_BAD_INDEX (Z.of_nat n - 1)))
      end
    ∧ ∀ x, lt_zero x || ge_length x titles = false →
           at_number titles x = None →
           V12.getChapterTitle x w = (Throw TypeError, w).
Proof.
  intros Hinit.
  exists (length (V12.chapters (this w))),
         (V12.ch_title <$> V12.chapters (this w)).
  split; [|split; [|split; [by rewrite length_fmap|]]].
  { unfold V12.getChapterCount. step. rewrite Hinit. by step. }
  { unfold V12.getChapterTitles. step. rewrite Hinit. by step. }
  assert (Hint :
    V12.getChapterTitle (Integer i) w
    = (if (i <? 0)%Z || (Z.of_nat (length (V12.chapters (this w))) <=? i)%Z
       then Throw (Error (MSG_BAD_INDEX
                            (Z.of_nat (length (V12.chapters (this w))) - 1)))
       else match V12.chapters (this w) !! Z.to_nat i with
            | Some c => Ok (V12.ch_title c)
            | None => Throw TypeError
            end, w)).
  { unfold V12.getChapterTitle, V12.out_of_range. step. rewrite Hinit. step.
    rewrite lt_zero_Integer, ge_length_Integer.
    destruct ((i <? 0)%Z
              || (Z.of_nat (length (V12.chapters (this w))) <=? i)%Z)
      eqn:Hout; step; [done|].
    rewrite at_number_Integer
      by (apply orb_false_iff in Hout as [?%Z.ltb_ge _]; lia).
    by destruct (V12.chapters (this w) !! Z.to_nat i); step. }
  rewrite Hint. cbn [fst snd]. split; [by destruct (_ || _)|]. split.
  - rewrite list_lookup_fmap.
    destruct (Z.ltb_spec i 0) as [Hneg|Hpos]; cbn [orb].
    + by destruct (V12.chapters (this w) !! Z.to_nat i).
    + destruct (Z.leb_spec (Z.of_nat (length (V12.chapters (this w)))) i)
        as [Hhigh|Hlow].
      * rewrite lookup_ge_None_2 by lia. done.
      * destruct (lookup_lt_is_Some_2 (V12.chapters (this w)) (Z.to_nat i))
          as [c Hc]; [lia|].
        rewrite Hc. done.
  - intros x Hin Hno. rewrite ge_length_fmap in Hin.
    rewrite at_number_fmap in Hno.
    unfold V12.getChapterTitle, V12.out_of_range. step. rewrite Hinit. step.
    rewrite Hin. step.
    destruct (at_number (V12.chapters (this w)) x); [done|]. by step.
Qed.

Section TwoClasses.
Context {DP : DocumentParser}.

Lemma filter_Boolean_fmap {A B} (g : A → B) (l : list (option A)) :
  filter_Boolean (fmap (M:=option) g <$> l) = g <$> filter_Boolean l.
Proof.
  induction l as [|[a|] l IH]; [done| |exact IH].
  change (g a :: filter_Boolean (fmap (M:=option) g <$> l)
          = g a :: (g <$> filter_Boolean l)).
  by rewrite IH.
Qed.

(** Where the spine callback of [EpubExtractor1.2.js] succeeds, the one
    of [EpubExtractor.js] does, with the same identifiers and paths. *)
Lemma chapter_of_idRef_both content opfDir idRefs : ∀ index cs,
  map_index_res (V12.chapter_of_idRef content opfDir) index idRefs = Ok cs →
  map_index_res (V10.chapter_of_idRef content opfDir) index idRefs
  = Ok (fmap (M:=option) id_and_path <$> cs).
Proof.
  induction idRefs as [|idRef rest IH]; intros index cs; cbn [map_index_res].
  - by intros [= <-].
  - unfold V12.chapter_of_idRef at 1, V10.chapter_of_idRef at 1.
    destruct (querySelector_item content (interpolate idRef)) as [[it|]|e];
      [| |done].
    + destruct (item_href it) as [href|]; cbn [resolvePath_attr]; [|done].
      destruct (map_index_res (V12.chapter_of_idRef content opfDir) (S index)
                  rest) as [rs|] eqn:Hrs; [|done].
      intros [= <-]. by rewrite (IH _ _ Hrs).
    + destruct (map_index_res (V12.chapter_of_idRef content opfDir) (S index)
                  rest) as [rs|] eqn:Hrs; [|done].
      intros [= <-]. by rewrite (IH _ _ Hrs).
Qed.

Lemma V10_parseContentOpf_run (w : World V10.Extractor) z p f cs :
  V10.jszip (this w) = Some z →
  V10.contentOpfPath (this w) = Some p →
  zip_file z p = Some f →
  map_index_res
    (V10.chapter_of_idRef (entry_text f) (directory_of p))
    0 (xml_spine_idrefs (entry_text f)) = Ok cs →
  V10.parseContentOpf w
  = (Ok tt,
     {| this := V10.set_chapters (filter_Boolean cs) (this w);
        effects := effects w ++ [ReadText p] |}).
Proof.
  intros Hz Hp Hf Hcs. unfold V10.parseContentOpf, V10.this_zip. step.
  rewrite Hz. step. rewrite Hp. cbn [interpolate]. rewrite Hf. step.
  rewrite Hcs. by step.
Qed.

(** X13.  A file that [EpubExtractor1.2.js] initialises is initialised
    by [EpubExtractor.js] as well, with the same chapters in the same
    order: the same identifiers and the same archive paths. *)
Theorem both_classes_find_the_same_chapters
    (w12 w12' : World V12.Extractor) (w10 : World V10.Extractor) :
  V10.epubFile (this w10) = V12.epubFile (this w12) →
  V12.initialized (this w12) = false →
  V10.initialized (this w10) = false →
  V12.init w12 = (Ok tt, w12') →
  (V10.init w10).1 = Ok tt
  ∧ V10.initialized (this (V10.init w10).2) = true
  ∧ V10.chapters (this (V10.init w10).2)
    = id_and_path <$> V12.chapters (this w12')
  ∧ V10.contentOpfPath (this (V10.init w10).2)
    = V12.contentOpfPath (this w12').
Proof.
  intros Hfile Hinit12 Hinit10 Hok.
  apply V12_init_ok_inv in Hok
    as (z & p0 & w1 & w2 & Hz & Hfind & Htruthy & Hparse & Hw'); [|done].
  destruct (V12_findContentOpf_value
              {| this := V12.set_jszip (Some z) (this w12);
                 effects := effects w12 |} z eq_refl) as [es Hloc].
  rewrite Hloc in Hfind. injection Hfind as <- <-.
  apply V12_parseContentOpf_inv in Hparse
    as (z' & p & f & cs & Hz' & Hp & Hf & Hcs & Hch & _ & Hp2 & _).
  cbn [this V12.jszip V12.contentOpfPath V12.set_contentOpfPath
       V12.set_jszip] in Hz', Hp.
  injection Hz' as <-.
  apply chapter_of_idRef_both in Hcs.
  rewrite Hw'.
  cbn [V12.chapters V12.contentOpfPath V12.set_initialized V12.set_chapters].
  assert (Hids : id_and_path
                 <$> imap (preload_chapter (Some z))
                       (nav_chapter z (V12.ncxPath (this w2))
                          <$> V12.chapters (this w2))
                 = id_and_path <$> V12.chapters (this w2)).
  { apply list_eq. intros j.
    rewrite !list_lookup_fmap, list_lookup_imap, list_lookup_fmap.
    destruct (V12.chapters (this w2) !! j) as [c|]; [|done].
    cbn [fmap option_fmap option_map mbind option_bind]. f_equal.
    unfold id_and_path.
    destruct (preload_chapter_keeps (Some z) j
                (nav_chapter z (V12.ncxPath (this w2)) c)) as (-> & -> & _).
    by destruct (nav_chapter_keeps z (V12.ncxPath (this w2)) c)
      as (-> & -> & _). }
  rewrite Hids, Hch, <- filter_Boolean_fmap, Hp2. clear Hids Hw'.
  unfold V10.init. step. rewrite Hinit10, Hfile, Hz. cbn [loadAsync]. step.
  assert (∃ es10,
            V10.findContentOpf
              {| this := V10.set_jszip (Some z) (this w10);
                 effects := effects w10 |}
            = (Ok (located z),
               {| this := V10.set_jszip (Some z) (this w10);
                  effects := effects w10 ++ es10 |})) as [es10 Hloc10]
    by exact (V10_findContentOpf_run
                {| this := V10.set_jszip (Some z) (this w10);
                   effects := effects w10 |} z eq_refl).
  rewrite Hloc10. step. rewrite Hp in *. rewrite Htruthy. step.
  erewrite V10_parseContentOpf_run; [|done|done|exact Hf|exact Hcs].
  by step.
Qed.



(** X14.  On instances that agree on [initialized], on the archive and on
    the identifiers and paths of the chapters, [getChapterXhtml] of
    [EpubExtractor.js] and of [EpubExtractor1.2.js] have the same
    outcome at every number, error messages included, and the same
    effects. *)
Theorem both_classes_fetch_the_same_document
    (w10 : World V10.Extractor) (w12 : World V12.Extractor)
    (i : JsNumber) :
  V10.initialized (this w10) = V12.initialized (this w12) →
  V10.jszip (this w10) = V12.jszip (this w12) →
  V10.chapters (this w10) = id_and_path <$> V12.chapters (this w12) →
  (V10.getChapterXhtml i w10).1 = (V12.getChapterXhtml i w12).1
  ∧ this (V10.getChapterXhtml i w10).2 = this w10
  ∧ this (V12.getChapterXhtml i w12).2 = this w12
  ∧ ∃ es, effects (V10.getChapterXhtml i w10).2 = effects w10 ++ es
          ∧ effects (V12.getChapterXhtml i w12).2 = effects w12 ++ es.
Proof.
  intros Hinit Hzip Hch.
  unfold V10.getChapterXhtml, V12.getChapterXhtml, V12.out_of_range,
    V10.this_zip, V12.this_zip.
  step. rewrite Hinit.
  destruct (V12.initialized (this w12)); step.
  2:{ repeat split; try done. exists []. by rewrite !app_nil_r. }
  rewrite Hch, ge_length_fmap, length_fmap.
  destruct (lt_zero i || ge_length i (V12.chapters (this w12))); step.
  { repeat split; try done. exists []. by rewrite !app_nil_r. }
  rewrite at_number_fmap.
  destruct (at_number (V12.chapters (this w12)) i) as [c|];
    cbn [fmap option_fmap option_map]; step.
  2:{ repeat split; try done. exists []. by rewrite !app_nil_r. }
  rewrite Hzip.
  destruct (V12.jszip (this w12)) as [z|]; step.
  2:{ repeat split; try done. exists []. by rewrite !app_nil_r. }
  cbn [V10.ch_path id_and_path].
  destruct (zip_file z (V12.ch_path c)) as [f|]; step.
  - repeat split; try done. by eexists.
  - repeat split; try done. exists []. by rewrite !app_nil_r.
Qed.



End TwoClasses.

(** ** The condensed class: navigation titles through a plain object *)

Lemma str_eqb_false a b : str_eqb a b = false → a ≠ b.
Proof. unfold str_eqb. apply bool_decide_eq_false. Qed.

Lemma str_eqb_refl a : str_eqb a a = true.
Proof. unfold str_eqb. by apply bool_decide_eq_true. Qed.

Lemma nav_pair_text navPoint s t :
  Condensed.nav_pair navPoint = Some (s, t) → t ≠ [].
Proof.
  unfold Condensed.nav_pair.
  destruct (np_text navPoint) as [text|]; [|done].
  destruct (np_content navPoint) as [src|]; [|done].
  destruct (normalize_text text) as [|u t0] eqn:Ht; cbn [truthy]; [done|].
  by intros [= <- <-].
Qed.

Lemma last_nav_text_cons a l k :
  last_nav_text (a :: l) k
  = match last_nav_text l k with
    | Some t => Some t
    | None =>
        match Condensed.nav_pair a with
        | Some (s, t) => if str_eqb s k then Some t else None
        | None => None
        end
    end.
Proof.
  unfold last_nav_text. cbn [omap list_omap].
  destruct (Condensed.nav_pair a) as [[s t]|]; [|by destruct (last _)].
  cbn [List.filter fst].
  destruct (str_eqb s k); [|by destruct (last _)].
  rewrite last_cons. by destruct (last _).
Qed.

Lemma last_nav_text_not_empty snapshot k t :
  last_nav_text snapshot k = Some t → t ≠ [].
Proof.
  induction snapshot as [|a l IH]; [done|].
  rewrite last_nav_text_cons.
  destruct (last_nav_text l k) as [t'|]; [intros [= ->]; by apply IH|].
  destruct (Condensed.nav_pair a) as [[s t']|] eqn:Hp; [|done].
  destruct (str_eqb s k); [|done]. intros [= ->].
  by eapply nav_pair_text.
Qed.

(** The own properties of [m] after the navigation loop. *)
Lemma nav_map_fold snapshot : ∀ m,
  PlainObject.has_prototype m = true →
  PlainObject.own m !! PlainObject.PROTO = None →
  PlainObject.has_prototype (fold_left Condensed.nav_step snapshot m) = true
  ∧ ∀ k,
      PlainObject.own (fold_left Condensed.nav_step snapshot m) !! k
      = if str_eqb k PlainObject.PROTO then None
        else match last_nav_text snapshot k with
             | Some t => Some (Some t)
             | None => PlainObject.own m !! k
             end.
Proof.
  induction snapshot as [|a l IH]; intros m Hproto Hown; cbn [fold_left].
  - split; [done|]. intros k. destruct (str_eqb k PlainObject.PROTO) eqn:Hk.
    + apply str_eqb_true in Hk as ->. done.
    + done.
  - assert (Hstep :
      PlainObject.has_prototype (Condensed.nav_step m a) = true
      ∧ PlainObject.own (Condensed.nav_step m a) !! PlainObject.PROTO = None
      ∧ ∀ k, k ≠ PlainObject.PROTO →
          PlainObject.own (Condensed.nav_step m a) !! k
          = match Condensed.nav_pair a with
            | Some (s, t) =>
                if str_eqb s k then Some (Some t) else PlainObject.own m !! k
            | None => PlainObject.own m !! k
            end).
    { unfold Condensed.nav_step.
      destruct (Condensed.nav_pair a) as [[s t]|]; [|done].
      unfold PlainObject.set. rewrite Hproto, andb_true_r.
      destruct (str_eqb s PlainObject.PROTO) eqn:Hs.
      - apply str_eqb_true in Hs as ->. split; [done|]. split; [done|].
        intros k Hk. destruct (str_eqb PlainObject.PROTO k) eqn:Hk'; [|done].
        apply str_eqb_true in Hk'. congruence.
      - apply str_eqb_false in Hs. cbn [PlainObject.own
          PlainObject.has_prototype].
        split; [done|]. split; [by rewrite lookup_insert_ne|].
        intros k Hk. destruct (str_eqb s k) eqn:Hsk.
        + apply str_eqb_true in Hsk as ->. by rewrite lookup_insert_eq.
        + apply str_eqb_false in Hsk. by rewrite lookup_insert_ne. }
    destruct Hstep as (Hproto' & Hown' & Hlook).
    destruct (IH _ Hproto' Hown') as [Hp IHk]. split; [done|].
    intros k. rewrite IHk. destruct (str_eqb k PlainObject.PROTO) eqn:Hk;
      [done|].
    apply str_eqb_false in Hk. rewrite last_nav_text_cons.
    destruct (last_nav_text l k) as [t|]; [done|].
    rewrite (Hlook k Hk).
    destruct (Condensed.nav_pair a) as [[s t]|]; [|done].
    by destruct (str_eqb s k).
Qed.

(** X16.  In the condensed class the title map is a plain object: a read
    of [m[key]] gives the text of the last navigation point that
    assigned to [key], a non-empty text; with no such point, what
    [Object.prototype] holds under that name, if anything; and under
    [__proto__], whatever was assigned, the prototype itself. *)
Theorem nav_map_read snapshot key :
  PlainObject.get (Condensed.nav_map snapshot) key
  = (if str_eqb key PlainObject.PROTO
     then PlainObject.Inherited PlainObject.PROTO
     else match last_nav_text snapshot key with
          | Some t => PlainObject.Own (Some t)
          | None =>
              if bool_decide (key ∈ PlainObject.prototype_keys)
              then PlainObject.Inherited key
              else PlainObject.Undefined
          end)
  ∧ ∀ t, last_nav_text snapshot key = Some t → t ≠ [].
Proof.
  split; [|intros t; apply last_nav_text_not_empty].
  unfold Condensed.nav_map, PlainObject.get.
  destruct (nav_map_fold snapshot PlainObject.empty eq_refl eq_refl)
    as [-> Hown].
  rewrite Hown, andb_true_l.
  destruct (str_eqb key PlainObject.PROTO) eqn:Hk.
  - apply str_eqb_true in Hk as ->. by rewrite bool_decide_eq_true_2
      by (unfold PlainObject.prototype_keys; set_solver).
  - by destruct (last_nav_text snapshot key).
Qed.

Lemma find_app_first {A} (P : A → bool) (l1 l2 : list A) :
  List.find P (l1 ++ l2)
  = match List.find P l1 with
    | Some x => Some x
    | None => List.find P l2
    end.
Proof.
  induction l1 as [|x l1 IH]; [done|]. cbn [app List.find].
  by destruct (P x).
Qed.

Lemma collect_navPoints_app l1 l2 :
  V12.collect_navPoints (l1 ++ l2)
  = V12.collect_navPoints l1 ++ V12.collect_navPoints l2.
Proof. unfold V12.collect_navPoints. apply omap_app. Qed.

(** For an ordinary [src], both classes keep the same points. *)
Lemma navPoint_entry_pair navPoint src :
  truthy src = true → src ≠ lit "null" →
  match V12.navPoint_entry navPoint with
  | Some nav =>
      if str_eqb (V12.nav_src nav) src then Some (V12.nav_title nav) else None
  | None => None
  end
  = match Condensed.nav_pair navPoint with
    | Some (s, t) => if str_eqb s src then Some t else None
    | None => None
    end.
Proof.
  intros Htruthy Hnull. unfold V12.navPoint_entry, Condensed.nav_pair.
  destruct (np_text navPoint) as [text|];
    destruct (np_content navPoint) as [[s|]|]; try done.
  - destruct (truthy (normalize_text text)); [|done]. cbn [andb interpolate].
    destruct (truthy s) eqn:Hs; [done|].
    destruct (str_eqb s src) eqn:Heq; [|done].
    apply str_eqb_true in Heq. congruence.
  - destruct (truthy (normalize_text text)); [|done]. cbn [interpolate].
    destruct (str_eqb (lit "null") src) eqn:Heq; [|done].
    apply str_eqb_true in Heq. congruence.
Qed.

Lemma find_rev_is_last_nav_text snapshot src :
  truthy src = true → src ≠ lit "null" →
  V12.nav_title
    <$> List.find (λ nav, str_eqb (V12.nav_src nav) src)
          (V12.collect_navPoints (rev snapshot))
  = last_nav_text snapshot src.
Proof.
  intros Htruthy Hnull. induction snapshot as [|a l IH]; [done|].
  cbn [rev]. rewrite collect_navPoints_app, find_app_first,
    last_nav_text_cons, <- IH.
  destruct (List.find _ (V12.collect_navPoints (rev l))) as [nav|]; [done|].
  cbn [fmap option_fmap option_map].
  rewrite <- (navPoint_entry_pair a src Htruthy Hnull).
  unfold V12.collect_navPoints. cbn [omap list_omap].
  destruct (V12.navPoint_entry a) as [nav|]; [|done].
  cbn [List.find]. by destruct (str_eqb (V12.nav_src nav) src).
Qed.

Lemma collect_navPoints_rev l :
  V12.collect_navPoints (rev l) = rev (V12.collect_navPoints l).
Proof.
  unfold V12.collect_navPoints.
  induction l as [|a l IH]; [done|]. cbn [rev].
  rewrite omap_app, IH. cbn [omap list_omap].
  destruct (V12.navPoint_entry a); cbn [rev]; [done|by rewrite app_nil_r].
Qed.

(** X17.  For a chapter whose [src] is an ordinary name (not empty, not
    the text [null], not a property name of [Object.prototype]), the
    navigation stage of the condensed class gives the title that the
    stage of [EpubExtractor1.2.js] gives on the navigation points in
    reverse order: the last point with that [src] wins, not the first.
    When all points kept for that [src] carry the same title, the two
    classes give the same title. *)
Theorem condensed_takes_the_last_navigation_point
    (snapshot : list NavPoint) (ch : V12.Chapter) :
  V12.ch_src ch ∉ PlainObject.prototype_keys →
  truthy (V12.ch_src ch) = true →
  V12.ch_src ch ≠ lit "null" →
  Condensed.or_title
    (PlainObject.get (Condensed.nav_map snapshot) (V12.ch_src ch))
    (Condensed.Text (V12.ch_title ch))
  = Condensed.Text
      (V12.ch_title
         (V12.match_nav (V12.collect_navPoints (rev snapshot)) ch))
  ∧ ((∀ n1 n2,
        n1 ∈ V12.collect_navPoints snapshot →
        n2 ∈ V12.collect_navPoints snapshot →
        V12.nav_src n1 = V12.ch_src ch → V12.nav_src n2 = V12.ch_src ch →
        V12.nav_title n1 = V12.nav_title n2) →
     Condensed.or_title
       (PlainObject.get (Condensed.nav_map snapshot) (V12.ch_src ch))
       (Condensed.Text (V12.ch_title ch))
     = Condensed.Text
         (V12.ch_title (V12.match_nav (V12.collect_navPoints snapshot) ch))).
Proof.
  intros Hkeys Htruthy Hnull.
  assert (Hget :
    Condensed.or_title
      (PlainObject.get (Condensed.nav_map snapshot) (V12.ch_src ch))
      (Condensed.Text (V12.ch_title ch))
    = Condensed.Text
        (V12.ch_title
           (V12.match_nav (V12.collect_navPoints (rev snapshot)) ch))).
  { unfold Condensed.nav_map, PlainObject.get.
    destruct (nav_map_fold snapshot PlainObject.empty eq_refl eq_refl)
      as [-> Hown].
    rewrite Hown, andb_true_l.
    destruct (str_eqb (V12.ch_src ch) PlainObject.PROTO) eqn:Hk.
    { apply str_eqb_true in Hk. exfalso. apply Hkeys. rewrite Hk.
      unfold PlainObject.prototype_keys. set_solver. }
    pose proof (find_rev_is_last_nav_text snapshot _ Htruthy Hnull) as Hfind.
    unfold V12.match_nav.
    destruct (List.find _ (V12.collect_navPoints (rev snapshot))) as [nav|];
      cbn [fmap option_fmap option_map] in Hfind; rewrite <- Hfind.
    - cbn [Condensed.or_title V12.ch_title V12.set_title].
      symmetry in Hfind. apply last_nav_text_not_empty in Hfind.
      by destruct (V12.nav_title nav).
    - cbn [PlainObject.own PlainObject.empty]. rewrite lookup_empty.
      by rewrite bool_decide_eq_false_2. }
  split; [exact Hget|].
  intros Hsame. rewrite Hget. f_equal. unfold V12.match_nav.
  rewrite collect_navPoints_rev.
  destruct (List.find _ (rev (V12.collect_navPoints snapshot)))
    as [n1|] eqn:H1;
    destruct (List.find _ (V12.collect_navPoints snapshot)) as [n2|] eqn:H2.
  - apply find_some in H1 as [Hin1 Heq1]. apply find_some in H2 as [Hin2 Heq2].
    apply str_eqb_true in Heq1, Heq2. cbn [V12.ch_title V12.set_title].
    apply Hsame; [|by apply list_elem_of_In|done|done].
    apply list_elem_of_In. by apply in_rev.
  - apply find_some in H1 as [Hin1 Heq1]. apply in_rev in Hin1.
    by rewrite (find_none _ _ H2 _ Hin1) in Heq1.
  - apply find_some in H2 as [Hin2 Heq2]. apply in_rev in Hin2.
    rewrite <- rev_involutive in Hin2. apply in_rev in Hin2.
    apply in_rev in Hin2.
    by rewrite (find_none _ _ H1 _ Hin2) in Heq2.
  - done.
Qed.

(** ** The condensed class: titles after [init] *)

Section CondensedInit.
Context {DP : DocumentParser}.










End CondensedInit.

(** C5.  [p] of the condensed class assigns titles that no navigation
    entry's path supports.  The package has the chapters with the
    sources [toString] and [null]; its navigation document has one
    point, with a label and a [content] element without [src], so no
    entry refers to any path.  After [init] the first chapter holds the
    object that [Object.prototype] has under [toString], and the second
    the label of the point that has no path.  [parseNcx] of
    [EpubExtractor1.2.js] keeps no navigation entry of that document,
    and leaves both chapters with their default titles. *)
Theorem p_assigns_titles_without_a_navigation_entry :
  (Condensed.init (DP := Sample.parser) (Sample.fresh Sample.odd_zip)).1
  = Ok tt
  ∧ Condensed.ch_s
    <$> Condensed.c
          (this (Condensed.init (DP := Sample.parser)
                   (Sample.fresh Sample.odd_zip)).2)
    = [lit "toString"; lit "null"]
  ∧ ncx_navPoints (DocumentParser := Sample.parser) Sample.odd_ncx
    = Some [ {| np_text := Some (lit "Orphan"); np_content := Some None |} ]
  ∧ Condensed.ch_t
    <$> Condensed.c
          (this (Condensed.init (DP := Sample.parser)
                   (Sample.fresh Sample.odd_zip)).2)
    = [Condensed.Inherited (lit "toString"); Condensed.Text (lit "Orphan")]
  ∧ V12.collect_navPoints Sample.odd_navPoints = []
  ∧ (V12.init (DP := Sample.parser) (Fixture.fresh12 Sample.odd_zip)).1
    = Ok tt
  ∧ V12.ch_src
    <$> V12.chapters
          (this (V12.init (DP := Sample.parser)
                   (Fixture.fresh12 Sample.odd_zip)).2)
    = [lit "toString"; lit "null"]
  ∧ V12.ch_title
    <$> V12.chapters
          (this (V12.init (DP := Sample.parser)
                   (Fixture.fresh12 Sample.odd_zip)).2)
    = [default_title 0; default_title 1].
Proof. repeat split; vm_compute; reflexivity. Qed.
(** ** [EpubParser]: resolving relative paths *)

Lemma fold_resolve_step_names segs : ∀ bp,
  forallb (λ x, negb (str_eqb x DOTDOT)) segs = true →
  fold_left resolve_step segs bp = bp ++ segs.
Proof.
  induction segs as [|seg segs IH]; intros bp Hall; cbn [fold_left].
  - by rewrite app_nil_r.
  - cbn [forallb] in Hall. apply andb_prop in Hall as [Hseg Hrest].
    apply negb_true_iff in Hseg. rewrite IH by done.
    unfold resolve_step. rewrite Hseg. unfold push. by rewrite <- app_assoc.
Qed.

(** The loop removes the leading [..] segments, one base segment for
    each while there is one, and stops at the first other segment. *)
Lemma strip_for_spec segs : ∀ bp,
  ∃ bp' rp',
    Parser.strip_for (length segs) 0 bp segs = (bp', rp')
    ∧ (parents_lead segs = true →
       bp' ++ rp' = fold_left resolve_step segs bp)
    ∧ (parents_lead segs = false → DOTDOT ∈ rp')
    ∧ (∀ P : jsstring → Prop, Forall P bp → Forall P segs →
       Forall P (bp' ++ rp'))
    ∧ (head segs ≠ Some DOTDOT → bp' = bp ∧ rp' = segs).
Proof.
  induction segs as [|seg rest IH]; intros bp.
  - exists bp, []. cbn. rewrite app_nil_r. by repeat split.
  - cbn [length Parser.strip_for lookup list_lookup parents_lead].
    destruct (str_eqb seg DOTDOT) eqn:Hseg.
    + change (delete 0 (seg :: rest)) with rest.
      destruct (IH (if (0 <? length bp)%nat then pop bp else bp))
        as (bp' & rp' & Hrun & Hlead & Hkeep & HP & _).
      exists bp', rp'. split; [done|]. split; [|split; [done|split]].
      * intros Hl. rewrite (Hlead Hl). cbn [fold_left].
        f_equal. unfold resolve_step. by rewrite Hseg.
      * intros P Hbp Hsegs. inversion Hsegs; subst. apply HP; [|done].
        destruct (0 <? length bp)%nat; [|done].
        by apply Forall_removelast.
      * apply str_eqb_true in Hseg as ->. by intros [].
    + exists bp, (seg :: rest). split; [done|]. split; [|split; [|split]].
      * intros Hall. by rewrite fold_resolve_step_names.
      * intros Hall. apply not_true_iff_false in Hall.
        assert (Hex : ∃ x, x ∈ seg :: rest ∧ str_eqb x DOTDOT = true).
        { clear -Hall. induction (seg :: rest) as [|x l IHl];
            [by destruct Hall|].
          cbn [forallb] in Hall. destruct (str_eqb x DOTDOT) eqn:Hx.
          - exists x. split; [by left|done].
          - destruct IHl as (y & Hy & Hyd); [by cbn in Hall|].
            exists y. split; [by right|done]. }
        destruct Hex as (x & Hx & Hxd). apply str_eqb_true in Hxd.
        by subst.
      * intros P Hbp Hsegs. by apply Forall_app.
      * done.
Qed.

(** X19.  [resolveRelativePath] of [EpubParser] only resolves the [..]
    segments that come first in the reference: where every [..] of the
    reference precedes every other segment, it gives the result of
    [resolvePath] of [EpubExtractor]. *)
Theorem resolveRelativePath_agrees_when_parents_lead b r :
  parents_lead (segments r) = true →
  Parser.resolveRelativePath b r = resolvePath b r.
Proof.
  intros Hlead. unfold Parser.resolveRelativePath, resolvePath.
  destruct (startsWith_slash r); [done|].
  rewrite resolve_for_fold by lia. rewrite drop_0.
  fold (segments b) (segments r).
  destruct (strip_for_spec (segments r) (segments b))
    as (bp' & rp' & -> & Hfold & _).
  by rewrite (Hfold Hlead).
Qed.

Lemma elem_of_removelast {A} (x : A) (l : list A) :
  x ∈ removelast l → x ∈ l.
Proof.
  induction l as [|y [|z l] IH]; [done|by intros ?%elem_of_nil|].
  cbn [removelast]. intros [->|Hx]%elem_of_cons; [by left|].
  right. by apply IH.
Qed.

(** The loop of [resolvePath] never pushes a [..]. *)
Lemma fold_resolve_step_no_parent segs : ∀ bp,
  DOTDOT ∉ bp → DOTDOT ∉ fold_left resolve_step segs bp.
Proof.
  induction segs as [|seg segs IH]; intros bp Hbp; [done|].
  cbn [fold_left]. apply IH. unfold resolve_step.
  destruct (str_eqb seg DOTDOT) eqn:Hseg.
  - destruct (0 <? length bp)%nat; [|done].
    intros Hd. apply Hbp. by apply elem_of_removelast.
  - apply str_eqb_false in Hseg. unfold push.
    intros [Hd|Hd%list_elem_of_singleton]%elem_of_app; [done|].
    congruence.
Qed.

(** X20.  A [..] that follows another segment of the reference is never
    resolved by [resolveRelativePath]: it stays in the result as a
    segment, so that on a base without [..] segments the result differs
    from that of [resolvePath] of [EpubExtractor]. *)
Theorem resolveRelativePath_keeps_inner_parent b r :
  startsWith_slash r = false →
  parents_lead (segments r) = false →
  DOTDOT ∈ segments (Parser.resolveRelativePath b r)
  ∧ (DOTDOT ∉ segments b →
     Parser.resolveRelativePath b r ≠ resolvePath b r).
Proof.
  intros Hrel Hlead.
  assert (Hin : DOTDOT ∈ segments (Parser.resolveRelativePath b r)).
  { unfold Parser.resolveRelativePath. rewrite Hrel.
    fold (segments b) (segments r).
    destruct (strip_for_spec (segments r) (segments b))
      as (bp' & rp' & -> & _ & Hkeep & HP & _).
    rewrite segments_join.
    - apply elem_of_app. right. by apply Hkeep.
    - apply HP; apply segments_nonempty.
    - apply HP; apply segments_no_slash. }
  split; [exact Hin|].
  intros Hbase Heq. rewrite Heq in Hin.
  destruct (resolvePath_relative b r Hrel) as [_ Hsegs].
  rewrite Hsegs in Hin. revert Hin.
  by apply fold_resolve_step_no_parent.
Qed.

(** ** [EpubParser]: the chapter list from the spine *)

Lemma last_item_href_cons it l k :
  last_item_href (it :: l) k
  = match last_item_href l k with
    | Some v => Some v
    | None =>
        if str_eqb (interpolate (item_id it)) k then Some (item_href it)
        else None
    end.
Proof.
  unfold last_item_href. cbn [List.filter].
  destruct (str_eqb (interpolate (item_id it)) k); [|by destruct (last _)].
  rewrite last_cons. by destruct (last _).
Qed.

(** The own properties of [idToHrefMap] after the manifest loop, when no
    item assigns [null] to [__proto__]. *)
Lemma idToHrefMap_fold manifestItems : ∀ m,
  Forall (λ it, interpolate (item_id it) = PlainObject.PROTO →
                item_href it ≠ None) manifestItems →
  PlainObject.has_prototype m = true →
  PlainObject.own m !! PlainObject.PROTO = None →
  let m' :=
    fold_left
      (λ m item,
         PlainObject.set m (interpolate (item_id item)) (item_href item))
      manifestItems m in
  PlainObject.has_prototype m' = true
  ∧ ∀ k, PlainObject.own m' !! k
         = if str_eqb k PlainObject.PROTO then None
           else match last_item_href manifestItems k with
                | Some v => Some v
                | None => PlainObject.own m !! k
                end.
Proof.
  induction manifestItems as [|it l IH]; intros m Hall Hproto Hown;
    cbn [fold_left]; cbn zeta.
  - split; [done|]. intros k. destruct (str_eqb k PlainObject.PROTO) eqn:Hk;
      [|done].
    apply str_eqb_true in Hk as ->. done.
  - inversion Hall as [|? ? Hit Hrest]; subst.
    set (m1 := PlainObject.set m (interpolate (item_id it)) (item_href it)).
    assert (Hstep :
      PlainObject.has_prototype m1 = true
      ∧ PlainObject.own m1 !! PlainObject.PROTO = None
      ∧ ∀ k, k ≠ PlainObject.PROTO →
          PlainObject.own m1 !! k
          = if str_eqb (interpolate (item_id it)) k then Some (item_href it)
            else PlainObject.own m !! k).
    { unfold m1, PlainObject.set. rewrite Hproto, andb_true_r.
      destruct (str_eqb (interpolate (item_id it)) PlainObject.PROTO) eqn:Hs.
      - apply str_eqb_true in Hs. specialize (Hit Hs).
        destruct (item_href it) as [href|]; [|done].
        split; [done|]. split; [done|]. intros k Hk. rewrite Hs.
        destruct (str_eqb PlainObject.PROTO k) eqn:Hk'; [|done].
        apply str_eqb_true in Hk'. congruence.
      - apply str_eqb_false in Hs.
        cbn [PlainObject.own PlainObject.has_prototype].
        split; [done|]. split; [by rewrite lookup_insert_ne|].
        intros k Hk. destruct (str_eqb (interpolate (item_id it)) k) eqn:Hsk.
        + apply str_eqb_true in Hsk as <-. by rewrite lookup_insert_eq.
        + apply str_eqb_false in Hsk. by rewrite lookup_insert_ne. }
    destruct Hstep as (Hproto' & Hown' & Hlook).
    destruct (IH m1 Hrest Hproto' Hown') as [Hp IHk]. split; [exact Hp|].
    intros k. rewrite IHk.
    destruct (str_eqb k PlainObject.PROTO) eqn:Hk; [done|].
    apply str_eqb_false in Hk. rewrite last_item_href_cons.
    destruct (last_item_href l k) as [v|]; [done|].
    rewrite (Hlook k Hk).
    by destruct (str_eqb (interpolate (item_id it)) k).
Qed.

(** X21.  [idToHrefMap] is a plain object keyed by the [id] attribute (a
    missing [id] is the key [null]).  Unless an item named [__proto__]
    has a missing [href], a read under [key] gives the [href] of the
    last item with that [id], where [EpubExtractor] takes the first;
    with no such item, what [Object.prototype] holds under that name, if
    anything; and under [__proto__] it gives the prototype itself,
    whatever the manifest has. *)
Theorem idToHrefMap_read manifestItems key :
  Forall (λ it, interpolate (item_id it) = PlainObject.PROTO →
                item_href it ≠ None) manifestItems →
  PlainObject.get (Parser.idToHrefMap manifestItems) key
  = if str_eqb key PlainObject.PROTO
    then PlainObject.Inherited PlainObject.PROTO
    else match last_item_href manifestItems key with
         | Some href => PlainObject.Own href
         | None =>
             if bool_decide (key ∈ PlainObject.prototype_keys)
             then PlainObject.Inherited key
             else PlainObject.Undefined
         end.
Proof.
  intros Hall. unfold Parser.idToHrefMap, PlainObject.get.
  destruct (idToHrefMap_fold manifestItems PlainObject.empty Hall
              eq_refl eq_refl) as [-> Hown].
  rewrite Hown, andb_true_l.
  destruct (str_eqb key PlainObject.PROTO) eqn:Hk.
  - apply str_eqb_true in Hk as ->. by rewrite bool_decide_eq_true_2
      by (unfold PlainObject.prototype_keys; set_solver).
  - by destruct (last_item_href manifestItems key).
Qed.

(** What the spine loop adds to [chapters], and when it throws. *)
Lemma spine_forEach_spec base m spineItems : ∀ chapters index,
  match Parser.spine_forEach base m chapters index spineItems with
  | Ok result =>
      ∃ new,
        result = chapters ++ new
        ∧ Forall (λ ch,
            ∃ j idref href,
              spineItems !! j = Some idref
              ∧ PlainObject.get m (interpolate idref)
                = PlainObject.Own (Some href)
              ∧ truthy href = true
              ∧ ch = {| Parser.ch_id := Parser.chapter_id (index + j);
                        Parser.ch_title := Parser.chapter_title (index + j);
                        Parser.ch_path := Parser.resolveRelativePath base href;
                        Parser.ch_order := index + j + 1 |}) new
        ∧ Forall (λ ch, index < Parser.ch_order ch) new
        ∧ (∀ i j a b, i < j →
             (Parser.ch_order <$> new) !! i = Some a →
             (Parser.ch_order <$> new) !! j = Some b → a < b)
        ∧ length new
          = length
              (List.filter
                 (λ idref,
                    match PlainObject.get m (interpolate idref) with
                    | PlainObject.Own (Some href) => truthy href
                    | _ => false
                    end) spineItems)
        ∧ Forall (λ idref, ∀ k, PlainObject.get m (interpolate idref)
                                ≠ PlainObject.Inherited k) spineItems
  | Throw e =>
      e = TypeError
      ∧ Exists (λ idref, ∃ k, PlainObject.get m (interpolate idref)
                              = PlainObject.Inherited k) spineItems
  end.
Proof.
  induction spineItems as [|idref rest IH]; intros chapters index;
    cbn [Parser.spine_forEach].
  - exists []. rewrite app_nil_r.
    split; [done|]. split; [constructor|]. split; [constructor|].
    split; [by intros ? ? ? ? _ ?|]. split; [done|constructor].
  - assert (Hskip :
      (∀ k, PlainObject.get m (interpolate idref) ≠ PlainObject.Inherited k) →
      (∀ href, PlainObject.get m (interpolate idref)
               = PlainObject.Own (Some href) → truthy href = false) →
      match Parser.spine_forEach base m chapters (S index) rest with
      | Ok result =>
          ∃ new,
            result = chapters ++ new
            ∧ Forall (λ ch,
                ∃ j idref0 href,
                  (idref :: rest) !! j = Some idref0
                  ∧ PlainObject.get m (interpolate idref0)
                    = PlainObject.Own (Some href)
                  ∧ truthy href = true
                  ∧ ch = {| Parser.ch_id := Parser.chapter_id (index + j);
                            Parser.ch_title := Parser.chapter_title (index + j);
                            Parser.ch_path :=
                              Parser.resolveRelativePath base href;
                            Parser.ch_order := index + j + 1 |}) new
            ∧ Forall (λ ch, index < Parser.ch_order ch) new
            ∧ (∀ i j a b, i < j →
             (Parser.ch_order <$> new) !! i = Some a →
             (Parser.ch_order <$> new) !! j = Some b → a < b)
            ∧ length new
              = length
                  (List.filter
                     (λ idref,
                        match PlainObject.get m (interpolate idref) with
                        | PlainObject.Own (Some href) => truthy href
                        | _ => false
                        end) (idref :: rest))
            ∧ Forall (λ idref, ∀ k, PlainObject.get m (interpolate idref)
                                    ≠ PlainObject.Inherited k) (idref :: rest)
      | Throw e =>
          e = TypeError
          ∧ Exists (λ idref, ∃ k, PlainObject.get m (interpolate idref)
                                  = PlainObject.Inherited k) (idref :: rest)
      end).
    { intros Hni Hfalsy. specialize (IH chapters (S index)).
      destruct (Parser.spine_forEach base m chapters (S index) rest)
        as [result|e].
      - destruct IH as (new & -> & Hnew & Hlt & Hsorted & Hlen & Hnone).
        exists new. split; [done|]. split; [|split; [|split; [done|split]]].
        + eapply Forall_impl; [exact Hnew|].
          intros ch (j & idref0 & href & Hj & Hget & Ht & ->).
          exists (S j), idref0, href. split; [done|]. split; [done|].
          split; [done|].
          by replace (index + S j) with (S index + j) by lia.
        + eapply Forall_impl; [exact Hlt|].
          intros ch Hc. cbn beta in Hc |- *. lia.
        + cbn [List.filter]. rewrite Hlen.
          destruct (PlainObject.get m (interpolate idref)) as [[href|]|k|]
            eqn:Hget; try done.
          by rewrite (Hfalsy href eq_refl).
        + by constructor.
      - destruct IH as [-> Hex]. split; [done|]. by apply Exists_cons_tl. }
    destruct (PlainObject.get m (interpolate idref)) as [[href|]|k|] eqn:Hget.
    + destruct (truthy href) eqn:Htruthy.
      2:{ apply Hskip; [done|]. by intros ? [= <-]. }
      specialize (IH (push chapters
                        {| Parser.ch_id := Parser.chapter_id index;
                           Parser.ch_title := Parser.chapter_title index;
                           Parser.ch_path := Parser.resolvePath base href;
                           Parser.ch_order := index + 1 |}) (S index)).
      destruct (Parser.spine_forEach base m _ (S index) rest) as [result|e].
      * destruct IH as (new & -> & Hnew & Hlt & Hsorted & Hlen & Hnone).
        eexists (_ :: new). unfold push. rewrite <- app_assoc.
        split; [done|]. split; [|split; [|split; [|split]]].
        -- constructor.
           ++ exists 0, idref, href. rewrite Nat.add_0_r. by repeat split.
           ++ eapply Forall_impl; [exact Hnew|].
              intros ch (j & idref0 & href0 & Hj & Hget0 & Ht & ->).
              exists (S j), idref0, href0. split; [done|]. split; [done|].
              split; [done|].
              by replace (index + S j) with (S index + j) by lia.
        -- constructor; [cbn; lia|].
           eapply Forall_impl; [exact Hlt|]. intros ch Hc. cbn beta in Hc |- *. lia.
        -- intros [|i] [|j] a b Hij Ha Hb; try lia.
           ++ cbn in Ha. injection Ha as <-.
              rewrite list_lookup_fmap in Hb. cbn in Hb.
              destruct (new !! j) as [ch|] eqn:Hch; [|done].
              injection Hb as <-.
              rewrite Forall_lookup in Hlt. specialize (Hlt j ch Hch). lia.
           ++ apply (Hsorted i j a b); [lia|exact Ha|exact Hb].
        -- cbn [List.filter]. rewrite Hget, Htruthy. cbn [length].
           by rewrite Hlen.
        -- constructor; [|done]. intros k. by rewrite Hget.
      * destruct IH as [-> Hex]. split; [done|]. by apply Exists_cons_tl.
    + apply Hskip; [done|done].
    + split; [done|]. apply Exists_cons_hd. by exists k.
    + apply Hskip; [done|done].
Qed.

(** X22.  [extractChaptersFromSpine] either throws a [TypeError], which
    it does exactly when the [idref] of some spine entry reads an
    inherited function or object from [idToHrefMap], or returns the
    one chapter for each spine entry whose [idref] reads a non-empty
    [href]: each chapter is numbered by the position of its entry in the
    spine, so that [order] increases strictly along the list and skips
    the numbers of the entries left out. *)
Theorem extractChaptersFromSpine_outcomes base manifestItems spineItems :
  match Parser.extractChaptersFromSpine base manifestItems spineItems with
  | Ok chapters =>
      Forall (λ ch,
        ∃ index idref href,
          spineItems !! index = Some idref
          ∧ PlainObject.get (Parser.idToHrefMap manifestItems)
              (interpolate idref) = PlainObject.Own (Some href)
          ∧ truthy href = true
          ∧ ch = {| Parser.ch_id := Parser.chapter_id index;
                    Parser.ch_title := Parser.chapter_title index;
                    Parser.ch_path := Parser.resolveRelativePath base href;
                    Parser.ch_order := index + 1 |}) chapters
      ∧ (∀ i j a b, i < j →
             (Parser.ch_order <$> chapters) !! i = Some a →
             (Parser.ch_order <$> chapters) !! j = Some b → a < b)
      ∧ length chapters
        = length
            (List.filter
               (λ idref,
                  match PlainObject.get (Parser.idToHrefMap manifestItems)
                          (interpolate idref) with
                  | PlainObject.Own (Some href) => truthy href
                  | _ => false
                  end) spineItems)
      ∧ Forall (λ idref,
          ∀ k, PlainObject.get (Parser.idToHrefMap manifestItems)
                 (interpolate idref) ≠ PlainObject.Inherited k) spineItems
  | Throw e =>
      e = TypeError
      ∧ Exists (λ idref,
          ∃ k, PlainObject.get (Parser.idToHrefMap manifestItems)
                 (interpolate idref) = PlainObject.Inherited k) spineItems
  end.
Proof.
  unfold Parser.extractChaptersFromSpine.
  pose proof (spine_forEach_spec base (Parser.idToHrefMap manifestItems)
                spineItems [] 0) as H.
  destruct (Parser.spine_forEach _ _ [] 0 spineItems) as [chapters|e];
    [|exact H].
  destruct H as (new & -> & Hnew & _ & Hsorted & Hlen & Hnone).
  rewrite app_nil_l. split; [exact Hnew|]. split; [exact Hsorted|].
  split; [exact Hlen|exact Hnone].
Qed.


(** ** Instances on example data *)

Lemma resolvePath_is_normalised_witness :
  startsWith_slash (lit "../images//a.png") = false
  ∧ join_slash
      (segments (resolvePath (lit "OEBPS/text/") (lit "../images//a.png")))
    = resolvePath (lit "OEBPS/text/") (lit "../images//a.png")
  ∧ resolvePath (lit "OEBPS/text/") (lit "../images//a.png")
    = lit "OEBPS/images/a.png".
Proof.
  assert (H1 : startsWith_slash (lit "../images//a.png") = false)
    by reflexivity.
  split; [exact H1|]. split.
  - exact (proj1 (resolvePath_is_normalised (lit "OEBPS/text/")
                    (lit "../images//a.png") H1)).
  - vm_compute; reflexivity.
Defined.

Lemma resolvePath_leaves_no_parent_segment_witness :
  startsWith_slash (lit "../../../a.png") = false
  ∧ (DOTDOT ∉ segments (lit "OEBPS/text/"))
  ∧ (DOTDOT
     ∉ segments (resolvePath (lit "OEBPS/text/") (lit "../../../a.png"))).
Proof.
  assert (H1 : startsWith_slash (lit "../../../a.png") = false)
    by reflexivity.
  assert (H2 : DOTDOT ∉ segments (lit "OEBPS/text/")).
  { apply (bool_decide_unpack _). vm_compute. exact I. }
  split; [exact H1|]. split; [exact H2|].
  exact (resolvePath_leaves_no_parent_segment (lit "OEBPS/text/")
           (lit "../../../a.png") H1 H2).
Defined.

Lemma resolvePath_composes_witness :
  startsWith_slash (lit "text/..") = false
  ∧ lit "text/.." ≠ []
  ∧ startsWith_slash (lit "../a.png") = false
  ∧ resolvePath (resolvePath (lit "OEBPS/") (lit "text/..")) (lit "../a.png")
    = resolvePath (lit "OEBPS/") (lit "text/.." ++ SLASH :: lit "../a.png").
Proof.
  assert (H1 : startsWith_slash (lit "text/..") = false) by reflexivity.
  assert (H2 : lit "text/.." ≠ []) by (vm_compute; discriminate).
  assert (H3 : startsWith_slash (lit "../a.png") = false) by reflexivity.
  split; [exact H1|]. split; [exact H2|]. split; [exact H3|].
  exact (resolvePath_composes (lit "OEBPS/") (lit "text/..") (lit "../a.png")
           H1 H2 H3).
Defined.

Lemma s_agrees_below_root_witness :
  climbs_above_root (length (segments (lit "OEBPS/text/")))
    (segments (lit "../../a/../b")) = false
  ∧ Compact.s (lit "OEBPS/text/") (lit "../../a/../b")
    = resolvePath (lit "OEBPS/text/") (lit "../../a/../b").
Proof.
  assert (H1 : climbs_above_root (length (segments (lit "OEBPS/text/")))
                 (segments (lit "../../a/../b")) = false)
    by (vm_compute; reflexivity).
  split; [exact H1|].
  exact (s_agrees_below_root (lit "OEBPS/text/") (lit "../../a/../b") H1).
Defined.

Lemma resolveRelativePath_agrees_when_parents_lead_witness :
  parents_lead (segments (lit "../../images/a.png")) = true
  ∧ Parser.resolveRelativePath (lit "OEBPS/text/") (lit "../../images/a.png")
    = resolvePath (lit "OEBPS/text/") (lit "../../images/a.png").
Proof.
  assert (H1 : parents_lead (segments (lit "../../images/a.png")) = true)
    by (vm_compute; reflexivity).
  split; [exact H1|].
  exact (resolveRelativePath_agrees_when_parents_lead (lit "OEBPS/text/")
           (lit "../../images/a.png") H1).
Defined.

Lemma resolveRelativePath_keeps_inner_parent_witness :
  startsWith_slash (lit "text/../images/a.png") = false
  ∧ parents_lead (segments (lit "text/../images/a.png")) = false
  ∧ (DOTDOT ∈ segments (Parser.resolveRelativePath (lit "OEBPS/")
                          (lit "text/../images/a.png")))
  ∧ Parser.resolveRelativePath (lit "OEBPS/") (lit "text/../images/a.png")
    ≠ resolvePath (lit "OEBPS/") (lit "text/../images/a.png").
Proof.
  assert (H1 : startsWith_slash (lit "text/../images/a.png") = false)
    by reflexivity.
  assert (H2 : parents_lead (segments (lit "text/../images/a.png")) = false)
    by (vm_compute; reflexivity).
  assert (H3 : DOTDOT ∉ segments (lit "OEBPS/")).
  { apply (bool_decide_unpack _). vm_compute. exact I. }
  split; [exact H1|]. split; [exact H2|].
  destruct (resolveRelativePath_keeps_inner_parent (lit "OEBPS/")
              (lit "text/../images/a.png") H1 H2) as [Hin Hne].
  split; [exact Hin|exact (Hne H3)].
Defined.

Lemma init_titles_are_not_empty_witness :
  V12.initialized (this (Fixture.fresh12 Fixture.book_zip)) = false
  ∧ V12.init (DP := Fixture.parser) (Fixture.fresh12 Fixture.book_zip)
    = (Ok tt, Fixture.ready_book)
  ∧ Forall (λ c, V12.ch_title c ≠ [])
      (V12.chapters (this Fixture.ready_book)).
Proof.
  assert (H1 : V12.initialized (this (Fixture.fresh12 Fixture.book_zip))
               = false) by reflexivity.
  assert (H2 : V12.init (DP := Fixture.parser)
                 (Fixture.fresh12 Fixture.book_zip)
               = (Ok tt, Fixture.ready_book)) by (vm_compute; reflexivity).
  split; [exact H1|]. split; [exact H2|].
  exact (init_titles_are_not_empty (DP := Fixture.parser) _ _ H1 H2).
Defined.


Lemma declared_package_path_is_final_witness :
  V12.initialized (this (Fixture.fresh12 Sample.dangling_zip)) = false
  ∧ zip_file Sample.dangling_zip containerPath
    = Some (Fixture.entry Fixture.container_xml)
  ∧ zip_file Sample.dangling_zip (lit "OEBPS/content.opf") = None
  ∧ zip_file Sample.dangling_zip (lit "content.opf")
    = Some (Fixture.entry Fixture.plain_opf)
  ∧ (V12.init (DP := Fixture.parser)
       (Fixture.fresh12 Sample.dangling_zip)).1
    = Throw (Error MSG_OPF_MISSING).
Proof.
  assert (H1 : V12.initialized (this (Fixture.fresh12 Sample.dangling_zip))
               = false) by reflexivity.
  assert (H2 : V12.epubFile (this (Fixture.fresh12 Sample.dangling_zip))
               = ZipBlob Sample.dangling_zip) by reflexivity.
  assert (H3 : zip_file Sample.dangling_zip containerPath
               = Some (Fixture.entry Fixture.container_xml))
    by (vm_compute; reflexivity).
  assert (H4 : head (xml_rootfiles (DocumentParser := Fixture.parser)
                       (entry_text (Fixture.entry Fixture.container_xml)))
               = Some (Some (lit "OEBPS/content.opf")))
    by (vm_compute; reflexivity).
  assert (H5 : truthy (lit "OEBPS/content.opf") = true) by reflexivity.
  assert (H6 : zip_file Sample.dangling_zip (lit "OEBPS/content.opf") = None)
    by (vm_compute; reflexivity).
  split; [exact H1|]. split; [exact H3|]. split; [exact H6|].
  split; [vm_compute; reflexivity|].
  exact (proj1 (declared_package_path_is_final (DP := Fixture.parser)
                  _ _ _ _ H1 H2 H3 H4 H5 H6)).
Defined.

Lemma parseContentOpf_succeeds_iff_witness :
  V12.jszip (this Sample.located_book) = Some Fixture.book_zip
  ∧ V12.contentOpfPath (this Sample.located_book)
    = Some (lit "OEBPS/content.opf")
  ∧ zip_file Fixture.book_zip (lit "OEBPS/content.opf")
    = Some (Fixture.entry Fixture.book_opf)
  ∧ Forall (λ r, css_plain (interpolate r) = true)
      (xml_spine_idrefs (DocumentParser := Fixture.parser)
         (entry_text (Fixture.entry Fixture.book_opf)))
  ∧ (V12.parseContentOpf (DP := Fixture.parser) Sample.located_book).1
    = Ok tt
  ∧ ∀ idRef item,
      idRef ∈ xml_spine_idrefs (DocumentParser := Fixture.parser)
                (entry_text (Fixture.entry Fixture.book_opf)) →
      names_item
        (xml_items (DocumentParser := Fixture.parser)
           (entry_text (Fixture.entry Fixture.book_opf)))
        (interpolate idRef) item →
      is_Some (item_href item).
Proof.
  assert (H1 : V12.jszip (this Sample.located_book) = Some Fixture.book_zip)
    by reflexivity.
  assert (H2 : V12.contentOpfPath (this Sample.located_book)
               = Some (lit "OEBPS/content.opf")) by reflexivity.
  assert (H3 : zip_file Fixture.book_zip (lit "OEBPS/content.opf")
               = Some (Fixture.entry Fixture.book_opf))
    by (vm_compute; reflexivity).
  assert (H4 : Forall (λ r, css_plain (interpolate r) = true)
                 (xml_spine_idrefs (DocumentParser := Fixture.parser)
                    (entry_text (Fixture.entry Fixture.book_opf)))).
  { apply (bool_decide_unpack _). vm_compute. exact I. }
  assert (H5 : (V12.parseContentOpf (DP := Fixture.parser)
                  Sample.located_book).1 = Ok tt)
    by (vm_compute; reflexivity).
  split; [exact H1|]. split; [exact H2|]. split; [exact H3|].
  split; [exact H4|]. split; [exact H5|].
  destruct (parseContentOpf_succeeds_iff (DP := Fixture.parser)
              Sample.located_book _ _ _ H1 H2 H3 H4) as [Hiff _].
  exact (proj2 (proj1 Hiff H5)).
Defined.

Lemma titles_of_a_complete_spine_witness :
  V12.initialized (this (Fixture.fresh12 Fixture.plain_zip)) = false
  ∧ (V12.init (DP := Fixture.parser) (Fixture.fresh12 Fixture.plain_zip)).1
    = Ok tt
  ∧ Forall (λ r, css_plain (interpolate r) = true)
      (xml_spine_idrefs (DocumentParser := Fixture.parser)
         Fixture.plain_opf)
  ∧ Forall (λ r, resolvable
                   (xml_items (DocumentParser := Fixture.parser)
                      Fixture.plain_opf) r = true)
      (xml_spine_idrefs (DocumentParser := Fixture.parser)
         Fixture.plain_opf)
  ∧ V12.ch_src
    <$> V12.chapters
          (this (V12.init (DP := Fixture.parser)
                   (Fixture.fresh12 Fixture.plain_zip)).2)
    = [lit "c1.xhtml"]
  ∧ nav_title_for (DP := Fixture.parser) Fixture.plain_zip None
      (lit "c1.xhtml") = None
  ∧ heading_title_for (DP := Fixture.parser) Fixture.plain_zip
      (lit "c1.xhtml") = Some (lit "Heading")
  ∧ V12.ch_title
    <$> V12.chapters
          (this (V12.init (DP := Fixture.parser)
                   (Fixture.fresh12 Fixture.plain_zip)).2)
    = [lit "Heading"].
Proof.
  set (w' := (V12.init (DP := Fixture.parser)
                (Fixture.fresh12 Fixture.plain_zip)).2).
  set (c0 := {| V12.ch_id := Some (lit "c1");
                V12.ch_path := lit "c1.xhtml";
                V12.ch_src := lit "c1.xhtml";
                V12.ch_title := lit "Heading" |}).
  assert (H1 : V12.initialized (this (Fixture.fresh12 Fixture.plain_zip))
               = false) by reflexivity.
  assert (H2 : V12.init (DP := Fixture.parser)
                 (Fixture.fresh12 Fixture.plain_zip) = (Ok tt, w'))
    by (vm_compute; reflexivity).
  assert (H3 : V12.jszip (this w') = Some Fixture.plain_zip)
    by (vm_compute; reflexivity).
  assert (H4 : V12.contentOpfPath (this w') = Some (lit "content.opf"))
    by (vm_compute; reflexivity).
  assert (H5 : zip_file Fixture.plain_zip (lit "content.opf")
               = Some (Fixture.entry Fixture.plain_opf))
    by (vm_compute; reflexivity).
  assert (H6 : Forall (λ r, css_plain (interpolate r) = true)
                 (xml_spine_idrefs (DocumentParser := Fixture.parser)
                    Fixture.plain_opf)).
  { apply (bool_decide_unpack _). vm_compute. exact I. }
  assert (H7 : Forall (λ r, resolvable
                              (xml_items (DocumentParser := Fixture.parser)
                                 Fixture.plain_opf) r = true)
                 (xml_spine_idrefs (DocumentParser := Fixture.parser)
                    Fixture.plain_opf)).
  { apply (bool_decide_unpack _). vm_compute. exact I. }
  assert (H8 : V12.chapters (this w') !! 0%nat = Some c0)
    by (vm_compute; reflexivity).
  split; [exact H1|]. split; [by rewrite H2|]. split; [exact H6|].
  split; [exact H7|]. split; [vm_compute; reflexivity|].
  split; [vm_compute; reflexivity|]. split; [vm_compute; reflexivity|].
  pose proof (titles_of_a_complete_spine (DP := Fixture.parser)
                (Fixture.fresh12 Fixture.plain_zip) w' Fixture.plain_zip
                (lit "content.opf") (Fixture.entry Fixture.plain_opf)
                H1 H2 H3 H4 H5 H6 H7 0%nat c0 H8) as Ht.
  assert (Hc : V12.chapters (this w') = [c0]) by (vm_compute; reflexivity).
  rewrite Hc. cbn [fmap list_fmap]. rewrite Ht.
  vm_compute; reflexivity.
Defined.

Lemma title_queries_agree_witness :
  V12.initialized (this Fixture.ready_book) = true
  ∧ ∃ n titles,
      V12.getChapterCount Fixture.ready_book = (Ok n, Fixture.ready_book)
      ∧ V12.getChapterTitles Fixture.ready_book
        = (Ok titles, Fixture.ready_book)
      ∧ length titles = n.
Proof.
  assert (H1 : V12.initialized (this Fixture.ready_book) = true)
    by (vm_compute; reflexivity).
  split; [exact H1|].
  destruct (title_queries_agree Fixture.ready_book 0 H1)
    as (n & titles & Hn & Ht & Hlen & _).
  exists n, titles. split; [exact Hn|]. split; [exact Ht|exact Hlen].
Defined.

Lemma both_classes_find_the_same_chapters_witness :
  V10.epubFile (this (Fixture.fresh10 Fixture.book_zip))
  = V12.epubFile (this (Fixture.fresh12 Fixture.book_zip))
  ∧ V12.init (DP := Fixture.parser) (Fixture.fresh12 Fixture.book_zip)
    = (Ok tt, Fixture.ready_book)
  ∧ (V10.init (DP := Fixture.parser) (Fixture.fresh10 Fixture.book_zip)).1
    = Ok tt
  ∧ V10.chapters
      (this (V10.init (DP := Fixture.parser)
               (Fixture.fresh10 Fixture.book_zip)).2)
    = id_and_path <$> V12.chapters (this Fixture.ready_book).
Proof.
  assert (H1 : V10.epubFile (this (Fixture.fresh10 Fixture.book_zip))
               = V12.epubFile (this (Fixture.fresh12 Fixture.book_zip)))
    by reflexivity.
  assert (H2 : V12.initialized (this (Fixture.fresh12 Fixture.book_zip))
               = false) by reflexivity.
  assert (H3 : V10.initialized (this (Fixture.fresh10 Fixture.book_zip))
               = false) by reflexivity.
  assert (H4 : V12.init (DP := Fixture.parser)
                 (Fixture.fresh12 Fixture.book_zip)
               = (Ok tt, Fixture.ready_book)) by (vm_compute; reflexivity).
  split; [exact H1|]. split; [exact H4|].
  destruct (both_classes_find_the_same_chapters (DP := Fixture.parser)
              _ _ _ H1 H2 H3 H4) as (Hok & _ & Hch & _).
  split; [exact Hok|exact Hch].
Defined.

Lemma condensed_takes_the_last_navigation_point_witness :
  (V12.ch_src Sample.twin_chapter ∉ PlainObject.prototype_keys)
  ∧ truthy (V12.ch_src Sample.twin_chapter) = true
  ∧ V12.ch_src Sample.twin_chapter ≠ lit "null"
  ∧ Condensed.or_title
      (PlainObject.get (Condensed.nav_map Sample.twin_navPoints)
         (V12.ch_src Sample.twin_chapter))
      (Condensed.Text (V12.ch_title Sample.twin_chapter))
    = Condensed.Text (lit "New")
  ∧ V12.ch_title
      (V12.match_nav (V12.collect_navPoints Sample.twin_navPoints)
         Sample.twin_chapter)
    = lit "Old".
Proof.
  assert (H1 : V12.ch_src Sample.twin_chapter ∉ PlainObject.prototype_keys).
  { apply (bool_decide_unpack _). vm_compute. exact I. }
  assert (H2 : truthy (V12.ch_src Sample.twin_chapter) = true)
    by reflexivity.
  assert (H3 : V12.ch_src Sample.twin_chapter ≠ lit "null")
    by (vm_compute; discriminate).
  split; [exact H1|]. split; [exact H2|]. split; [exact H3|].
  split; [|vm_compute; reflexivity].
  rewrite (proj1 (condensed_takes_the_last_navigation_point
                    Sample.twin_navPoints Sample.twin_chapter H1 H2 H3)).
  vm_compute; reflexivity.
Defined.


Lemma idToHrefMap_read_witness :
  Forall (λ it, interpolate (item_id it) = PlainObject.PROTO →
                item_href it ≠ None) Sample.twin_items
  ∧ PlainObject.get (Parser.idToHrefMap Sample.twin_items) (lit "c1")
    = PlainObject.Own (Some (lit "b.xhtml"))
  ∧ PlainObject.get (Parser.idToHrefMap Sample.twin_items) (lit "toString")
    = PlainObject.Inherited (lit "toString").
Proof.
  assert (H1 : Forall (λ it, interpolate (item_id it) = PlainObject.PROTO →
                             item_href it ≠ None) Sample.twin_items).
  { repeat constructor; intros _; vm_compute; discriminate. }
  split; [exact H1|]. split.
  - rewrite (idToHrefMap_read Sample.twin_items (lit "c1") H1).
    vm_compute; reflexivity.
  - rewrite (idToHrefMap_read Sample.twin_items (lit "toString") H1).
    vm_compute; reflexivity.
Defined.

Lemma both_classes_fetch_the_same_document_witness :
  V10.initialized
    (this (V10.init (DP := Fixture.parser)
             (Fixture.fresh10 Fixture.book_zip)).2)
  = V12.initialized (this Fixture.ready_book)
  ∧ V10.jszip
      (this (V10.init (DP := Fixture.parser)
               (Fixture.fresh10 Fixture.book_zip)).2)
    = V12.jszip (this Fixture.ready_book)
  ∧ V10.chapters
      (this (V10.init (DP := Fixture.parser)
               (Fixture.fresh10 Fixture.book_zip)).2)
    = id_and_path <$> V12.chapters (this Fixture.ready_book)
  ∧ (V10.getChapterXhtml (Integer 1)
       (V10.init (DP := Fixture.parser)
          (Fixture.fresh10 Fixture.book_zip)).2).1
    = (V12.getChapterXhtml (Integer 1) Fixture.ready_book).1
  ∧ (V10.getChapterXhtml (Finite 1 2)
       (V10.init (DP := Fixture.parser)
          (Fixture.fresh10 Fixture.book_zip)).2).1
    = (V12.getChapterXhtml (Finite 1 2) Fixture.ready_book).1.
Proof.
  assert (H1 : V10.initialized
                 (this (V10.init (DP := Fixture.parser)
                          (Fixture.fresh10 Fixture.book_zip)).2)
               = V12.initialized (this Fixture.ready_book))
    by (vm_compute; reflexivity).
  assert (H2 : V10.jszip
                 (this (V10.init (DP := Fixture.parser)
                          (Fixture.fresh10 Fixture.book_zip)).2)
               = V12.jszip (this Fixture.ready_book))
    by (vm_compute; reflexivity).
  assert (H3 : V10.chapters
                 (this (V10.init (DP := Fixture.parser)
                          (Fixture.fresh10 Fixture.book_zip)).2)
               = id_and_path <$> V12.chapters (this Fixture.ready_book))
    by (vm_compute; reflexivity).
  split; [exact H1|]. split; [exact H2|]. split; [exact H3|]. split.
  - exact (proj1 (both_classes_fetch_the_same_document _ _ (Integer 1)
                    H1 H2 H3)).
  - exact (proj1 (both_classes_fetch_the_same_document _ _ (Finite 1 2)
                    H1 H2 H3)).
Defined.


